(** * Reconciliation core of the festival portal: a shallow embedding

    The development follows the three service files of the repository:
    the short-film comments service (score field mapping, the three-tier
    comment query, scoring updates with their edit history), its earlier
    single-query variant, and the feature-film service (crew extraction,
    create / update with guest synchronisation, legacy-to-enhanced
    conversion).

    Part I holds the definitions, Part II the facts proved about them. *)

From Stdlib Require Import ZArith String Ascii List Lia.
From stdpp Require Import base option list gmap strings pretty sorting.

#[local] Set Warnings "-register-all".
#[local] Open Scope Z_scope.

(* ===================================================================== *)
(** * Part I. Definitions                                                 *)
(* ===================================================================== *)

(** ** JavaScript values

    Every object the services read is typed [any] (Firestore
    [DocumentData], or an explicit [any] parameter), so objects are finite
    maps from property names to values and every property read goes
    through truthiness the way [||], [&&], [!] and [?:] do.

    Numbers are the integer-valued doubles the scoring sliders and counters
    produce, plus [NaN]; strings are byte strings. *)
Module JS.

Inductive jsval : Type :=
| JUndefined
| JNull
| JBool (b : bool)
| JNum (n : Z)
| JNaN
| JStr (s : string)
| JArr (items : list jsval)
| JObj (fields : gmap string jsval)
| JTimestamp (ms : Z)       (* Firestore Timestamp, as [toDate()] reads it *)
| JDate (ms : Z)            (* Date with the given epoch milliseconds *)
| JDateOf (src : jsval)     (* [new Date(src)], left unparsed *)
| JFile (name : string).    (* browser File object *)

Abbreviation jsobj := (gmap string jsval).

(** [!!v] of JavaScript: everything is truthy except [undefined], [null],
    [false], [0], [NaN] and the empty string. *)
Definition truthy (v : jsval) : bool :=
  match v with
  | JUndefined | JNull | JNaN => false
  | JBool b => b
  | JNum n => negb (n =? 0)%Z
  | JStr s => negb (String.eqb s "")
  | _ => true
  end.

(** [a || b] *)
Definition or_js (a b : jsval) : jsval := if truthy a then a else b.

(** [v.k], for a property name (not an index), on a value that is neither
    [null] nor [undefined]: own property of an object, [length] of an array
    or string, [name] of a file, [undefined] otherwise. *)
Definition get (v : jsval) (k : string) : jsval :=
  match v with
  | JObj o => default JUndefined (o !! k)
  | JArr l => if String.eqb k "length" then JNum (Z.of_nat (length l))
              else JUndefined
  | JStr s => if String.eqb k "length" then JNum (Z.of_nat (String.length s))
              else JUndefined
  | JFile n => if String.eqb k "name" then JStr n else JUndefined
  | _ => JUndefined
  end.

(** [o.k] on a known object. *)
Definition prop (o : jsobj) (k : string) : jsval := default JUndefined (o !! k).

Definition is_nullish (v : jsval) : bool :=
  match v with JUndefined | JNull => true | _ => false end.

Definition is_undefined (v : jsval) : bool :=
  match v with JUndefined => true | _ => false end.

(** [Array.isArray(v)] *)
Definition isArray (v : jsval) : bool :=
  match v with JArr _ => true | _ => false end.

(** [v === true] *)
Definition is_true (v : jsval) : bool :=
  match v with JBool true => true | _ => false end.

(** [v === s] for a string literal [s] *)
Definition is_str (v : jsval) (s : string) : bool :=
  match v with JStr s' => String.eqb s' s | _ => false end.

(** Outcome of code that may throw: a value, or the message of the thrown
    [Error]. *)
Inductive result (A : Type) : Type :=
| Ok (a : A)
| Throw (msg : string).
Arguments Ok {A} a.
Arguments Throw {A} msg.

Definition rbind {A B} (r : result A) (k : A -> result B) : result B :=
  match r with Ok a => k a | Throw m => Throw m end.

(** [try { r } catch { h }] *)
Definition try_catch {A} (r : result A) (h : string -> result A) : result A :=
  match r with Ok a => Ok a | Throw m => h m end.

Definition is_ok {A} (r : result A) : bool :=
  match r with Ok _ => true | Throw _ => false end.

Fixpoint rmap_list {A B} (f : A -> result B) (l : list A) : result (list B) :=
  match l with
  | [] => Ok []
  | x :: l' =>
      rbind (f x) (fun y => rbind (rmap_list f l') (fun ys => Ok (y :: ys)))
  end.

(** *** Strings (ASCII model of [trim], [split(',')], [toLowerCase]) *)

Definition is_space (c : ascii) : bool :=
  let n := nat_of_ascii c in
  ((9 <=? n) && (n <=? 13))%nat || (n =? 32)%nat.

Fixpoint trim_start (s : string) : string :=
  match s with
  | String c s' => if is_space c then trim_start s' else s
  | EmptyString => EmptyString
  end.

(** Drops trailing white space: a character is kept when it is not a space
    or when something non-blank follows it. *)
Fixpoint trim_end (s : string) : string :=
  match s with
  | EmptyString => EmptyString
  | String c s' =>
      match trim_end s' with
      | EmptyString => if is_space c then EmptyString else String c EmptyString
      | t => String c t
      end
  end.

Definition trim (s : string) : string := trim_end (trim_start s).

(** [s.split(sep)] for a one-character separator: always at least one
    piece. *)
Fixpoint split_on (sep : ascii) (s : string) : list string :=
  match s with
  | EmptyString => [EmptyString]
  | String c s' =>
      if Ascii.eqb c sep then EmptyString :: split_on sep s'
      else match split_on sep s' with
           | p :: ps => String c p :: ps
           | [] => [String c EmptyString]
           end
  end.

Definition comma : ascii := ","%char.

Definition lower_char (c : ascii) : ascii :=
  let n := nat_of_ascii c in
  if ((65 <=? n) && (n <=? 90))%nat then ascii_of_nat (n + 32) else c.

Fixpoint toLowerCase (s : string) : string :=
  match s with
  | EmptyString => EmptyString
  | String c s' => String (lower_char c) (toLowerCase s')
  end.

(** [v.trim()] where [v] is already known to be neither [null] nor
    [undefined]: only strings have the method. *)
Definition call_trim (v : jsval) : result string :=
  match v with
  | JStr s => Ok (trim s)
  | _ => Throw "trim is not a function"
  end.

(** [v?.trim()] *)
Definition opt_trim (v : jsval) : result jsval :=
  if is_nullish v then Ok JUndefined
  else rbind (call_trim v) (fun s => Ok (JStr s)).

End JS.
Export JS.

Notation "'let*' x ':=' r 'in' k" := (rbind r (fun x => k))
  (at level 10, x name, r at level 100, k at level 200).

(** ** The document store, as the services see it

    The store is an external collaborator: each call is answered or
    rejected by it, so every operation takes the store's reply for that
    call as an argument. *)
Module Store.

(** What the store does with one write or read request: whether it
    accepts it, the identifier it assigns to a document created by
    [addDoc], and the time it stamps for [serverTimestamp()]. *)
Record Reply : Type := {
  read_ok : bool;
  write_ok : bool;
  auto_id : string;
  server_time : Z
}.

(** *** Payloads that carry [serverTimestamp()]

    Where the source passes [serverTimestamp()] as the value of a field of
    the document, the payloads of [addDoc] and [updateDoc] below hold the
    time the store writes in its place, [JTimestamp (server_time r)]. The
    SDK accepts the sentinel there and as a field of a map, but not inside
    an array: [updateDoc] and [addDoc] check their data before anything is
    sent and throw "serverTimestamp() is not currently supported inside
    arrays". A payload in which the source nests the sentinel is therefore
    written out as it is built, in the type below, and goes through that
    check. *)
Inductive payload : Type :=
| PVal (v : jsval)                          (* a plain value *)
| PServerTimestamp                          (* [serverTimestamp()] *)
| PArr (items : list payload)               (* [[..., ...]] *)
| PObj (fields : list (string * payload)).  (* [{k: ..., ...}] *)

Fixpoint has_sentinel (p : payload) : bool :=
  match p with
  | PVal _ => false
  | PServerTimestamp => true
  | PArr items => existsb has_sentinel items
  | PObj fields => existsb (fun kv => has_sentinel (snd kv)) fields
  end.

(** The sentinel occurs inside an array, directly or in a map held by
    one. *)
Fixpoint sentinel_in_array (p : payload) : bool :=
  match p with
  | PVal _ | PServerTimestamp => false
  | PArr items => existsb has_sentinel items
  | PObj fields => existsb (fun kv => sentinel_in_array (snd kv)) fields
  end.

(** An object literal as the map it denotes: a later entry wins. *)
Definition literal (fields : list (string * jsval)) : jsobj :=
  fold_left (fun m kv => <[fst kv := snd kv]> m) fields ∅.

(** What the store writes for an accepted payload. *)
Fixpoint resolve (time : Z) (p : payload) : jsval :=
  match p with
  | PVal v => v
  | PServerTimestamp => JTimestamp time
  | PArr items => JArr (map (resolve time) items)
  | PObj fields =>
      JObj (literal (map (fun kv => (fst kv, resolve time (snd kv))) fields))
  end.

Definition resolveFields (time : Z) (fields : list (string * payload))
    : jsobj :=
  literal (map (fun kv => (fst kv, resolve time (snd kv))) fields).

(** The SDK's check of the data of a write. *)
Definition checkPayload (fields : list (string * payload)) : result unit :=
  if existsb (fun kv => sentinel_in_array (snd kv)) fields
  then Throw "serverTimestamp() is not currently supported inside arrays"
  else Ok tt.

Section Collection.
Context {K : Type} `{Countable K}.

(** [getDoc(ref)]: the snapshot, [None] when the document does not
    exist. *)
Definition getDoc (r : Reply) (db : gmap K jsobj) (key : K)
  : result (option jsobj) :=
  if read_ok r then Ok (db !! key) else Throw "store: read rejected".

(** [updateDoc(ref, fields)] for data of plain values (no sentinel
    below the top level): replaces the given top-level fields and keeps
    the others; fails when the document does not exist. *)
Definition updateDoc (r : Reply) (db : gmap K jsobj) (key : K)
    (fields : jsobj) : result (gmap K jsobj) :=
  if write_ok r then
    match db !! key with
    | Some old => Ok (<[key := fields ∪ old]> db)
    | None => Throw "store: no document to update"
    end
  else Throw "store: write rejected".

(** [updateDoc(ref, fields)] for a payload that nests the sentinel:
    checked first, then written as above. *)
Definition updateDocOf (r : Reply) (db : gmap K jsobj) (key : K)
    (fields : list (string * payload)) : result (gmap K jsobj) :=
  let* _ := checkPayload fields in
  updateDoc r db key (resolveFields (server_time r) fields).

(** [addDoc(collection, data)] stores [data] under the identifier the
    store picked ([key] is that identifier placed in its collection). *)
Definition addDoc (r : Reply) (db : gmap K jsobj) (key : K)
    (data : jsobj) : result (gmap K jsobj) :=
  if write_ok r then Ok (<[key := data]> db)
  else Throw "store: write rejected".
End Collection.

(** A document snapshot inside a query snapshot. *)
Record DocSnap : Type := { doc_id : string; doc_data : jsobj }.

(** [v?.toDate()] *)
Definition toDate_opt (v : jsval) : result jsval :=
  match v with
  | JUndefined | JNull => Ok JUndefined
  | JTimestamp ms => Ok (JDate ms)
  | _ => Throw "toDate is not a function"
  end.

End Store.
Export Store.

(** ** shortFilmCommentsService (unnamed/part_002) *)
Module CommentsService.

(** The [ShortFilmComments] subcollections: (submission id, comment id)
    to document data. *)
Abbreviation CommentDb := (gmap (string * string) jsobj).

Record ShortFilmComment : Type := {
  id : string;
  submissionId : jsval;
  adminId : jsval;
  adminName : jsval;
  adminEmail : jsval;
  content : jsval;
  type : jsval;
  scores : jsval;
  metadata : jsval;
  createdAt : Z;           (* [createdAt.getTime()] of the Date *)
  updatedAt : jsval;
  isEdited : jsval;
  isDeleted : jsval
}.

Definition mapDatabaseScoresToApp (dbScores : jsval) : jsval :=
  if negb (truthy dbScores) then JUndefined
  else JObj {[
    "technical" := or_js (get dbScores "technical") (JNum 0);
    "story" := or_js (get dbScores "story") (JNum 0);
    "creativity" := or_js (get dbScores "creativity") (JNum 0);
    "chiangmai" := or_js (get dbScores "chiangmai") (JNum 0);
    "overall" := or_js (get dbScores "humanEffort")
                   (or_js (get dbScores "overall") (JNum 0));
    "totalScore" := or_js (get dbScores "totalScore") (JNum 0)
  ]}.

(** Reading a property of [null] or [undefined] throws. *)
Definition mapAppScoresToDatabase (appScores : jsval) : result jsval :=
  if is_nullish appScores then Throw "Cannot read properties of undefined"
  else Ok (JObj {[
    "technical" := or_js (get appScores "technical") (JNum 0);
    "story" := or_js (get appScores "story") (JNum 0);
    "creativity" := or_js (get appScores "creativity") (JNum 0);
    "chiangmai" := or_js (get appScores "chiangmai") (JNum 0);
    "humanEffort" := or_js (get appScores "overall") (JNum 0);
    "totalScore" := or_js (get appScores "totalScore") (JNum 0)
  ]}).

Definition addScoringComment (r : Reply) (db : CommentDb)
    (submissionId adminId adminName adminEmail : string)
    (scores content metadata : jsval) : result (string * CommentDb) :=
  try_catch
    (let* dbScores := mapAppScoresToDatabase scores in
     let commentData : jsobj := {[
       "submissionId" := JStr submissionId;
       "adminId" := JStr adminId;
       "adminName" := JStr adminName;
       "adminEmail" := JStr adminEmail;
       "content" := or_js content (JStr "");
       "type" := JStr "scoring";
       "scores" := dbScores;
       "metadata" := or_js metadata (JObj ∅);
       "createdAt" := JTimestamp (server_time r);
       "isEdited" := JBool false;
       "isDeleted" := JBool false
     ]} in
     let* db' := addDoc r db (submissionId, auto_id r) commentData in
     Ok (auto_id r, db'))
    (fun _ => Throw "Failed to add scoring comment").

(** *** getComments *)

(** The three queries [getComments] builds, also the value of its
    [queryStrategy] variable. *)
Inductive QueryKind : Type := filtered | simple | unfiltered.

Definition is_unfiltered (q : QueryKind) : bool :=
  match q with unfiltered => true | _ => false end.

(** Body of the [forEach] callback; [None] when the document is skipped,
    by one of the two [return]s or by the callback's own [catch]. [now] is
    what [new Date()] reads while this document is processed. *)
Definition processDoc (queryStrategy : QueryKind) (sid : string) (now : Z)
    (docSnap : DocSnap) : option ShortFilmComment :=
  let data := doc_data docSnap in
  if is_unfiltered queryStrategy && is_true (prop data "isDeleted") then None
  else if negb (truthy (prop data "adminId"))
          || negb (truthy (prop data "adminName"))
          || negb (truthy (prop data "type")) then None
  else
    let mappedScores := mapDatabaseScoresToApp (prop data "scores") in
    let built : result ShortFilmComment :=
      let* created := toDate_opt (prop data "createdAt") in
      let* updated := toDate_opt (prop data "updatedAt") in
      Ok {| id := doc_id docSnap;
            submissionId := or_js (prop data "submissionId") (JStr sid);
            adminId := prop data "adminId";
            adminName := prop data "adminName";
            adminEmail := or_js (prop data "adminEmail") (JStr "");
            content := or_js (prop data "content") (JStr "");
            type := prop data "type";
            scores := mappedScores;
            metadata := or_js (prop data "metadata") (JObj ∅);
            createdAt := match created with JDate ms => ms | _ => now end;
            updatedAt := updated;
            isEdited := or_js (prop data "isEdited") (JBool false);
            isDeleted := or_js (prop data "isDeleted") (JBool false) |}
    in match built with Ok c => Some c | Throw _ => None end.

(** [snapshot.docs.forEach(...)] pushing onto [comments]; [i] is the index
    of the first document of [docs] and [clock i] the clock reading while
    document [i] is processed. *)
Fixpoint processDocs (queryStrategy : QueryKind) (sid : string)
    (clock : nat -> Z) (i : nat) (docs : list DocSnap)
    : list ShortFilmComment :=
  match docs with
  | [] => []
  | d :: ds =>
      match processDoc queryStrategy sid (clock i) d with
      | Some c => c :: processDocs queryStrategy sid clock (S i) ds
      | None => processDocs queryStrategy sid clock (S i) ds
      end
  end.

(** [comments.sort((a, b) => b.createdAt.getTime() - a.createdAt.getTime())]:
    the sort of the language is stable, so an element stays in front of a
    later one unless the comparator is positive. *)
Definition compareCreatedDesc (a b : ShortFilmComment) : Z :=
  createdAt b - createdAt a.

Fixpoint sort_insert (a : ShortFilmComment) (l : list ShortFilmComment)
    : list ShortFilmComment :=
  match l with
  | [] => [a]
  | b :: l' =>
      if compareCreatedDesc a b <=? 0 then a :: b :: l'
      else b :: sort_insert a l'
  end.

Definition sortComments (l : list ShortFilmComment) : list ShortFilmComment :=
  foldr sort_insert [] l.

(** The [try] cascade over the three queries: the snapshot and the
    strategy that produced it, or [None] for the innermost
    [return []]. *)
Definition runQueries (getDocs : QueryKind -> result (list DocSnap))
    : result (option (list DocSnap * QueryKind)) :=
  try_catch
    (let* s := getDocs filtered in Ok (Some (s, filtered)))
    (fun _ =>
       try_catch
         (let* s := getDocs simple in Ok (Some (s, simple)))
         (fun _ =>
            try_catch
              (let* s := getDocs unfiltered in Ok (Some (s, unfiltered)))
              (fun _ => Ok None))).

Definition getComments (getDocs : QueryKind -> result (list DocSnap))
    (clock : nat -> Z) (sid : string) : result (list ShortFilmComment) :=
  if String.eqb sid "" then Ok []
  else
    try_catch
      (let* q := runQueries getDocs in
       match q with
       | None => Ok []
       | Some (docs, queryStrategy) =>
           if (length docs =? 0)%nat then Ok []
           else
             let comments := processDocs queryStrategy sid clock 0 docs in
             Ok (match queryStrategy with
                 | filtered => comments
                 | simple | unfiltered => sortComments comments
                 end)
       end)
      (fun _ => Ok []).

(** The snapshot callback of [subscribeToComments.setupSubscription]
    repeats the same per-document body and the same sort; this is the list
    it hands to the caller's callback. *)
Definition onSnapshotComments (strategyName : QueryKind) (sid : string)
    (clock : nat -> Z) (docs : list DocSnap) : list ShortFilmComment :=
  let comments := processDocs strategyName sid clock 0 docs in
  match strategyName with
  | filtered => comments
  | simple | unfiltered => sortComments comments
  end.

(** *** What the store answers

    The store is outside the repository; what it returns for each of the
    three queries is read off the query itself: [where('isDeleted', '==',
    false)] keeps the documents whose [isDeleted] field is the boolean
    [false], [orderBy('createdAt', 'desc')] keeps the documents that have
    the field and returns them latest first, and a bare collection
    reference returns every document. Nothing is said about the order of
    an unordered answer, nor about the order of documents with equal
    [createdAt]. *)
Definition not_deleted (d : DocSnap) : bool :=
  match doc_data d !! "isDeleted" with
  | Some (JBool false) => true
  | _ => false
  end.

Definition has_createdAt (d : DocSnap) : bool :=
  match doc_data d !! "createdAt" with Some _ => true | None => false end.

Definition timestamp_of (d : DocSnap) : option Z :=
  match doc_data d !! "createdAt" with
  | Some (JTimestamp ms) => Some ms
  | _ => None
  end.

Definition created_desc (d1 d2 : DocSnap) : Prop :=
  forall t1 t2, timestamp_of d1 = Some t1 -> timestamp_of d2 = Some t2 ->
    t2 <= t1.

Definition answers (coll : list DocSnap) (q : QueryKind)
    (r : list DocSnap) : Prop :=
  match q with
  | filtered =>
      r ≡ₚ filter (fun d => not_deleted d && has_createdAt d) coll
      /\ StronglySorted created_desc r
  | simple => r ≡ₚ filter (fun d => not_deleted d) coll
  | unfiltered => r ≡ₚ coll
  end.

(** [getDocs] is a store holding the collection [coll]: whatever it
    accepts, it answers as above. *)
Definition store_over (coll : list DocSnap)
    (getDocs : QueryKind -> result (list DocSnap)) : Prop :=
  forall q r, getDocs q = Ok r -> answers coll q r.

(** *** updateComment, deleteComment *)

Definition updateComment (r : Reply) (db : CommentDb)
    (sid commentId content : string) (metadata : jsval) : result CommentDb :=
  try_catch
    (updateDoc r db (sid, commentId) {[
       "content" := JStr content;
       "metadata" := or_js metadata (JObj ∅);
       "updatedAt" := JTimestamp (server_time r);
       "isEdited" := JBool true ]})
    (fun _ => Throw "Failed to update comment").

Definition deleteComment (r : Reply) (db : CommentDb)
    (sid commentId : string) : result CommentDb :=
  try_catch
    (updateDoc r db (sid, commentId) {[
       "isDeleted" := JBool true;
       "updatedAt" := JTimestamp (server_time r) ]})
    (fun _ => Throw "Failed to delete comment").

(** *** updateScoringComment *)

Definition chars (s : string) : list jsval :=
  (fun c => JStr (String c EmptyString)) <$> list_ascii_of_string s.

Definition indexed (l : list jsval) : jsobj :=
  list_to_map (imap (fun i x => (pretty i, x)) l).

(** [[...v]]: arrays and strings are iterable, the other values of the
    model are not. *)
Definition spread_array (v : jsval) : result (list jsval) :=
  match v with
  | JArr l => Ok l
  | JStr s => Ok (chars s)
  | _ => Throw "is not iterable"
  end.

(** [{...v}]: the own enumerable properties; none for [undefined], [null],
    numbers, booleans, dates and files. *)
Definition spread_object (v : jsval) : jsobj :=
  match v with
  | JObj o => o
  | JArr l => indexed l
  | JStr s => indexed (chars s)
  | JTimestamp ms =>
      {[ "seconds" := JNum (ms / 1000);
         "nanoseconds" := JNum ((ms mod 1000) * 1000000) ]}
  | _ => ∅
  end.

Definition newline : string := String (ascii_of_nat 10) EmptyString.

Section Runtime.
(** Two services of the language runtime are taken as given:
    [render v] is the string a template literal substitutes for [v], and
    [roundPercent t] is [Math.round((t / 50) * 100)], a floating-point
    computation. *)
Variable render : jsval -> string.
Variable roundPercent : jsval -> jsval.

Definition scoreSummary (scores : jsval) : string :=
  "Score Assessment (Updated): " +:+ render (get scores "totalScore")
    +:+ "/50 points" +:+ newline
  +:+ "• Technical Quality: " +:+ render (get scores "technical")
    +:+ "/10" +:+ newline
  +:+ "• Story & Narrative: " +:+ render (get scores "story")
    +:+ "/10" +:+ newline
  +:+ "• Creativity & Originality: " +:+ render (get scores "creativity")
    +:+ "/10" +:+ newline
  +:+ "• Connection to Chiang Mai: " +:+ render (get scores "chiangmai")
    +:+ "/10" +:+ newline
  +:+ "• Overall Impact: " +:+ render (get scores "overall") +:+ "/10".

(** The entry [updateScoringComment] builds for [editHistory]: its
    [editedAt] is the sentinel itself. *)
Definition historyEntry (currentData : jsobj) (editedBy : string)
    : payload :=
  PObj [ ("editedAt", PServerTimestamp);
         ("previousContent", PVal (prop currentData "content"));
         ("previousScores", PVal (prop currentData "scores"));
         ("editedBy", PVal (JStr editedBy)) ].

(** The object literal handed to [updateDoc]. *)
Definition scoringUpdate (currentData : jsobj) (scores dbScores : jsval)
    (content : string) (editHistory : list jsval) (editedBy : string)
    : list (string * payload) :=
  [ ("content", PVal (JStr content));
    ("scores", PVal dbScores);
    ("updatedAt", PServerTimestamp);
    ("isEdited", PVal (JBool true));
    ("editHistory",
      PArr (map PVal editHistory ++ [historyEntry currentData editedBy]));
    ("metadata",
      PVal (JObj (<["scorePercentage" :=
                      roundPercent (get scores "totalScore")]>
                    (<["actionType" := JStr "score_updated"]>
                       (spread_object (prop currentData "metadata")))))) ].

Definition updateScoringComment (r : Reply) (db : CommentDb)
    (sid commentId : string) (scores : jsval)
    (comments editedBy : string) : result CommentDb :=
  try_catch
    (let* commentDoc := getDoc r db (sid, commentId) in
     match commentDoc with
     | None => Throw "Comment not found"
     | Some currentData =>
         let* dbScores := mapAppScoresToDatabase scores in
         let content :=
           if String.eqb (trim comments) "" then scoreSummary scores
           else trim comments in
         let* editHistory :=
           spread_array (or_js (prop currentData "editHistory") (JArr [])) in
         updateDocOf r db (sid, commentId)
           (scoringUpdate currentData scores dbScores content editHistory
              editedBy)
     end)
    (fun _ => Throw "Failed to update scoring comment").

(** One call of [updateScoringComment], as its caller makes it. *)
Record ScoringEdit : Type := {
  edit_reply : Reply;
  edit_scores : jsval;
  edit_comments : string;
  edit_editedBy : string
}.

(** Successive calls on one comment, stopping at the first that
    throws. *)
Fixpoint updateScoringComments (db : CommentDb) (sid commentId : string)
    (edits : list ScoringEdit) : result CommentDb :=
  match edits with
  | [] => Ok db
  | e :: rest =>
      let* db' := updateScoringComment (edit_reply e) db sid commentId
              (edit_scores e) (edit_comments e) (edit_editedBy e) in
      updateScoringComments db' sid commentId rest
  end.
End Runtime.

(** An instance of [render] for running the service on examples: the
    template-literal text of the primitive values (composite values, which
    no score field holds, are given the empty string). *)
Definition render_primitive (v : jsval) : string :=
  match v with
  | JUndefined => "undefined"
  | JNull => "null"
  | JBool true => "true"
  | JBool false => "false"
  | JNum n => pretty n
  | JNaN => "NaN"
  | JStr s => s
  | _ => ""
  end.

(** An instance of [roundPercent] for running the service on examples:
    [Math.round((t / 50) * 100)] on an integer [t] is [2 * t]; values other
    than numbers, booleans and [null] are given [NaN]. *)
Definition roundPercent_int (v : jsval) : jsval :=
  match v with
  | JNum t => JNum (2 * t)
  | JNull | JBool false => JNum 0
  | JBool true => JNum 2
  | _ => JNaN
  end.

End CommentsService.

(** ** The earlier comments service (unnamed/part_003)

    Same score mapping and write path; [getComments] issues the single
    filtered and ordered query, has no fallback tier and rethrows. *)
Module CommentsServiceV1.
Import CommentsService.

(** Body of the [snapshot.docs.map] callback. *)
Definition toComment (now : Z) (doc : DocSnap) : result ShortFilmComment :=
  let data := doc_data doc in
  let mappedScores := mapDatabaseScoresToApp (prop data "scores") in
  let* created := toDate_opt (prop data "createdAt") in
  let* updated := toDate_opt (prop data "updatedAt") in
  Ok {| id := doc_id doc;
        submissionId := prop data "submissionId";
        adminId := prop data "adminId";
        adminName := prop data "adminName";
        adminEmail := prop data "adminEmail";
        content := prop data "content";
        type := prop data "type";
        scores := mappedScores;
        metadata := or_js (prop data "metadata") (JObj ∅);
        createdAt := match created with JDate ms => ms | _ => now end;
        updatedAt := updated;
        isEdited := or_js (prop data "isEdited") (JBool false);
        isDeleted := or_js (prop data "isDeleted") (JBool false) |}.

Fixpoint toComments (clock : nat -> Z) (i : nat) (docs : list DocSnap)
    : result (list ShortFilmComment) :=
  match docs with
  | [] => Ok []
  | d :: ds =>
      let* c := toComment (clock i) d in
      let* cs := toComments clock (S i) ds in
      Ok (c :: cs)
  end.

Definition getComments (getDocs : QueryKind -> result (list DocSnap))
    (clock : nat -> Z) (sid : string) : result (list ShortFilmComment) :=
  try_catch
    (let* docs := getDocs filtered in
     (* the diagnostic fetch of the whole collection on an empty answer *)
     let* _ := (if (length docs =? 0)%nat then getDocs unfiltered
                else Ok []) in
     toComments clock 0 docs)
    (fun _ => Throw "Failed to fetch comments").

End CommentsServiceV1.

(** ** featureFilmService (src/services/featureFilmService.ts) *)
Module FeatureFilmService.

(** *** World and effects *)

(** Calls that reach the store or the guest service, in the order made. *)
Inductive Call : Type :=
| CallAddDoc (filmId : string)
| CallUpdateDoc (filmId : string)
| CallGetDoc (filmId : string)
| CallDeleteAllGuests (filmId : string)
| CallCreateMultipleGuests (filmId : string) (members : list jsval).

Record World : Type := {
  films : gmap string jsobj;           (* the [films] collection *)
  guests : gmap string (list jsval);   (* [guests] subcollection per film *)
  calls : list Call                    (* latest call last *)
}.

Definition guests_of (w : World) (filmId : string) : list jsval :=
  default [] (guests w !! filmId).

Definition is_guest_call (c : Call) : bool :=
  match c with
  | CallDeleteAllGuests _ | CallCreateMultipleGuests _ _ => true
  | _ => false
  end.

(** A computation that may change the world and may throw; what it did
    before throwing stays done. *)
Definition M (A : Type) : Type := World -> result A * World.

Definition ret {A} (a : A) : M A := fun w => (Ok a, w).
Definition throw {A} (msg : string) : M A := fun w => (Throw msg, w).
Definition bind {A B} (m : M A) (k : A -> M B) : M B :=
  fun w => match m w with
           | (Ok a, w') => k a w'
           | (Throw msg, w') => (Throw msg, w')
           end.
Definition catch {A} (m : M A) (h : string -> M A) : M A :=
  fun w => match m w with
           | (Ok a, w') => (Ok a, w')
           | (Throw msg, w') => h msg w'
           end.
Definition lift {A} (r : result A) : M A := fun w => (r, w).
Definition record (c : Call) : M unit :=
  fun w => (Ok tt, {| films := films w; guests := guests w;
                      calls := calls w ++ [c] |}).

Notation "x <~ m ;; k" := (bind m (fun x => k))
  (at level 100, m at next level, right associativity).
Notation "m ;;; k" := (bind m (fun _ => k))
  (at level 100, right associativity).

(** How a guest-service call ends: it completes, or it throws after
    having handled the first [n] entries. *)
Inductive GuestOutcome : Type :=
| Completes
| ThrowsAfter (n : nat).

(** Everything outside the service that one call of [createFeatureFilm]
    or [updateFeatureFilm] depends on. *)
Record Env : Type := {
  primary : Reply;       (* [addDoc] / [updateDoc] of the film document *)
  urls : Reply;          (* create: the second [updateDoc], with file URLs *)
  readback : Reply;      (* the final [getDoc] *)
  generateFeatureFilmUploadPath :
    string -> string -> jsval -> jsval -> result string;
  uploadFile : jsval -> string -> result jsval;   (* the [url] of the result *)
  delete_guests : GuestOutcome;
  create_guests : GuestOutcome
}.

(** The same environment with other endings for the guest-service
    calls. *)
Definition with_guest_outcomes (e : Env) (d c : GuestOutcome) : Env :=
  {| primary := primary e; urls := urls e; readback := readback e;
     generateFeatureFilmUploadPath := generateFeatureFilmUploadPath e;
     uploadFile := uploadFile e;
     delete_guests := d; create_guests := c |}.

Definition addDoc (r : Reply) (data : jsobj) : M string :=
  record (CallAddDoc (auto_id r)) ;;;
  fun w =>
    match Store.addDoc r (films w) (auto_id r) data with
    | Ok fs => (Ok (auto_id r),
                {| films := fs; guests := guests w; calls := calls w |})
    | Throw msg => (Throw msg, w)
    end.

Definition updateDoc (r : Reply) (filmId : string) (fields : jsobj)
    : M unit :=
  record (CallUpdateDoc filmId) ;;;
  fun w =>
    match Store.updateDoc r (films w) filmId fields with
    | Ok fs => (Ok tt, {| films := fs; guests := guests w; calls := calls w |})
    | Throw msg => (Throw msg, w)
    end.

Definition getDoc (r : Reply) (filmId : string) : M (option jsobj) :=
  record (CallGetDoc filmId) ;;;
  fun w => (Store.getDoc r (films w) filmId, w).

(** Modelled from the spec: [deleteAllGuests] of guestService.ts, which is
    not among the sources. Section 4.5: "the existing subcollection is
    unconditionally deleted in full". A call that throws has removed the
    entries it reached. *)
Definition deleteAllGuests (o : GuestOutcome) (filmId : string) : M unit :=
  record (CallDeleteAllGuests filmId) ;;;
  fun w =>
    match o with
    | Completes =>
        (Ok tt, {| films := films w; guests := delete filmId (guests w);
                   calls := calls w |})
    | ThrowsAfter n =>
        (Throw "guest service: delete failed",
         {| films := films w;
            guests := <[filmId := drop n (guests_of w filmId)]> (guests w);
            calls := calls w |})
    end.

(** Modelled from the spec: [createMultipleGuests] of guestService.ts,
    which is not among the sources. Section 4.5: the subcollection is
    "repopulated from the freshly derived list". A call that throws has
    created the entries it reached. *)
Definition createMultipleGuests (o : GuestOutcome) (filmId : string)
    (members : list jsval) : M unit :=
  record (CallCreateMultipleGuests filmId members) ;;;
  fun w =>
    match o with
    | Completes =>
        (Ok tt, {| films := films w;
                   guests := <[filmId := guests_of w filmId ++ members]>
                               (guests w);
                   calls := calls w |})
    | ThrowsAfter n =>
        (Throw "guest service: create failed",
         {| films := films w;
            guests := <[filmId := guests_of w filmId ++ take n members]>
                        (guests w);
            calls := calls w |})
    end.

(** *** Small pieces of JavaScript used below *)


(** [v > 0]; only numbers and booleans are converted. *)
Definition gt_zero (v : jsval) : bool :=
  match v with
  | JNum n => 0 <? n
  | JBool b => b
  | _ => false
  end.

(** [a && a.length > 0] as a condition. *)
Definition nonempty (a : jsval) : bool :=
  truthy a && gt_zero (get a "length").

(** [for (const file of v)]: the values iterated. *)
Definition spread_files (v : jsval) : result (list jsval) :=
  CommentsService.spread_array v.

(** *** uploadFeatureFilmFiles *)

Record Uploaded : Type := { updatedData : jsobj; errors : list string }.

Definition uploadOne (e : Env) (filmId folder : string) (file userId : jsval)
    : result jsval :=
  if is_nullish file then Throw "Cannot read properties of undefined"
  else
    let* path :=
      generateFeatureFilmUploadPath e filmId folder (get file "name") userId in
    uploadFile e file path.

(** [(filmData.galleryUrls || []).filter(url => url.trim() !== '')] *)
Definition keptGalleryUrls (v : jsval) : result (list jsval) :=
  match or_js v (JArr []) with
  | JArr l =>
      let* flags :=
        rmap_list
          (fun url =>
             if is_nullish url
             then Throw "Cannot read properties of undefined"
             else let* t := call_trim url in
                  Ok (negb (String.eqb t ""))) l in
      Ok (fst <$> filter (fun p => Is_true (snd p)) (zip l flags))
  | _ => Throw "filter is not a function"
  end.

Definition uploadFeatureFilmFiles (e : Env) (filmId : string)
    (filmData : jsobj) (userId : jsval) : Uploaded :=
  let step (cond : bool) (attempt : result jsobj) (msg : string)
      (acc : Uploaded) : Uploaded :=
    if cond then
      match attempt with
      | Ok fields => {| updatedData := fields ∪ updatedData acc;
                        errors := errors acc |}
      | Throw _ => {| updatedData := updatedData acc;
                      errors := errors acc ++ [msg] |}
      end
    else acc in
  let poster :=
    step (truthy (prop filmData "posterFile"))
      (let* url :=
         uploadOne e filmId "posters" (prop filmData "posterFile") userId in
       Ok {[ "posterUrl" := url ]})
      "Failed to upload poster" in
  let trailer :=
    step (truthy (prop filmData "trailerFile"))
      (let* url :=
         uploadOne e filmId "trailers" (prop filmData "trailerFile") userId in
       Ok {[ "trailerUrl" := url ]})
      "Failed to upload trailer" in
  let gallery :=
    step (nonempty (prop filmData "galleryFiles"))
      (let* files := spread_files (prop filmData "galleryFiles") in
       let* galleryUrls := rmap_list
                       (fun f => uploadOne e filmId "gallery" f userId) files in
       let* kept := keptGalleryUrls (prop filmData "galleryUrls") in
       Ok {[ "galleryUrls" := JArr (kept ++ galleryUrls) ]})
      "Failed to upload gallery files" in
  gallery (trailer (poster {| updatedData := ∅; errors := [] |})).

(** *** prepareFilmDataForFirestore *)

Definition prepareFilmDataForFirestore (filmData : jsobj) : jsobj :=
  let cleanData :=
    delete "galleryFiles" (delete "trailerFile" (delete "posterFile" filmData))
  in filter (fun kv => Is_true (negb (is_undefined (snd kv)))) cleanData.

(** *** extractCrewMembersFromFilmData *)

(** One iteration of [filmData.guests.forEach]: the entry pushed, if
    any. *)
Definition guestToCrewMember (guest : jsval) : result (option jsval) :=
  if is_nullish guest then Throw "Cannot read properties of undefined"
  else if truthy (get guest "name") then
    let* name := call_trim (get guest "name") in
    if String.eqb name "" then Ok None
    else
      let* contact := opt_trim (get guest "contact") in
      let* otherRole := (if is_str (get guest "role") "Other"
                   then opt_trim (get guest "otherRole")
                   else Ok JUndefined) in
      let* remarks := opt_trim (get guest "remarks") in
      Ok (Some (JObj {[
        "name" := JStr name;
        "contact" := or_js contact (JStr "");
        "role" := or_js (get guest "role") (JStr "Guest");
        "otherRole" := otherRole;
        "remarks" := or_js remarks (JStr "") ]}))
  else Ok None.

(** The entry pushed for a director, a producer or an actor. *)
Definition basicCrewMember (name role : string) : jsval :=
  JObj {[
    "name" := JStr name;
    "contact" := JStr "";
    "role" := JStr role;
    "otherRole" := JUndefined;
    "remarks" := JStr "" ]}.

(** [if (v && v.trim()) push(...)] for the director and producer
    fields. *)
Definition crewFromField (v : jsval) (role : string) : result (list jsval) :=
  if truthy v then
    let* name := call_trim v in
    Ok (if String.eqb name "" then [] else [basicCrewMember name role])
  else Ok [].

Definition crewFromActors (v : jsval) : result (list jsval) :=
  if truthy v then
    let* t := call_trim v in
    if String.eqb t "" then Ok []
    else
      match v with
      | JStr s =>
          let actors := trim <$> split_on comma s in
          Ok ((fun actor => basicCrewMember actor "Actor")
                <$> filter (fun actor => Is_true (negb (String.eqb actor "")))
                      actors)
      | _ => Throw "split is not a function"
      end
  else Ok [].

(** [filmData.guests && Array.isArray(filmData.guests) &&
    filmData.guests.length > 0]: the guests, when the test passes. *)
Definition formGuests (filmData : jsobj) : option (list jsval) :=
  match prop filmData "guests" with
  | JArr (g :: gs) => Some (g :: gs)
  | _ => None
  end.

Definition extractCrewMembersFromFilmData (filmData : jsobj)
    : result (list jsval) :=
  match formGuests filmData with
  | Some gs =>
      (* PRIORITY 1: guests from the form; returns early *)
      let* pushed := rmap_list guestToCrewMember gs in
      Ok (omap (fun x : option jsval => x) pushed)
  | None =>
      (* PRIORITY 2: the basic film fields *)
      let* director := crewFromField (prop filmData "director") "Director" in
      let* producer := crewFromField (prop filmData "producer") "Producer" in
      let* actors := crewFromActors (prop filmData "mainActors") in
      Ok (director ++ producer ++ actors)
  end.

(** *** createFeatureFilm, updateFeatureFilm *)

Record FeatureFilmServiceResult : Type := {
  success : bool;
  data : option jsobj;
  error : option string
}.

Definition failure (msg : string) : FeatureFilmServiceResult :=
  {| success := false; data := None; error := Some msg |}.

Definition hasFiles (filmData : jsobj) : bool :=
  truthy (prop filmData "posterFile")
  || truthy (prop filmData "trailerFile")
  || nonempty (prop filmData "galleryFiles").

(** The guest block of [createFeatureFilm]: [if (crewMembers.length > 0)
    try { await createMultipleGuests(...) } catch { log }]. *)
Definition createGuests (e : Env) (filmId : string) (crewMembers : list jsval)
    : M unit :=
  match crewMembers with
  | [] => ret tt
  | _ :: _ =>
      catch (createMultipleGuests (create_guests e) filmId crewMembers)
            (fun _ => ret tt)
  end.

(** The guest block of [updateFeatureFilm]: [try { await
    deleteAllGuests(filmId); if (crewMembers.length > 0) await
    createMultipleGuests(...) } catch { log }]. *)
Definition resyncGuests (e : Env) (filmId : string) (crewMembers : list jsval)
    : M unit :=
  catch
    (deleteAllGuests (delete_guests e) filmId ;;;
     match crewMembers with
     | [] => ret tt
     | _ :: _ => createMultipleGuests (create_guests e) filmId crewMembers
     end)
    (fun _ => ret tt).

Definition createFeatureFilm (e : Env) (filmData : jsobj) (userId : string)
    : M FeatureFilmServiceResult :=
  catch
    (let filmDataWithoutGuests := delete "guests" filmData in
     let cleanFilmData := prepareFilmDataForFirestore filmDataWithoutGuests in
     let stamp := JTimestamp (server_time (primary e)) in
     let docData : jsobj :=
       <["updatedAt" := stamp]>
         (<["createdAt" := stamp]>
            (<["createdBy" := JStr userId]> cleanFilmData)) in
     filmId <~ addDoc (primary e) docData ;;
     (if hasFiles filmData then
        let up := uploadFeatureFilmFiles e filmId filmData (JStr userId) in
        if (size (updatedData up) =? 0)%nat then ret tt
        else updateDoc (urls e) filmId
               (<["updatedAt" := JTimestamp (server_time (urls e))]>
                  (updatedData up))
      else ret tt) ;;;
     crewMembers <~ lift (extractCrewMembersFromFilmData filmData) ;;
     createGuests e filmId crewMembers ;;;
     createdDoc <~ getDoc (readback e) filmId ;;
     match createdDoc with
     | Some d =>
         ret {| success := true;
                data := Some (d ∪ {[ "id" := JStr filmId ]});
                error := None |}
     | None => ret (failure "Film created but could not retrieve data")
     end)
    (fun msg => ret (failure msg)).

Definition updateFeatureFilm (e : Env) (filmId : string) (filmData : jsobj)
    (userId : jsval) : M FeatureFilmServiceResult :=
  catch
    (let filmDataWithoutGuests := delete "guests" filmData in
     let cleanFilmData := prepareFilmDataForFirestore filmDataWithoutGuests in
     let fileUploadData : jsobj :=
       if hasFiles filmData
       then updatedData (uploadFeatureFilmFiles e filmId filmData userId)
       else ∅ in
     let updateData : jsobj :=
       <["updatedAt" := JTimestamp (server_time (primary e))]>
         (fileUploadData ∪ cleanFilmData) in
     updateDoc (primary e) filmId updateData ;;;
     crewMembers <~ lift (extractCrewMembersFromFilmData filmData) ;;
     resyncGuests e filmId crewMembers ;;;
     updatedDoc <~ getDoc (readback e) filmId ;;
     match updatedDoc with
     | Some d =>
         ret {| success := true;
                data := Some (d ∪ {[ "id" := JStr filmId ]});
                error := None |}
     | None =>
         ret (failure "Film not found in films collection after update")
     end)
    (fun msg => ret (failure msg)).

(** *** generateSlug *)

Definition hyphen : ascii := "-"%char.

(** Characters kept by [replace(/[^a-z0-9\s-]/g, '')]. *)
Definition slug_char (c : ascii) : bool :=
  let n := nat_of_ascii c in
  ((97 <=? n) && (n <=? 122))%nat || ((48 <=? n) && (n <=? 57))%nat
  || is_space c || Ascii.eqb c hyphen.

Fixpoint keep_slug_chars (s : string) : string :=
  match s with
  | EmptyString => EmptyString
  | String c s' =>
      if slug_char c then String c (keep_slug_chars s')
      else keep_slug_chars s'
  end.

(** [replace(/\s+/g, '-')]: a run of white space becomes one hyphen,
    written when the run ends. *)
Fixpoint spaces_to_hyphen (s : string) : string :=
  match s with
  | EmptyString => EmptyString
  | String c s' =>
      if is_space c then
        match s' with
        | String c' _ =>
            if is_space c' then spaces_to_hyphen s'
            else String hyphen (spaces_to_hyphen s')
        | EmptyString => String hyphen EmptyString
        end
      else String c (spaces_to_hyphen s')
  end.

(** [replace(/-+/g, '-')] *)
Fixpoint collapse_hyphens (s : string) : string :=
  match s with
  | EmptyString => EmptyString
  | String c s' =>
      if Ascii.eqb c hyphen then
        match s' with
        | String c' _ =>
            if Ascii.eqb c' hyphen then collapse_hyphens s'
            else String c (collapse_hyphens s')
        | EmptyString => String c EmptyString
        end
      else String c (collapse_hyphens s')
  end.

Definition generateSlug (title : string) : string :=
  trim (collapse_hyphens (spaces_to_hyphen (keep_slug_chars
          (toLowerCase title)))).

(** *** convertLegacyToEnhanced *)

(** [v?.toDate ? v.toDate() : (v || new Date())] *)
Definition toDateOr (now : Z) (v : jsval) : jsval :=
  match v with
  | JTimestamp ms => JDate ms
  | _ => or_js v (JDate now)
  end.

(** The file-metadata object wrapped around a bare URL. *)
Definition legacyFile (now : Z) (legacyData url : jsval)
    (name mime : string) : jsval :=
  JObj {[
    "url" := url;
    "name" := JStr name;
    "size" := JNum 0;
    "type" := JStr mime;
    "uploadedAt" := or_js (get legacyData "createdAt") (JDate now);
    "uploadedBy" := or_js (get legacyData "createdBy") (JStr "unknown") ]}.

(** [galleryUrls && galleryUrls.length > 0 ? galleryUrls.map(...) :
    undefined] *)
Definition legacyStills (now : Z) (legacyData : jsval) : result jsval :=
  let galleryUrls := get legacyData "galleryUrls" in
  if nonempty galleryUrls then
    match galleryUrls with
    | JArr l =>
        Ok (JArr (imap (fun index url =>
                          legacyFile now legacyData url
                            ("still_" +:+ pretty (index + 1)%nat)
                            "image/jpeg") l))
    | _ => Throw "map is not a function"
    end
  else Ok JUndefined.

(** [mainActors ? mainActors.split(',').map(...) : []] *)
Definition legacyCast (legacyData : jsval) : result jsval :=
  let mainActors := get legacyData "mainActors" in
  if truthy mainActors then
    match mainActors with
    | JStr s =>
        Ok (JArr ((fun actor =>
                     JObj {[ "name" := JStr (trim actor);
                             "role" := JStr "Actor";
                             "character" := JStr "" ]})
                    <$> split_on comma s))
    | _ => Throw "split is not a function"
    end
  else Ok (JArr []).

Definition legacyCrew (legacyData : jsval) : jsval :=
  JArr (JObj {[ "name" := or_js (get legacyData "director") (JStr "Unknown");
                "role" := JStr "Director";
                "department" := JStr "Direction" ]}
        :: (if truthy (get legacyData "producer")
            then [JObj {[ "name" := get legacyData "producer";
                          "role" := JStr "Producer";
                          "department" := JStr "Production" ]}]
            else [])).

(** [slug || generateSlug(titleEn || title || 'untitled')] *)
Definition legacySlug (legacyData : jsval) : result jsval :=
  if truthy (get legacyData "slug") then Ok (get legacyData "slug")
  else
    match or_js (get legacyData "titleEn")
            (or_js (get legacyData "title") (JStr "untitled")) with
    | JStr t => Ok (JStr (generateSlug t))
    | _ => Throw "toLowerCase is not a function"
    end.

(** [x[0]] of an array *)
Definition first_item (l : list jsval) : jsval := default JUndefined (head l).

Definition accepted_status : string := "ตอบรับ / Accepted".

(** [now] is what [new Date()] reads and [year] its [getFullYear()]. *)
Definition convertLegacyToEnhanced (now year : Z) (legacyData : jsval)
    : result jsobj :=
  if is_nullish legacyData then Throw "Cannot read properties of undefined"
  else
    let L := get legacyData in
    let* stills := legacyStills now legacyData in
    let* cast := legacyCast legacyData in
    let* slug := legacySlug legacyData in
    Ok (list_to_map [
      ("id", L "id");
      ("title", or_js (L "titleEn") (or_js (L "title") (JStr "Untitled")));
      ("titleTh", L "titleTh");
      ("synopsis", or_js (L "synopsis") (JStr ""));
      ("synopsisTh", JUndefined);
      ("director", or_js (L "director") (JStr "Unknown"));
      ("directorTh", JUndefined);
      ("duration", or_js (L "duration") (JNum 120));
      ("releaseYear", or_js (L "releaseYear") (JNum year));
      ("language",
        if isArray (L "languages") then L "languages"
        else if truthy (L "language") then JArr [L "language"]
        else JArr [JStr "Unknown"]);
      ("subtitles", JArr []);
      ("format", or_js (L "format") (JStr "Digital"));
      ("aspectRatio", or_js (L "aspectRatio") (JStr "16:9"));
      ("soundFormat", or_js (L "soundFormat") (JStr "Stereo"));
      ("genres",
        if isArray (L "genres") then L "genres"
        else if truthy (L "genre") then JArr [L "genre"]
        else JArr []);
      ("country",
        match L "countries" with
        | JArr countries => first_item countries
        | _ => or_js (L "country") (JStr "Unknown")
        end);
      ("rating", L "rating");
      ("files", JObj {[
        "poster" :=
          if truthy (L "posterUrl")
          then legacyFile now legacyData (L "posterUrl") "poster" "image/jpeg"
          else JUndefined;
        "trailer" :=
          if truthy (L "trailerUrl")
          then legacyFile now legacyData (L "trailerUrl") "trailer" "video/mp4"
          else JUndefined;
        "stills" := stills ]});
      ("cast", cast);
      ("crew", legacyCrew legacyData);
      ("screenings",
        if truthy (L "screeningDate1")
        then JArr [JObj {[
               "date" := JDateOf (L "screeningDate1");
               "time" := or_js (L "timeEstimate") (JStr "");
               "venue" := or_js (L "theatre") (JStr "TBD") ]}]
        else JUndefined);
      ("status",
        if is_str (L "status") accepted_status then JStr "published"
        else JStr "draft");
      ("featured", or_js (L "featured") (JBool false));
      ("createdAt", toDateOr now (L "createdAt"));
      ("updatedAt", toDateOr now (L "updatedAt"));
      ("createdBy", or_js (L "createdBy") (JStr "unknown"));
      ("updatedBy",
        or_js (L "updatedBy") (or_js (L "createdBy") (JStr "unknown")));
      ("tags", or_js (L "tags") (JArr []));
      ("slug", slug);
      ("metaDescription", L "metaDescription")
    ]).

(** The loop of [getEnhancedFeatureFilms]: each document is converted with
    its [id] put in front of its data; a conversion that throws is logged
    and the film skipped. *)
Definition convertSnapshot (now year : Z) (docs : list DocSnap)
    : list jsobj :=
  omap (fun d =>
          match convertLegacyToEnhanced now year
                  (JObj (doc_data d ∪ {[ "id" := JStr (doc_id d) ]})) with
          | Ok film => Some film
          | Throw _ => None
          end) docs.

End FeatureFilmService.

(** ** Vocabulary of the statements *)
Module Vocabulary.
Import CommentsService.

(** An application score record with all six numeric fields. *)
Definition score_keys : list string :=
  ["technical"; "story"; "creativity"; "chiangmai"; "overall"; "totalScore"].

Definition well_formed_scores (x : jsobj) : Prop :=
  dom x = list_to_set score_keys
  /\ forall k, k ∈ score_keys -> exists n, x !! k = Some (JNum n).

(** The six numeric fields are present, whatever else the record
    holds. *)
Definition has_score_fields (x : jsobj) : Prop :=
  forall k, k ∈ score_keys -> exists n, x !! k = Some (JNum n).

(** A record cut down to its six score fields. *)
Definition score_fields (x : jsobj) : jsobj :=
  filter (fun kv => fst kv ∈ score_keys) x.

(** The scores a caller hands to a scoring write: five numeric components
    and, optionally, a total. *)
Definition scoreInput (technical story creativity chiangmai overall : Z)
    (totalScore : option Z) : jsobj :=
  let components : jsobj := {[
    "technical" := JNum technical;
    "story" := JNum story;
    "creativity" := JNum creativity;
    "chiangmai" := JNum chiangmai;
    "overall" := JNum overall ]} in
  match totalScore with
  | Some t => <["totalScore" := JNum t]> components
  | None => components
  end.

(** The score record of the worked example as the scoring panel builds
    it: the six numbers together with the judge and the comments
    (part_000, [handleSaveScores]). *)
Definition panelRecord : jsobj :=
  <["comments" := JStr "solid"]>
    (<["scoredAt" := JDate 1000]>
       (<["adminName" := JStr "Judge"]>
          (<["adminId" := JStr "admin1"]>
             (scoreInput 8 7 9 6 5 (Some 35))))).

(** The persisted shape. *)
Definition persistedRecord
    (technical story creativity chiangmai humanEffort totalScore : Z)
    : jsobj :=
  {[ "technical" := JNum technical;
     "story" := JNum story;
     "creativity" := JNum creativity;
     "chiangmai" := JNum chiangmai;
     "humanEffort" := JNum humanEffort;
     "totalScore" := JNum totalScore ]}.

(** The [scores] field of a stored comment. *)
Definition persistedScores (db : CommentDb) (sid commentId : string)
    : jsval :=
  match db !! (sid, commentId) with
  | Some d => prop d "scores"
  | None => JUndefined
  end.

(** [totalScore == technical + story + creativity + chiangmai +
    humanEffort] on a persisted score object. *)
Definition total_is_sum (s : jsval) : Prop :=
  exists a b c d e,
    get s "technical" = JNum a /\ get s "story" = JNum b
    /\ get s "creativity" = JNum c /\ get s "chiangmai" = JNum d
    /\ get s "humanEffort" = JNum e
    /\ get s "totalScore" = JNum (a + b + c + d + e).

(** A store reply that accepts everything. *)
Definition accepting (newId : string) (time : Z) : Reply :=
  {| read_ok := true; write_ok := true; auto_id := newId;
     server_time := time |}.

Definition rejecting : Reply :=
  {| read_ok := false; write_ok := false; auto_id := "";
     server_time := 0 |}.

(** Latest first: the order of a list sorted descending by
    [createdAt]. *)
Definition later_first (a b : ShortFilmComment) : Prop :=
  createdAt b <= createdAt a.

(** The comment a document is turned into when it is not skipped; the
    clock is not read when the document carries a timestamp. *)
Definition comment_of (sid : string) (d : DocSnap) : option ShortFilmComment :=
  processDoc filtered sid 0 d.

(** Every document carries a boolean [isDeleted] and a [createdAt]
    timestamp, as the write paths of the service stamp them. *)
Definition stamped (coll : list DocSnap) : Prop :=
  forall d, d ∈ coll ->
    (exists b, doc_data d !! "isDeleted" = Some (JBool b))
    /\ (exists t, doc_data d !! "createdAt" = Some (JTimestamp t)).

(** No two documents that are not deleted share their [createdAt]. *)
Definition distinct_times (coll : list DocSnap) : Prop :=
  forall d1 d2, d1 ∈ coll -> d2 ∈ coll ->
    not_deleted d1 = true -> not_deleted d2 = true ->
    timestamp_of d1 = timestamp_of d2 -> d1 = d2.

(** The store accepts at least one of the three queries. *)
Definition accepts (getDocs : QueryKind -> result (list DocSnap)) : Prop :=
  exists q, is_ok (getDocs q) = true.

(** A general comment as the service writes it. *)
Definition generalComment (commentId content : string) (time : Z)
    (deleted : option bool) : DocSnap :=
  let base : jsobj := {[
    "submissionId" := JStr "S1";
    "adminId" := JStr "admin1";
    "adminName" := JStr "Judge";
    "adminEmail" := JStr "judge@example.org";
    "content" := JStr content;
    "type" := JStr "general";
    "createdAt" := JTimestamp time;
    "isEdited" := JBool false ]} in
  {| doc_id := commentId;
     doc_data := match deleted with
                 | Some b => <["isDeleted" := JBool b]> base
                 | None => base
                 end |}.

(** A store that answers exactly the queries for which it is given an
    answer. *)
Definition storeWith (onFiltered onSimple onUnfiltered : option (list DocSnap))
    (q : QueryKind) : result (list DocSnap) :=
  let reply o := match o with
                 | Some r => Ok r
                 | None => Throw "store: query rejected"
                 end in
  match q with
  | filtered => reply onFiltered
  | simple => reply onSimple
  | unfiltered => reply onUnfiltered
  end.

Definition ids (r : result (list ShortFilmComment)) : list string :=
  match r with Ok l => id <$> l | Throw _ => [] end.

(** Submission [S1] of the worked example: three comments, the second one
    soft-deleted. *)
Definition exampleColl : list DocSnap :=
  [ generalComment "c1" "first" 1000 (Some false);
    generalComment "c2" "second" 2000 (Some true);
    generalComment "c3" "third" 3000 (Some false) ].

(** Two comments stamped with the same [createdAt]. *)
Definition tiedColl : list DocSnap :=
  [ generalComment "a" "one" 1000 (Some false);
    generalComment "b" "two" 1000 (Some false) ].

(** A comment that has no [isDeleted] field. *)
Definition unmarkedColl : list DocSnap :=
  [ generalComment "u" "unmarked" 1000 None ].

(** A comment that has no [createdAt] field. *)
Definition undatedColl : list DocSnap :=
  [ {| doc_id := "n";
       doc_data := {[ "adminId" := JStr "admin1"; "adminName" := JStr "Judge";
                      "type" := JStr "general"; "content" := JStr "undated";
                      "isDeleted" := JBool false ]} |} ].

(** A field of a stored comment. *)
Definition fieldOf (db : CommentDb) (sid commentId field : string) : jsval :=
  match db !! (sid, commentId) with
  | Some d => prop d field
  | None => JUndefined
  end.

Definition scoringEdit (time : Z) (scores : jsval)
    (comments editedBy : string) : ScoringEdit :=
  {| edit_reply := accepting "" time; edit_scores := scores;
     edit_comments := comments; edit_editedBy := editedBy |}.

(** The store after the scoring comment of the worked example has been
    added to submission [S1] as comment [c1]. *)
Definition exampleScoringDb : CommentDb :=
  match addScoringComment (accepting "c1" 1000) ∅ "S1" "admin1" "Judge"
          "judge@example.org" (JObj (scoreInput 8 7 9 6 5 (Some 35)))
          (JStr "solid") JUndefined with
  | Ok (_, db) => db
  | Throw _ => ∅
  end.

Definition exampleEdits : list ScoringEdit :=
  [ scoringEdit 2000 (JObj (scoreInput 9 7 9 6 5 (Some 36))) "better" "admin1";
    scoringEdit 3000 (JObj (scoreInput 9 8 9 6 5 (Some 37))) "" "admin2" ].

End Vocabulary.

(** ** Vocabulary of the statements about films *)
Module FilmVocabulary.
Import FeatureFilmService.

Definition resultOf {A} (m : M A) (w : World) : result A := fst (m w).
Definition worldAfter {A} (m : M A) (w : World) : World := snd (m w).

(** The guest-service calls among the calls made. *)
Definition guest_calls (w : World) : list Call :=
  filter (fun c => Is_true (is_guest_call c)) (calls w).

(** An environment in which the store accepts everything and uploads
    succeed, with the given endings for the guest-service calls. *)
Definition friendlyEnv (newId : string) (d c : GuestOutcome) : Env :=
  {| primary := Vocabulary.accepting newId 5000;
     urls := Vocabulary.accepting newId 5001;
     readback := Vocabulary.accepting newId 5002;
     generateFeatureFilmUploadPath :=
       fun filmId folder _ _ => Ok (filmId +:+ "/" +:+ folder);
     uploadFile := fun _ path => Ok (JStr path);
     delete_guests := d;
     create_guests := c |}.

(** The same with a store that rejects the primary write. *)
Definition primaryRejectedEnv (newId : string) : Env :=
  {| primary := Vocabulary.rejecting;
     urls := Vocabulary.accepting newId 5001;
     readback := Vocabulary.accepting newId 5002;
     generateFeatureFilmUploadPath :=
       fun filmId folder _ _ => Ok (filmId +:+ "/" +:+ folder);
     uploadFile := fun _ path => Ok (JStr path);
     delete_guests := Completes;
     create_guests := Completes |}.

Definition guestEntry (name role : string) : jsval :=
  JObj {[ "name" := JStr name; "role" := JStr role ]}.

(** Film [f1] with three guests in its subcollection. *)
Definition threeGuests : list jsval :=
  [guestEntry "Ann" "Director"; guestEntry "Bob" "Producer";
   guestEntry "Cy" "Actor"].

Definition filmWorld : World :=
  {| films := {[ "f1" := {[ "titleEn" := JStr "Film A" ]} ]};
     guests := {[ "f1" := threeGuests ]};
     calls := [] |}.

(** An update that carries no guests, director, producer or actors. *)
Definition bareUpdate : jsobj := {[ "titleEn" := JStr "Film A (restored)" ]}.

(** An update naming a director. *)
Definition directorUpdate : jsobj :=
  {[ "titleEn" := JStr "Film A"; "director" := JStr " Dee " ]}.

(** The fields [updateFeatureFilm] writes to the film document, and the
    document [createFeatureFilm] adds. *)
Definition updateFields (e : Env) (filmId : string) (filmData : jsobj)
    (userId : jsval) : jsobj :=
  <["updatedAt" := JTimestamp (server_time (primary e))]>
    ((if hasFiles filmData
      then updatedData (uploadFeatureFilmFiles e filmId filmData userId)
      else ∅)
     ∪ prepareFilmDataForFirestore (delete "guests" filmData)).

Definition createdFields (e : Env) (filmData : jsobj) (userId : string)
    : jsobj :=
  <["updatedAt" := JTimestamp (server_time (primary e))]>
    (<["createdAt" := JTimestamp (server_time (primary e))]>
       (<["createdBy" := JStr userId]>
          (prepareFilmDataForFirestore (delete "guests" filmData)))).

(** The second write of [createFeatureFilm], with the file URLs. *)
Definition writeUrls (e : Env) (filmId : string) (filmData : jsobj)
    (userId : string) : M unit :=
  if hasFiles filmData then
    let up := uploadFeatureFilmFiles e filmId filmData (JStr userId) in
    if (size (updatedData up) =? 0)%nat then ret tt
    else updateDoc (urls e) filmId
           (<["updatedAt" := JTimestamp (server_time (urls e))]>
              (updatedData up))
  else ret tt.

(** The result built from the document read back. *)
Definition readBackResult (filmId : string) (missing : string)
    (doc : option jsobj) : FeatureFilmServiceResult :=
  match doc with
  | Some d => {| success := true;
                 data := Some (d ∪ {[ "id" := JStr filmId ]});
                 error := None |}
  | None => failure missing
  end.

(** *** Legacy film records

    The legacy shape, as the typed code of the service uses it: free-text
    fields are strings, the plural variants are arrays of strings, and
    every field may be missing (or [null]). *)
Definition opt_string (v : jsval) : Prop :=
  v = JUndefined \/ v = JNull \/ exists s, v = JStr s.

Definition string_array (v : jsval) : Prop :=
  exists l : list string, v = JArr (JStr <$> l).

Definition opt_string_array (v : jsval) : Prop :=
  v = JUndefined \/ v = JNull \/ string_array v.

Record LegacyFilmRecord (L : jsobj) : Prop := {
  legacy_titleEn : opt_string (prop L "titleEn");
  legacy_title : opt_string (prop L "title");
  legacy_director : opt_string (prop L "director");
  legacy_producer : opt_string (prop L "producer");
  legacy_mainActors : opt_string (prop L "mainActors");
  legacy_galleryUrls : opt_string_array (prop L "galleryUrls");
  legacy_genre : opt_string (prop L "genre");
  legacy_genres : opt_string_array (prop L "genres");
  legacy_country : opt_string (prop L "country");
  legacy_countries : opt_string_array (prop L "countries");
  legacy_language : opt_string (prop L "language");
  legacy_languages : opt_string_array (prop L "languages")
}.

(** The string a field carries, when it carries a non-empty one. *)
Definition nonempty_string (v : jsval) : option string :=
  match v with
  | JStr s => if String.eqb s "" then None else Some s
  | _ => None
  end.

Definition producerEntry (name : string) : jsval :=
  JObj {[ "name" := JStr name; "role" := JStr "Producer";
          "department" := JStr "Production" ]}.

(** The legacy record of the worked example. *)
Definition legacyExample : jsobj :=
  {[ "titleEn" := JStr "Film A"; "director" := JStr "";
     "mainActors" := JStr "X, Y" ]}.

(** A legacy record whose new-style arrays are present but empty. *)
Definition legacyEmptyArrays : jsobj :=
  {[ "titleEn" := JStr "Film B"; "languages" := JArr [];
     "language" := JStr "Thai"; "countries" := JArr [];
     "country" := JStr "Thailand" ]}.

(** A document whose [mainActors] is not a string. *)
Definition illTypedFilm : jsobj :=
  {[ "titleEn" := JStr "Film C"; "mainActors" := JNum 3 ]}.

End FilmVocabulary.

(** ** shortFilmCommentsService, the remaining operations
    (unnamed/part_002) *)
Module CommentsServiceRest.
Import CommentsService.

Definition addGeneralComment (r : Reply) (db : CommentDb)
    (submissionId adminId adminName adminEmail : string)
    (content metadata : jsval) : result (string * CommentDb) :=
  try_catch
    (let commentData : jsobj := {[
       "submissionId" := JStr submissionId;
       "adminId" := JStr adminId;
       "adminName" := JStr adminName;
       "adminEmail" := JStr adminEmail;
       "content" := content;
       "type" := JStr "general";
       "metadata" := or_js metadata (JObj ∅);
       "createdAt" := JTimestamp (server_time r);
       "isEdited" := JBool false;
       "isDeleted" := JBool false
     ]} in
     let* db' := addDoc r db (submissionId, auto_id r) commentData in
     Ok (auto_id r, db'))
    (fun _ => Throw "Failed to add comment").

(** An optional string argument ([reason?: string]) as a value. *)
Definition opt_str (o : option string) : jsval :=
  match o with Some s => JStr s | None => JUndefined end.

Definition addStatusChangeComment (r : Reply) (db : CommentDb)
    (submissionId adminId adminName adminEmail oldStatus newStatus : string)
    (reason : option string) : result (string * CommentDb) :=
  try_catch
    (let content :=
       or_js (opt_str reason)
         (JStr ("Status changed from " +:+ oldStatus +:+ " to "
                +:+ newStatus)) in
     let metadata : jsobj := {[
       "oldStatus" := JStr oldStatus;
       "newStatus" := JStr newStatus;
       "reason" := opt_str reason ]} in
     addGeneralComment r db submissionId adminId adminName adminEmail content
       (JObj (<["type" := JStr "status_change"]> metadata)))
    (fun _ => Throw "Failed to add status change comment").

Definition addFlagComment (r : Reply) (db : CommentDb)
    (submissionId adminId adminName adminEmail : string) (flagged : bool)
    (reason : option string) : result (string * CommentDb) :=
  try_catch
    (let content :=
       if flagged then
         "Application flagged"
         +:+ match reason with
             | Some s => if String.eqb s "" then "" else ": " +:+ s
             | None => ""
             end
       else "Application unflagged" in
     let metadata : jsobj := {[
       "flagged" := JBool flagged;
       "reason" := opt_str reason ]} in
     addGeneralComment r db submissionId adminId adminName adminEmail
       (JStr content) (JObj (<["type" := JStr "flag"]> metadata)))
    (fun _ => Throw "Failed to add flag comment").

(** *** getLatestScoreByAdmin

    [answer] is what the store returns for the one query the function
    issues (by [adminId], [type == 'scoring'], [isDeleted == false],
    ordered by [createdAt] descending). The comment is built from the first
    document exactly as the earlier [getComments] builds each of its
    comments. *)
Definition getLatestScoreByAdmin (answer : result (list DocSnap)) (now : Z)
    : result (option ShortFilmComment) :=
  try_catch
    (let* docs := answer in
     match docs with
     | [] => Ok None
     | doc :: _ =>
         let* c := CommentsServiceV1.toComment now doc in Ok (Some c)
     end)
    (fun _ => Throw "Failed to fetch latest score").

(** *** subscribeToComments

    The subscription is followed through the listener that is live: at
    most one at a time, named by the strategy it was set up with. *)
Definition Subscription : Type := option QueryKind.

(** What can happen to the live listener: the store pushes a snapshot, or
    the listener's error callback fires. [setupThrows q] tells whether
    setting up a subscription with strategy [q] throws at that moment;
    [clock] is the client clock during the processing of a snapshot. *)
Inductive StoreEvent : Type :=
| Pushed (docs : list DocSnap) (clock : nat -> Z)
| Failed (setupThrows : QueryKind -> bool).

(** The first set-up: the [try] cascade at the end of
    [subscribeToComments]. The second component lists the calls made to
    the caller's callback. *)
Definition subscribeToComments (sid : string)
    (setupThrows : QueryKind -> bool)
    : Subscription * list (list ShortFilmComment) :=
  if String.eqb sid "" then (None, [[]])
  else if negb (setupThrows filtered) then (Some filtered, [])
  else if negb (setupThrows simple) then (Some simple, [])
  else if negb (setupThrows unfiltered) then (Some unfiltered, [])
  else (None, [[]]).

(** One event on the live listener. An error moves to the next weaker
    strategy; an exception escaping the error callback leaves nothing
    live. *)
Definition onEvent (sid : string) (sub : Subscription) (ev : StoreEvent)
    : Subscription * list (list ShortFilmComment) :=
  match sub with
  | None => (None, [])
  | Some strategyName =>
      match ev with
      | Pushed docs clock =>
          (Some strategyName,
           [onSnapshotComments strategyName sid clock docs])
      | Failed setupThrows =>
          match strategyName with
          | filtered =>
              if negb (setupThrows simple) then (Some simple, [])
              else if negb (setupThrows unfiltered) then (Some unfiltered, [])
              else (None, [])
          | simple =>
              if negb (setupThrows unfiltered) then (Some unfiltered, [])
              else (None, [])
          | unfiltered => (None, [[]])
          end
      end
  end.

(** A run of events, with all the lists the callback received. *)
Fixpoint onEvents (sid : string) (sub : Subscription)
    (evs : list StoreEvent) : Subscription * list (list ShortFilmComment) :=
  match evs with
  | [] => (sub, [])
  | ev :: rest =>
      let '(sub', out) := onEvent sid sub ev in
      let '(sub'', out') := onEvents sid sub' rest in
      (sub'', out ++ out')
  end.

End CommentsServiceRest.

(** ** Vocabulary of the further statements about comments *)
Module CommentsVocabulary.
Import CommentsService CommentsServiceRest Vocabulary.

(** The documents of one submission, as snapshots. *)
Definition collectionOf (db : CommentDb) (sid : string) : list DocSnap :=
  omap (fun kv : string * string * jsobj =>
          if decide (fst (fst kv) = sid)
          then Some {| doc_id := snd (fst kv); doc_data := snd kv |}
          else None)
       (map_to_list db).

(** Every stored comment carries a boolean [isDeleted] and a [createdAt]
    timestamp. *)
Definition db_stamped (db : CommentDb) : Prop :=
  forall key d, db !! key = Some d ->
    (exists b, d !! "isDeleted" = Some (JBool b))
    /\ (exists t, d !! "createdAt" = Some (JTimestamp t)).

(** [c] is the comment built from document [d]: it carries the document's
    id and its [adminId], [adminName] and [type], all three truthy, and
    neither the document's [isDeleted] nor the comment's is the boolean
    [true]. *)
Definition comment_from (c : ShortFilmComment) (d : DocSnap) : Prop :=
  id c = doc_id d
  /\ adminId c = prop (doc_data d) "adminId" /\ truthy (adminId c) = true
  /\ adminName c = prop (doc_data d) "adminName"
  /\ truthy (adminName c) = true
  /\ type c = prop (doc_data d) "type" /\ truthy (type c) = true
  /\ prop (doc_data d) "isDeleted" <> JBool true
  /\ isDeleted c <> JBool true.

(** How weak a subscription has become. *)
Definition weakness (sub : Subscription) : nat :=
  match sub with
  | Some filtered => 0
  | Some simple => 1
  | Some unfiltered => 2
  | None => 3
  end.

Definition is_failure (ev : StoreEvent) : bool :=
  match ev with Failed _ => true | Pushed _ _ => false end.

(** One successful write of the service: [wrote db db'] when some call
    of one of its seven writing functions takes the store from [db] to
    [db']. *)
Inductive wrote (render : jsval -> string) (roundPercent : jsval -> jsval)
    (db db' : CommentDb) : Prop :=
  | wrote_general r sid aid an ae content metadata cid :
      addGeneralComment r db sid aid an ae content metadata = Ok (cid, db') ->
      wrote render roundPercent db db'
  | wrote_scoring r sid aid an ae scores content metadata cid :
      addScoringComment r db sid aid an ae scores content metadata
        = Ok (cid, db') ->
      wrote render roundPercent db db'
  | wrote_status r sid aid an ae oldStatus newStatus reason cid :
      addStatusChangeComment r db sid aid an ae oldStatus newStatus reason
        = Ok (cid, db') ->
      wrote render roundPercent db db'
  | wrote_flag r sid aid an ae flagged reason cid :
      addFlagComment r db sid aid an ae flagged reason = Ok (cid, db') ->
      wrote render roundPercent db db'
  | wrote_update r sid cid content metadata :
      updateComment r db sid cid content metadata = Ok db' ->
      wrote render roundPercent db db'
  | wrote_delete r sid cid :
      deleteComment r db sid cid = Ok db' ->
      wrote render roundPercent db db'
  | wrote_rescore r sid cid scores comments editedBy :
      updateScoringComment render roundPercent r db sid cid scores comments
        editedBy = Ok db' ->
      wrote render roundPercent db db'.

(** A store the service alone has filled, starting from nothing. *)
Inductive built (render : jsval -> string) (roundPercent : jsval -> jsval)
    : CommentDb -> Prop :=
  | built_empty : built render roundPercent ∅
  | built_step db db' :
      built render roundPercent db -> wrote render roundPercent db db' ->
      built render roundPercent db'.

(** Every stored comment is of type [general] or [scoring]. *)
Definition db_typed (db : CommentDb) : Prop :=
  forall key d, db !! key = Some d ->
    d !! "type" = Some (JStr "general") \/ d !! "type" = Some (JStr "scoring").

(** The fields an edit of a comment may write. *)
Definition edit_fields : list string :=
  ["content"; "scores"; "updatedAt"; "isEdited"; "editHistory"; "metadata"].

End CommentsVocabulary.

(* ===================================================================== *)
(** * Part II. Properties                                                 *)
(* ===================================================================== *)

(** ** Truthiness *)
Section Truthiness.

Lemma or_js_num (n : Z) : or_js (JNum n) (JNum 0) = JNum n.
Proof.
  unfold or_js, truthy. destruct (Z.eqb_spec n 0) as [->|]; reflexivity.
Qed.

Lemma or_js_truthy (a b : jsval) : truthy a = true -> or_js a b = a.
Proof. unfold or_js. intros ->. reflexivity. Qed.

Lemma or_js_falsy (a b : jsval) : truthy a = false -> or_js a b = b.
Proof. unfold or_js. intros ->. reflexivity. Qed.

Lemma truthy_num (n : Z) : n <> 0 -> truthy (JNum n) = true.
Proof.
  intros Hn. unfold truthy.
  destruct (Z.eqb_spec n 0); [contradiction|reflexivity].
Qed.

Lemma truthy_str (s : string) : s <> EmptyString -> truthy (JStr s) = true.
Proof.
  intros Hs. unfold truthy.
  destruct (String.eqb_spec s ""); [contradiction|reflexivity].
Qed.

End Truthiness.

(** ** The score mapping *)
Module ScoreMapping.
Import CommentsService Vocabulary.

Lemma mapAppScoresToDatabase_obj (x : jsobj) :
  mapAppScoresToDatabase (JObj x) = Ok (JObj {[
    "technical" := or_js (prop x "technical") (JNum 0);
    "story" := or_js (prop x "story") (JNum 0);
    "creativity" := or_js (prop x "creativity") (JNum 0);
    "chiangmai" := or_js (prop x "chiangmai") (JNum 0);
    "humanEffort" := or_js (prop x "overall") (JNum 0);
    "totalScore" := or_js (prop x "totalScore") (JNum 0) ]}).
Proof. reflexivity. Qed.

Lemma mapDatabaseScoresToApp_persisted (a b c d e t : Z) :
  mapDatabaseScoresToApp (JObj (persistedRecord a b c d e t)) = JObj {[
    "technical" := JNum a; "story" := JNum b; "creativity" := JNum c;
    "chiangmai" := JNum d; "overall" := JNum e; "totalScore" := JNum t ]}.
Proof.
  change (mapDatabaseScoresToApp (JObj (persistedRecord a b c d e t)))
    with (JObj {[
      "technical" := or_js (JNum a) (JNum 0);
      "story" := or_js (JNum b) (JNum 0);
      "creativity" := or_js (JNum c) (JNum 0);
      "chiangmai" := or_js (JNum d) (JNum 0);
      "overall" := or_js (JNum e) (or_js JUndefined (JNum 0));
      "totalScore" := or_js (JNum t) (JNum 0) ]}).
  rewrite !or_js_num.
  replace (or_js (JNum e) (or_js JUndefined (JNum 0))) with (JNum e)
    by (symmetry; apply or_js_num).
  reflexivity.
Qed.

Lemma well_formed_lookup (x : jsobj) (k : string) :
  well_formed_scores x -> k ∈ score_keys ->
  exists n, prop x k = JNum n /\ x !! k = Some (JNum n).
Proof.
  intros [_ Hnum] Hk. destruct (Hnum k Hk) as [n Hn].
  exists n. unfold prop. rewrite Hn. auto.
Qed.

Lemma well_formed_other (x : jsobj) (k : string) :
  well_formed_scores x -> k ∉ score_keys -> x !! k = None.
Proof.
  intros [Hdom _] Hk. apply not_elem_of_dom. rewrite Hdom.
  rewrite elem_of_list_to_set. exact Hk.
Qed.

Ltac in_score_keys :=
  unfold score_keys;
  repeat first [apply list_elem_of_here | apply list_elem_of_further].

Lemma has_score_field (x : jsobj) (k : string) :
  has_score_fields x -> k ∈ score_keys ->
  exists n, prop x k = JNum n /\ x !! k = Some (JNum n).
Proof.
  intros Hnum Hk. destruct (Hnum k Hk) as [n Hn].
  exists n. unfold prop. rewrite Hn. auto.
Qed.

(** C2 (amended). For every application score record that has the six
    numeric fields, mapping to the persisted shape and back returns the
    record cut down to those six fields: each of the six values comes
    back unchanged, [overall] through [humanEffort], and every other
    field of the record is dropped. The round trip is the identity
    exactly on the records that have no other field. *)
Theorem C2_round_trip_keeps_the_six_fields (x : jsobj) :
  has_score_fields x ->
  (let* d := mapAppScoresToDatabase (JObj x) in
   Ok (mapDatabaseScoresToApp d)) = Ok (JObj (score_fields x))
  /\ (forall k, k ∈ score_keys -> score_fields x !! k = x !! k)
  /\ (forall k, k ∉ score_keys -> score_fields x !! k = None)
  /\ (score_fields x = x <-> forall k, is_Some (x !! k) -> k ∈ score_keys).
Proof.
  intros Hnum.
  assert (Hin : forall k, k ∈ score_keys -> score_fields x !! k = x !! k).
  { intros k Hk. destruct (Hnum k Hk) as [n Hn]. rewrite Hn.
    by apply map_lookup_filter_Some. }
  assert (Hout : forall k, k ∉ score_keys -> score_fields x !! k = None).
  { intros k Hk. apply map_lookup_filter_None. right. intros v _. exact Hk. }
  split; [|split; [exact Hin|split; [exact Hout|]]].
  - destruct (has_score_field x "technical" Hnum) as (a & Ha & Ha');
      [in_score_keys|].
    destruct (has_score_field x "story" Hnum) as (b & Hb & Hb');
      [in_score_keys|].
    destruct (has_score_field x "creativity" Hnum) as (c & Hc & Hc');
      [in_score_keys|].
    destruct (has_score_field x "chiangmai" Hnum) as (d & Hd & Hd');
      [in_score_keys|].
    destruct (has_score_field x "overall" Hnum) as (e & He & He');
      [in_score_keys|].
    destruct (has_score_field x "totalScore" Hnum) as (t & Ht & Ht');
      [in_score_keys|].
    rewrite mapAppScoresToDatabase_obj, Ha, Hb, Hc, Hd, He, Ht, !or_js_num.
    simpl rbind.
    change (JObj _) with (JObj (persistedRecord a b c d e t)) at 1.
    rewrite mapDatabaseScoresToApp_persisted.
    do 2 f_equal. apply map_eq. intros k.
    destruct (decide (k ∈ score_keys)) as [Hk|Hk].
    + rewrite (Hin k Hk). unfold score_keys in Hk.
      repeat (apply elem_of_cons in Hk as [->|Hk]; [symmetry; assumption|]).
      inversion Hk.
    + rewrite (Hout k Hk). unfold score_keys in Hk.
      repeat (apply not_elem_of_cons in Hk as [? Hk]).
      repeat (rewrite lookup_insert_ne by congruence).
      apply lookup_singleton_ne. congruence.
  - split.
    + intros Heq k [v Hv]. rewrite <-Heq in Hv.
      by apply map_lookup_filter_Some in Hv as [_ Hk].
    + intros Hkeys. apply map_eq. intros k.
      destruct (decide (k ∈ score_keys)) as [Hk|Hk]; [by apply Hin|].
      rewrite (Hout k Hk). destruct (x !! k) as [v|] eqn:Hv; [|done].
      exfalso. apply Hk, Hkeys. by exists v.
Qed.

Lemma panelRecord_has_score_fields : has_score_fields panelRecord.
Proof.
  intros k Hk. unfold score_keys in Hk.
  repeat (apply elem_of_cons in Hk as [->|Hk]; [eexists; reflexivity|]).
  inversion Hk.
Qed.

(** The record of the worked example, as the scoring panel builds it,
    comes back with its six numbers and without the judge and the
    comments. *)
Lemma C2_round_trip_keeps_the_six_fields_witness :
  has_score_fields panelRecord
  /\ (let* d := mapAppScoresToDatabase (JObj panelRecord) in
      Ok (mapDatabaseScoresToApp d)) = Ok (JObj (score_fields panelRecord))
  /\ score_fields panelRecord !! "overall" = Some (JNum 5)
  /\ score_fields panelRecord !! "comments" = None.
Proof.
  destruct (C2_round_trip_keeps_the_six_fields panelRecord
              panelRecord_has_score_fields) as (Htrip & Hin & Hout & _).
  split; [exact panelRecord_has_score_fields|]. split; [exact Htrip|].
  split.
  - rewrite (Hin "overall") by in_score_keys. reflexivity.
  - apply Hout. unfold score_keys.
    repeat (apply not_elem_of_cons; split; [discriminate|]).
    apply not_elem_of_nil.
Defined.

(** C2, as stated, fails: the record the scoring panel builds has all six
    numeric fields, and the round trip does not return it, because the
    persisted shape has no place for its other fields. *)
Lemma C2_counterexample :
  has_score_fields panelRecord
  /\ (let* d := mapAppScoresToDatabase (JObj panelRecord) in
      Ok (mapDatabaseScoresToApp d)) <> Ok (JObj panelRecord)
  /\ (let* d := mapAppScoresToDatabase (JObj panelRecord) in
      Ok (get (mapDatabaseScoresToApp d) "comments")) = Ok JUndefined.
Proof.
  split; [exact panelRecord_has_score_fields|]. split; [|reflexivity].
  intros Heq.
  apply (f_equal (fun res => match res with
                             | Ok v => get v "comments"
                             | Throw _ => JUndefined
                             end)) in Heq.
  vm_compute in Heq. discriminate Heq.
Qed.

(** *** What a scoring write persists *)

Lemma mapAppScoresToDatabase_input (a b c d e : Z) (total : option Z) :
  mapAppScoresToDatabase (JObj (scoreInput a b c d e total))
  = Ok (JObj (persistedRecord a b c d e (default 0 total))).
Proof.
  rewrite mapAppScoresToDatabase_obj.
  destruct total as [t|].
  - change (prop (scoreInput a b c d e (Some t)) "technical") with (JNum a).
    change (prop (scoreInput a b c d e (Some t)) "story") with (JNum b).
    change (prop (scoreInput a b c d e (Some t)) "creativity") with (JNum c).
    change (prop (scoreInput a b c d e (Some t)) "chiangmai") with (JNum d).
    change (prop (scoreInput a b c d e (Some t)) "overall") with (JNum e).
    change (prop (scoreInput a b c d e (Some t)) "totalScore") with (JNum t).
    rewrite !or_js_num. reflexivity.
  - change (prop (scoreInput a b c d e None) "technical") with (JNum a).
    change (prop (scoreInput a b c d e None) "story") with (JNum b).
    change (prop (scoreInput a b c d e None) "creativity") with (JNum c).
    change (prop (scoreInput a b c d e None) "chiangmai") with (JNum d).
    change (prop (scoreInput a b c d e None) "overall") with (JNum e).
    change (prop (scoreInput a b c d e None) "totalScore") with JUndefined.
    rewrite !or_js_num. reflexivity.
Qed.

Lemma total_is_sum_persisted (a b c d e t : Z) :
  total_is_sum (JObj (persistedRecord a b c d e t)) <-> t = a + b + c + d + e.
Proof.
  split.
  - intros (a' & b' & c' & d' & e' & Ha & Hb & Hc & Hd & He & Ht).
    change (JNum a = JNum a') in Ha. change (JNum b = JNum b') in Hb.
    change (JNum c = JNum c') in Hc. change (JNum d = JNum d') in Hd.
    change (JNum e = JNum e') in He.
    change (JNum t = JNum (a' + b' + c' + d' + e')) in Ht.
    congruence.
  - intros ->. exists a, b, c, d, e. repeat split; reflexivity.
Qed.

Lemma addScoringComment_stores (r : Reply) (db db' : CommentDb)
    (sid adminId adminName adminEmail commentId : string)
    (scores content metadata dbScores : jsval) :
  mapAppScoresToDatabase scores = Ok dbScores ->
  addScoringComment r db sid adminId adminName adminEmail scores content
    metadata = Ok (commentId, db') ->
  persistedScores db' sid commentId = dbScores.
Proof.
  intros Hmap. unfold addScoringComment. rewrite Hmap. simpl rbind.
  unfold Store.addDoc. destruct (write_ok r); simpl; [|discriminate].
  intros [= <- <-]. unfold persistedScores.
  rewrite lookup_insert_eq. reflexivity.
Qed.

(** *** The rescoring write is refused

    The payload of [updateScoringComment] carries [serverTimestamp()]
    inside the [editHistory] array, where the SDK does not take it. *)
Lemma scoringUpdate_refused (roundPercent : jsval -> jsval)
    (currentData : jsobj) (scores dbScores : jsval) (content : string)
    (editHistory : list jsval) (editedBy : string) :
  checkPayload (scoringUpdate roundPercent currentData scores dbScores
                  content editHistory editedBy)
  = Throw "serverTimestamp() is not currently supported inside arrays".
Proof.
  unfold checkPayload, scoringUpdate.
  cbn [existsb snd sentinel_in_array orb].
  rewrite existsb_app. cbn. by rewrite !orb_true_r.
Qed.

Lemma rescoring_is_refused (render : jsval -> string)
    (roundPercent : jsval -> jsval) (r : Reply) (db : CommentDb)
    (sid commentId : string) (scores : jsval) (comments editedBy : string) :
  updateScoringComment render roundPercent r db sid commentId scores
    comments editedBy = Throw "Failed to update scoring comment".
Proof.
  unfold updateScoringComment.
  destruct (Store.getDoc r db (sid, commentId)) as [[currentData|]|];
    simpl; try reflexivity.
  destruct (mapAppScoresToDatabase scores) as [dbScores|];
    simpl; try reflexivity.
  destruct (spread_array _) as [editHistory|]; simpl; try reflexivity.
  unfold updateDocOf. by rewrite scoringUpdate_refused.
Qed.

Lemma updateScoringComment_stores (render : jsval -> string)
    (roundPercent : jsval -> jsval) (r : Reply) (db db' : CommentDb)
    (sid commentId : string) (scores dbScores : jsval)
    (comments editedBy : string) :
  mapAppScoresToDatabase scores = Ok dbScores ->
  updateScoringComment render roundPercent r db sid commentId scores
    comments editedBy = Ok db' ->
  persistedScores db' sid commentId = dbScores.
Proof.
  intros _ Hupd. rewrite rescoring_is_refused in Hupd. discriminate Hupd.
Qed.

(** C1 (amended). A scoring write, whether [addScoringComment] or
    [updateScoringComment], persists the five components with [overall]
    renamed to [humanEffort], and persists as [totalScore] the total the
    caller supplied, [0] when none was supplied: nothing is recomputed.
    The stored record therefore satisfies [totalScore = technical + story +
    creativity + chiangmai + humanEffort] exactly when the caller's total
    is that sum. *)
Theorem C1_scoring_write_keeps_caller_total
    (render : jsval -> string) (roundPercent : jsval -> jsval)
    (r : Reply) (db : CommentDb) (sid : string)
    (a b c d e : Z) (total : option Z) :
  let scores := JObj (scoreInput a b c d e total) in
  let stored := JObj (persistedRecord a b c d e (default 0 total)) in
  (forall adminId adminName adminEmail content metadata commentId db',
     addScoringComment r db sid adminId adminName adminEmail scores content
       metadata = Ok (commentId, db') ->
     persistedScores db' sid commentId = stored)
  /\ (forall commentId comments editedBy db',
        updateScoringComment render roundPercent r db sid commentId scores
          comments editedBy = Ok db' ->
        persistedScores db' sid commentId = stored)
  /\ (total_is_sum stored <-> default 0 total = a + b + c + d + e).
Proof.
  intros scores stored. split; [|split].
  - intros adminId adminName adminEmail content metadata commentId db' Hadd.
    eapply addScoringComment_stores; [|exact Hadd].
    apply mapAppScoresToDatabase_input.
  - intros commentId comments editedBy db' Hupd.
    eapply updateScoringComment_stores; [|exact Hupd].
    apply mapAppScoresToDatabase_input.
  - apply total_is_sum_persisted.
Qed.

(** The worked example with its total supplied: the write is stored with
    [totalScore = 35]. *)
Lemma C1_scoring_write_keeps_caller_total_witness :
  let scores := JObj (scoreInput 8 7 9 6 5 (Some 35)) in
  let stored := JObj (persistedRecord 8 7 9 6 5 35) in
  exists db1,
    addScoringComment (accepting "c1" 1000) ∅ "S1" "admin1" "Judge"
      "judge@example.org" scores JUndefined JUndefined = Ok ("c1", db1)
    /\ persistedScores db1 "S1" "c1" = stored
    /\ total_is_sum stored.
Proof.
  intros scores stored.
  destruct (addScoringComment (accepting "c1" 1000) ∅ "S1" "admin1" "Judge"
              "judge@example.org" scores JUndefined JUndefined)
    as [[commentId db1]|] eqn:Hadd; [|discriminate Hadd].
  assert (commentId = "c1") as -> by (injection Hadd; congruence).
  exists db1.
  destruct (C1_scoring_write_keeps_caller_total render_primitive
              roundPercent_int (accepting "c1" 1000) ∅ "S1" 8 7 9 6 5
              (Some 35)) as (Hadd' & _ & Hsum).
  split; [reflexivity|].
  split; [exact (Hadd' _ _ _ _ _ _ _ Hadd)|].
  apply Hsum. reflexivity.
Defined.

(** C1, as stated, fails: the input of the worked example, which carries no
    [totalScore], is persisted with [totalScore = 0] although its five
    components sum to 35. *)
Lemma C1_counterexample :
  let scores := JObj (scoreInput 8 7 9 6 5 None) in
  exists db',
    addScoringComment (accepting "c1" 1000) ∅ "S1" "admin1" "Judge"
      "judge@example.org" scores JUndefined JUndefined = Ok ("c1", db')
    /\ persistedScores db' "S1" "c1" = JObj (persistedRecord 8 7 9 6 5 0)
    /\ get (persistedScores db' "S1" "c1") "totalScore" <> JNum 35
    /\ ~ total_is_sum (persistedScores db' "S1" "c1").
Proof.
  intros scores.
  destruct (addScoringComment (accepting "c1" 1000) ∅ "S1" "admin1" "Judge"
              "judge@example.org" scores JUndefined JUndefined)
    as [[commentId db']|] eqn:Hadd; [|discriminate Hadd].
  assert (commentId = "c1") as -> by (injection Hadd; congruence).
  exists db'. split; [reflexivity|].
  assert (Hst : persistedScores db' "S1" "c1"
                = JObj (persistedRecord 8 7 9 6 5 0)).
  { eapply addScoringComment_stores; [|exact Hadd].
    apply (mapAppScoresToDatabase_input 8 7 9 6 5 None). }
  split; [exact Hst|].
  rewrite Hst. split.
  - change (JNum 0 <> JNum 35). discriminate.
  - rewrite total_is_sum_persisted. lia.
Qed.

(** *** Reading [overall] back *)

(** C10. The [overall] that [mapDatabaseScoresToApp] produces from a
    persisted score object is its [humanEffort] when that is a non-zero
    number; otherwise its stray [overall] field when that is a non-zero
    number; otherwise [0]. A stored [humanEffort] of [0] is thus overridden
    by a non-zero [overall]. *)
Theorem C10_overall_read_back (d : jsobj) :
  (forall h, d !! "humanEffort" = Some (JNum h) -> h <> 0 ->
     get (mapDatabaseScoresToApp (JObj d)) "overall" = JNum h)
  /\ (forall o,
        d !! "humanEffort" = None \/ d !! "humanEffort" = Some (JNum 0) ->
        d !! "overall" = Some (JNum o) -> o <> 0 ->
        get (mapDatabaseScoresToApp (JObj d)) "overall" = JNum o)
  /\ (d !! "humanEffort" = None \/ d !! "humanEffort" = Some (JNum 0) ->
      d !! "overall" = None \/ d !! "overall" = Some (JNum 0) ->
      get (mapDatabaseScoresToApp (JObj d)) "overall" = JNum 0).
Proof.
  assert (Hget : get (mapDatabaseScoresToApp (JObj d)) "overall"
                 = or_js (prop d "humanEffort")
                     (or_js (prop d "overall") (JNum 0))) by reflexivity.
  rewrite Hget. unfold prop.
  split; [|split].
  - intros h -> Hh. simpl. apply or_js_truthy, truthy_num, Hh.
  - intros o Hhe -> Ho. simpl.
    rewrite (or_js_truthy (JNum o)) by (apply truthy_num, Ho).
    destruct Hhe as [->| ->]; reflexivity.
  - intros [->| ->] [->| ->]; reflexivity.
Qed.

(** Three stored records, one for each case. *)
Lemma C10_overall_read_back_witness :
  get (mapDatabaseScoresToApp
         (JObj {[ "humanEffort" := JNum 5; "overall" := JNum 9 ]}))
    "overall" = JNum 5
  /\ get (mapDatabaseScoresToApp
            (JObj {[ "humanEffort" := JNum 0; "overall" := JNum 7 ]}))
       "overall" = JNum 7
  /\ get (mapDatabaseScoresToApp (JObj {[ "technical" := JNum 4 ]}))
       "overall" = JNum 0.
Proof.
  split; [|split].
  - apply (proj1 (C10_overall_read_back _) 5); [reflexivity|lia].
  - apply (proj1 (proj2 (C10_overall_read_back _)) 7);
      [right; reflexivity|reflexivity|lia].
  - apply (proj2 (proj2 (C10_overall_read_back _)));
      left; reflexivity.
Defined.

End ScoreMapping.

(** ** Reading comments through the three query tiers *)
Module CommentQueries.
Import CommentsService Vocabulary.

(** *** The client-side sort *)

Lemma sort_insert_perm (a : ShortFilmComment) (l : list ShortFilmComment) :
  sort_insert a l ≡ₚ a :: l.
Proof.
  induction l as [|b l IH]; simpl; [reflexivity|].
  destruct (compareCreatedDesc a b <=? 0); [reflexivity|].
  rewrite IH. apply Permutation_swap.
Qed.

Lemma sortComments_perm (l : list ShortFilmComment) : sortComments l ≡ₚ l.
Proof.
  induction l as [|a l IH]; simpl; [reflexivity|].
  rewrite sort_insert_perm. by rewrite IH.
Qed.

Lemma sort_insert_sorted (a : ShortFilmComment) (l : list ShortFilmComment) :
  StronglySorted later_first l -> StronglySorted later_first (sort_insert a l).
Proof.
  induction 1 as [|b l Hl IH Hb]; simpl.
  - repeat constructor.
  - unfold compareCreatedDesc.
    destruct (Z.leb_spec (createdAt b - createdAt a) 0) as [Hle|Hgt].
    + constructor; [by constructor|].
      constructor; [unfold later_first; lia|].
      eapply Forall_impl; [exact Hb|].
      unfold later_first. intros c Hc. lia.
    + constructor; [exact IH|].
      rewrite sort_insert_perm. constructor; [unfold later_first; lia|].
      exact Hb.
Qed.

Lemma sortComments_sorted (l : list ShortFilmComment) :
  StronglySorted later_first (sortComments l).
Proof.
  induction l as [|a l IH]; simpl; [constructor|].
  by apply sort_insert_sorted.
Qed.

(** The sort is stable: a list that is already latest-first is left as it
    is. *)
Lemma sortComments_sorted_id (l : list ShortFilmComment) :
  StronglySorted later_first l -> sortComments l = l.
Proof.
  induction 1 as [|a l Hl IH Ha]; simpl; [reflexivity|].
  rewrite IH. destruct l as [|b l]; [reflexivity|]. simpl.
  apply Forall_cons_1 in Ha as [Hab _]. unfold later_first in Hab.
  unfold compareCreatedDesc.
  destruct (Z.leb_spec (createdAt b - createdAt a) 0); [reflexivity|lia].
Qed.

(** *** One document *)

Lemma timestamp_of_lookup (d : DocSnap) (t : Z) :
  timestamp_of d = Some t <-> doc_data d !! "createdAt" = Some (JTimestamp t).
Proof.
  unfold timestamp_of.
  destruct (doc_data d !! "createdAt") as [[]|]; split; congruence.
Qed.

Lemma not_deleted_lookup (d : DocSnap) :
  not_deleted d = true <-> doc_data d !! "isDeleted" = Some (JBool false).
Proof.
  unfold not_deleted.
  destruct (doc_data d !! "isDeleted") as [[| |[]| | | | | | | | |]|];
    split; congruence.
Qed.

(** A document with a timestamp never has the clock read for it. *)
Lemma processDoc_clock (s : QueryKind) (sid : string) (now : Z)
    (d : DocSnap) (t : Z) :
  timestamp_of d = Some t -> processDoc s sid now d = processDoc s sid 0 d.
Proof.
  intros Ht%timestamp_of_lookup. unfold processDoc, prop.
  rewrite Ht. reflexivity.
Qed.

(** The strategy only matters for a document marked deleted. *)
Lemma processDoc_strategy (s : QueryKind) (sid : string) (now : Z)
    (d : DocSnap) :
  not_deleted d = true ->
  processDoc s sid now d = processDoc filtered sid now d.
Proof.
  intros Hd%not_deleted_lookup. unfold processDoc, prop.
  rewrite Hd. destruct s; reflexivity.
Qed.

Lemma processDoc_unfiltered_deleted (sid : string) (now : Z) (d : DocSnap) :
  doc_data d !! "isDeleted" = Some (JBool true) ->
  processDoc unfiltered sid now d = None.
Proof. intros Hd. unfold processDoc, prop. rewrite Hd. reflexivity. Qed.

Lemma processDoc_fields (s : QueryKind) (sid : string) (now : Z)
    (d : DocSnap) (c : ShortFilmComment) :
  processDoc s sid now d = Some c ->
  id c = doc_id d
  /\ isDeleted c = or_js (prop (doc_data d) "isDeleted") (JBool false)
  /\ (forall t, timestamp_of d = Some t -> createdAt c = t).
Proof.
  unfold processDoc.
  destruct (is_unfiltered s && _); [discriminate|].
  destruct (_ || _); [discriminate|].
  destruct (toDate_opt (prop (doc_data d) "createdAt")) as [created|] eqn:Hc;
    simpl; [|discriminate].
  destruct (toDate_opt (prop (doc_data d) "updatedAt")) as [updated|];
    simpl; [|discriminate].
  intros [= <-]. simpl. repeat split.
  intros t Ht%timestamp_of_lookup. unfold prop in Hc. rewrite Ht in Hc.
  simpl in Hc. injection Hc as <-. reflexivity.
Qed.

(** The unfiltered tier never hands out a comment marked deleted. *)
Lemma processDoc_unfiltered_keeps (sid : string) (now : Z) (d : DocSnap)
    (c : ShortFilmComment) :
  processDoc unfiltered sid now d = Some c -> is_true (isDeleted c) = false.
Proof.
  intros Hc. destruct (processDoc_fields _ _ _ _ _ Hc) as (_ & -> & _).
  unfold processDoc in Hc. simpl in Hc.
  destruct (is_true (prop (doc_data d) "isDeleted")) eqn:Hdel;
    [discriminate|].
  clear Hc. unfold or_js.
  destruct (truthy (prop (doc_data d) "isDeleted")); [exact Hdel|reflexivity].
Qed.

(** *** A whole snapshot *)

Lemma processDocs_omap (s : QueryKind) (sid : string) (clock : nat -> Z)
    (i : nat) (docs : list DocSnap) :
  (forall d, d ∈ docs -> is_Some (timestamp_of d)) ->
  processDocs s sid clock i docs = omap (processDoc s sid 0) docs.
Proof.
  revert i. induction docs as [|d docs IH]; intros i Hts; [reflexivity|].
  simpl. destruct (Hts d) as [t Ht]; [left|].
  rewrite (processDoc_clock s sid (clock i) d t Ht).
  rewrite IH by (intros d' Hd'; apply Hts; by right).
  reflexivity.
Qed.

Lemma omap_not_deleted (s : QueryKind) (sid : string) (docs : list DocSnap) :
  (forall d, d ∈ docs -> not_deleted d = true) ->
  omap (processDoc s sid 0) docs = omap (comment_of sid) docs.
Proof.
  intros Hnd. apply list_omap_ext, Forall_Forall2_diag, Forall_forall.
  intros d Hd. unfold comment_of. by apply processDoc_strategy, Hnd.
Qed.

Lemma omap_unfiltered (sid : string) (docs : list DocSnap) :
  (forall d, d ∈ docs ->
     exists b, doc_data d !! "isDeleted" = Some (JBool b)) ->
  omap (processDoc unfiltered sid 0) docs
  = omap (comment_of sid) (filter (fun d => not_deleted d) docs).
Proof.
  intros Hb. induction docs as [|d docs IH]; [reflexivity|].
  rewrite filter_cons. csimpl.
  rewrite IH by (intros d' Hd'; apply Hb; by right).
  destruct (Hb d) as [[|] Hd]; [left| |].
  - rewrite (processDoc_unfiltered_deleted _ _ _ Hd).
    assert (Hnd : not_deleted d = false) by (unfold not_deleted; by rewrite Hd).
    rewrite decide_False by (rewrite Hnd; auto). reflexivity.
  - apply not_deleted_lookup in Hd.
    rewrite decide_True by (rewrite Hd; exact I).
    csimpl. unfold comment_of at 2.
    by rewrite (processDoc_strategy unfiltered).
Qed.

Lemma omap_sorted (sid : string) (docs : list DocSnap) :
  (forall d, d ∈ docs -> is_Some (timestamp_of d)) ->
  StronglySorted created_desc docs ->
  StronglySorted later_first (omap (comment_of sid) docs).
Proof.
  intros Hts Hs. induction Hs as [|d docs Hs IH Hd]; csimpl; [constructor|].
  assert (IH' : StronglySorted later_first (omap (comment_of sid) docs))
    by (apply IH; intros d' Hd'; apply Hts; by right).
  destruct (comment_of sid d) as [c|] eqn:Hc; [|exact IH'].
  constructor; [exact IH'|].
  apply Forall_forall. intros c' (d' & Hd' & Hc')%list_elem_of_omap.
  rewrite Forall_forall in Hd.
  destruct (Hts d) as [t Ht]; [left|].
  destruct (Hts d') as [t' Ht']; [by right|].
  unfold later_first.
  destruct (processDoc_fields _ _ _ _ _ Hc) as (_ & _ & Hca).
  destruct (processDoc_fields _ _ _ _ _ Hc') as (_ & _ & Hca').
  rewrite (Hca t Ht), (Hca' t' Ht').
  exact (Hd d' Hd' t t' Ht Ht').
Qed.

Lemma stamped_perm (coll docs : list DocSnap) :
  stamped coll -> (forall d, d ∈ docs -> d ∈ coll) ->
  (forall d, d ∈ docs -> is_Some (timestamp_of d))
  /\ (forall d, d ∈ docs ->
        exists b, doc_data d !! "isDeleted" = Some (JBool b)).
Proof.
  intros Hst Hin.
  split; intros d Hd; destruct (Hst d (Hin d Hd)) as [Hb [t Ht]].
  - exists t. by apply timestamp_of_lookup.
  - exact Hb.
Qed.

Lemma filter_stamped (coll : list DocSnap) :
  stamped coll ->
  filter (fun d => not_deleted d && has_createdAt d) coll
  = filter (fun d => not_deleted d) coll.
Proof.
  intros Hst. induction coll as [|d coll IH]; [reflexivity|].
  rewrite !filter_cons.
  rewrite IH by (intros d' Hd'; apply Hst; by right).
  destruct (Hst d) as [_ [t Ht]]; [left|].
  assert (Hc : has_createdAt d = true) by (unfold has_createdAt; by rewrite Ht).
  rewrite Hc, andb_true_r. reflexivity.
Qed.

(** *** The three tiers *)

Lemma getComments_answer (getDocs : QueryKind -> result (list DocSnap))
    (clock : nat -> Z) (sid : string) (q : QueryKind) (r : list DocSnap) :
  sid <> EmptyString ->
  runQueries getDocs = Ok (Some (r, q)) ->
  getComments getDocs clock sid
  = Ok (onSnapshotComments q sid clock r).
Proof.
  intros Hsid Hrun. unfold getComments.
  destruct (String.eqb_spec sid ""); [contradiction|].
  rewrite Hrun. simpl. destruct r as [|d r]; [by destruct q|].
  simpl length. simpl Nat.eqb. cbv iota. reflexivity.
Qed.

Lemma runQueries_cases (getDocs : QueryKind -> result (list DocSnap)) :
  accepts getDocs ->
  exists q r, runQueries getDocs = Ok (Some (r, q)) /\ getDocs q = Ok r.
Proof.
  intros [q0 Hq0]. unfold runQueries.
  destruct (getDocs filtered) as [r|] eqn:H1; simpl.
  { exists filtered, r. auto. }
  destruct (getDocs simple) as [r|] eqn:H2; simpl.
  { exists simple, r. auto. }
  destruct (getDocs unfiltered) as [r|] eqn:H3; simpl.
  { exists unfiltered, r. auto. }
  destruct q0; [rewrite H1 in Hq0|rewrite H2 in Hq0|rewrite H3 in Hq0];
    discriminate.
Qed.

(** Whichever tier answered, the list handed out is a rearrangement of
    the comments of the documents that are not deleted, latest first. *)
Lemma tier_result (coll : list DocSnap) (q : QueryKind) (r : list DocSnap)
    (clock : nat -> Z) (sid : string) :
  stamped coll -> answers coll q r ->
  onSnapshotComments q sid clock r
    ≡ₚ omap (comment_of sid) (filter (fun d => not_deleted d) coll)
  /\ StronglySorted later_first (onSnapshotComments q sid clock r).
Proof.
  intros Hst Hans. unfold onSnapshotComments.
  destruct q; simpl in Hans.
  - destruct Hans as [Hperm Hsorted]. rewrite filter_stamped in Hperm by done.
    assert (Hin : forall d, d ∈ r -> d ∈ coll).
    { intros d Hd. rewrite Hperm in Hd.
      by apply list_elem_of_filter in Hd as [_ ?]. }
    destruct (stamped_perm coll r Hst Hin) as [Hts _].
    rewrite processDocs_omap by exact Hts.
    change (processDoc filtered sid 0) with (comment_of sid).
    split; [by rewrite Hperm|]. by apply omap_sorted.
  - assert (Hin : forall d, d ∈ r -> d ∈ coll).
    { intros d Hd. rewrite Hans in Hd.
      by apply list_elem_of_filter in Hd as [_ ?]. }
    destruct (stamped_perm coll r Hst Hin) as [Hts _].
    rewrite processDocs_omap by exact Hts.
    rewrite omap_not_deleted.
    + split; [|apply sortComments_sorted].
      by rewrite sortComments_perm, Hans.
    + intros d Hd. rewrite Hans in Hd.
      apply list_elem_of_filter in Hd as [Hd _].
      by apply Is_true_true in Hd.
  - assert (Hin : forall d, d ∈ r -> d ∈ coll)
      by (intros d Hd; by rewrite <-Hans).
    destruct (stamped_perm coll r Hst Hin) as [Hts Hb].
    rewrite processDocs_omap by exact Hts.
    rewrite omap_unfiltered by exact Hb.
    split; [|apply sortComments_sorted].
    by rewrite sortComments_perm, Hans.
Qed.

Lemma comment_of_source (coll : list DocSnap) (sid : string)
    (l : list ShortFilmComment) (c : ShortFilmComment) :
  stamped coll ->
  l ≡ₚ omap (comment_of sid) (filter (fun d => not_deleted d) coll) ->
  c ∈ l ->
  exists d t, d ∈ coll /\ not_deleted d = true /\ comment_of sid d = Some c
    /\ timestamp_of d = Some t /\ createdAt c = t
    /\ isDeleted c = JBool false.
Proof.
  intros Hst Hperm Hc. rewrite Hperm in Hc.
  apply list_elem_of_omap in Hc as (d & Hd & Hc).
  apply list_elem_of_filter in Hd as [Hnd Hd]. apply Is_true_true in Hnd.
  destruct (Hst d Hd) as [_ [t Ht]]. apply timestamp_of_lookup in Ht.
  destruct (processDoc_fields _ _ _ _ _ Hc) as (_ & Hdel & Hca).
  exists d, t. repeat split; try done.
  - by apply Hca.
  - rewrite Hdel. apply not_deleted_lookup in Hnd.
    unfold prop. by rewrite Hnd.
Qed.

(** C3 (amended). Over a collection whose documents all carry a boolean
    [isDeleted] and a [createdAt] timestamp, and in which no two documents
    that are not deleted share their [createdAt], [getComments] returns the
    same list from any two stores that hold the collection and accept at
    least one of the three queries, whichever tier answers: the comments
    of the documents that are not deleted (and carry the required fields),
    latest first, none of them marked deleted. *)
Theorem C3_tiers_agree (coll : list DocSnap)
    (getDocs1 getDocs2 : QueryKind -> result (list DocSnap))
    (clock1 clock2 : nat -> Z) (sid : string) :
  sid <> EmptyString ->
  stamped coll -> distinct_times coll ->
  store_over coll getDocs1 -> accepts getDocs1 ->
  store_over coll getDocs2 -> accepts getDocs2 ->
  exists l,
    getComments getDocs1 clock1 sid = Ok l
    /\ getComments getDocs2 clock2 sid = Ok l
    /\ l ≡ₚ omap (comment_of sid) (filter (fun d => not_deleted d) coll)
    /\ StronglySorted later_first l
    /\ (forall c, c ∈ l -> isDeleted c = JBool false).
Proof.
  intros Hsid Hst Hdist Hs1 Ha1 Hs2 Ha2.
  destruct (runQueries_cases getDocs1 Ha1) as (q1 & r1 & Hrun1 & Hq1).
  destruct (runQueries_cases getDocs2 Ha2) as (q2 & r2 & Hrun2 & Hq2).
  rewrite (getComments_answer _ clock1 _ _ _ Hsid Hrun1).
  rewrite (getComments_answer _ clock2 _ _ _ Hsid Hrun2).
  destruct (tier_result coll q1 r1 clock1 sid Hst (Hs1 _ _ Hq1))
    as [Hp1 Hsorted1].
  destruct (tier_result coll q2 r2 clock2 sid Hst (Hs2 _ _ Hq2))
    as [Hp2 Hsorted2].
  exists (onSnapshotComments q1 sid clock1 r1).
  split; [reflexivity|]. split; [|split; [exact Hp1|split; [exact Hsorted1|]]].
  - f_equal. symmetry.
    apply (StronglySorted_unique_strong later_first); try done.
    + intros c1 c2 Hc1 Hc2 H12 H21.
      destruct (comment_of_source coll sid _ c1 Hst Hp1 Hc1)
        as (d1 & t1 & Hd1 & Hnd1 & Hcd1 & Ht1 & Hca1 & _).
      destruct (comment_of_source coll sid _ c2 Hst Hp2 Hc2)
        as (d2 & t2 & Hd2 & Hnd2 & Hcd2 & Ht2 & Hca2 & _).
      unfold later_first in H12, H21.
      assert (d1 = d2).
      { apply Hdist; try done. rewrite Ht1, Ht2. f_equal. lia. }
      subst d2. congruence.
    + by rewrite Hp1, Hp2.
  - intros c Hc.
    by destruct (comment_of_source coll sid _ c Hst Hp1 Hc)
      as (_ & _ & _ & _ & _ & _ & _ & ?).
Qed.

Ltac elem_cases H :=
  repeat (apply elem_of_cons in H as [->|H]); [..|by apply elem_of_nil in H].

Lemma exampleColl_stamped : stamped exampleColl.
Proof.
  intros d Hd. unfold exampleColl in Hd. elem_cases Hd;
    (split; eexists; reflexivity).
Qed.

Lemma exampleColl_distinct : distinct_times exampleColl.
Proof.
  intros d1 d2 H1 H2. unfold exampleColl in H1, H2.
  elem_cases H1; elem_cases H2; intros Hn1 Hn2 Ht;
    first [reflexivity | discriminate Hn1 | discriminate Hn2
          | discriminate Ht].
Qed.

(** The store that accepts the composite query and the store that only
    accepts unfiltered fetches, both holding the three comments of the
    worked example, yield the same two comments, latest first. *)
Lemma C3_tiers_agree_witness :
  let composite :=
    storeWith (Some [generalComment "c3" "third" 3000 (Some false);
                     generalComment "c1" "first" 1000 (Some false)])
      None None in
  let weakest := storeWith None None (Some exampleColl) in
  exists l,
    getComments composite (fun _ => 0) "S1" = Ok l
    /\ getComments weakest (fun _ => 0) "S1" = Ok l
    /\ id <$> l = ["c3"; "c1"].
Proof.
  intros composite weakest.
  destruct (C3_tiers_agree exampleColl composite weakest
              (fun _ => 0) (fun _ => 0) "S1") as (l & H1 & H2 & _).
  - discriminate.
  - exact exampleColl_stamped.
  - exact exampleColl_distinct.
  - intros q r Hq. destruct q; try discriminate Hq.
    injection Hq as <-. split.
    + vm_compute. apply Permutation_swap.
    + repeat constructor. intros t1 t2 Ht1 Ht2.
      vm_compute in Ht1, Ht2. injection Ht1 as <-. injection Ht2 as <-. lia.
  - exists filtered. reflexivity.
  - intros q r Hq. destruct q; try discriminate Hq.
    injection Hq as <-. unfold answers. reflexivity.
  - exists unfiltered. reflexivity.
  - exists l. split; [exact H1|]. split; [exact H2|].
    assert (Hl : getComments weakest (fun _ => 0) "S1"
                 = Ok (onSnapshotComments unfiltered "S1" (fun _ => 0)
                         exampleColl)) by reflexivity.
    rewrite Hl in H2. injection H2 as <-. reflexivity.
Defined.

(** C3, as stated, fails. Two comments carry the same [createdAt]; the
    store that accepts the composite query returns them in one order
    (descending order says nothing about ties, and Firestore breaks them
    by descending document name), the store that rejects it returns them
    in document order and the stable client-side sort leaves them there.
    Both stores hold the same collection, yet the caller sees two
    different lists. *)
Lemma C3_counterexample :
  let a := generalComment "a" "one" 1000 (Some false) in
  let b := generalComment "b" "two" 1000 (Some false) in
  let composite := storeWith (Some [b; a]) (Some [a; b]) (Some [a; b]) in
  let simpleOnly := storeWith None (Some [a; b]) (Some [a; b]) in
  store_over tiedColl composite
  /\ store_over tiedColl simpleOnly
  /\ is_ok (composite filtered) = true
  /\ is_ok (simpleOnly filtered) = false
  /\ is_ok (simpleOnly simple) = true
  /\ ids (getComments composite (fun _ => 0) "S1") = ["b"; "a"]
  /\ ids (getComments simpleOnly (fun _ => 0) "S1") = ["a"; "b"]
  /\ getComments composite (fun _ => 0) "S1"
     <> getComments simpleOnly (fun _ => 0) "S1".
Proof.
  intros a b composite simpleOnly.
  assert (Hsorted : StronglySorted created_desc [b; a]).
  { repeat constructor. intros t1 t2 Ht1 Ht2.
    vm_compute in Ht1, Ht2. injection Ht1 as <-. injection Ht2 as <-. lia. }
  split; [|split].
  - intros q r Hq. destruct q; injection Hq as <-; unfold answers.
    + split; [|exact Hsorted]. vm_compute. apply Permutation_swap.
    + vm_compute. reflexivity.
    + reflexivity.
  - intros q r Hq.
    destruct q; try discriminate Hq; injection Hq as <-; unfold answers.
    + vm_compute. reflexivity.
    + reflexivity.
  - repeat (split; [reflexivity|]).
    intros Heq. apply (f_equal ids) in Heq. vm_compute in Heq.
    discriminate Heq.
Qed.

(** A second way in which the tiers differ: a comment without an
    [isDeleted] field is matched by neither filter query, but the
    unfiltered tier only drops documents whose [isDeleted] is [true]. *)
Lemma tiers_differ_on_unmarked_comment :
  let filterOnly := storeWith None (Some []) None in
  let weakest := storeWith None None (Some unmarkedColl) in
  store_over unmarkedColl filterOnly
  /\ store_over unmarkedColl weakest
  /\ ids (getComments filterOnly (fun _ => 0) "S1") = []
  /\ ids (getComments weakest (fun _ => 0) "S1") = ["u"].
Proof.
  intros filterOnly weakest. split; [|split].
  - intros q r Hq.
    destruct q; try discriminate Hq; injection Hq as <-; unfold answers.
    vm_compute. reflexivity.
  - intros q r Hq.
    destruct q; try discriminate Hq; injection Hq as <-; unfold answers.
    reflexivity.
  - split; reflexivity.
Qed.

(** A third one: a comment without [createdAt] is left out by the ordered
    query, while the other tiers hand it out, dated by the client's
    clock. *)
Lemma tiers_differ_on_undated_comment :
  let composite := storeWith (Some []) None None in
  let simpleOnly := storeWith None (Some undatedColl) None in
  store_over undatedColl composite
  /\ store_over undatedColl simpleOnly
  /\ ids (getComments composite (fun _ => 7000) "S1") = []
  /\ ids (getComments simpleOnly (fun _ => 7000) "S1") = ["n"]
  /\ createdAt <$> match getComments simpleOnly (fun _ => 7000) "S1" with
                   | Ok l => l
                   | Throw _ => []
                   end = [7000].
Proof.
  intros composite simpleOnly. split; [|split].
  - intros q r Hq.
    destruct q; try discriminate Hq; injection Hq as <-; unfold answers.
    split; [vm_compute; reflexivity|constructor].
  - intros q r Hq.
    destruct q; try discriminate Hq; injection Hq as <-; unfold answers.
    vm_compute. reflexivity.
  - repeat split; reflexivity.
Qed.

(** *** Total failure *)

(** [getComments] has no way to throw. *)
Lemma getComments_never_throws
    (getDocs : QueryKind -> result (list DocSnap)) (clock : nat -> Z)
    (sid : string) :
  is_ok (getComments getDocs clock sid) = true.
Proof.
  unfold getComments. destruct (String.eqb sid ""); [reflexivity|].
  destruct (runQueries getDocs) as [[[docs q]|]|]; simpl; try reflexivity.
  destruct (length docs =? 0)%nat; reflexivity.
Qed.

(** C4. When the store rejects all three queries (filtered and ordered,
    filter only, unfiltered), [getComments] returns the empty list; it does
    not throw. *)
Theorem C4_all_tiers_fail_gives_empty
    (getDocs : QueryKind -> result (list DocSnap)) (clock : nat -> Z)
    (sid : string) :
  (forall q, is_ok (getDocs q) = false) ->
  getComments getDocs clock sid = Ok [].
Proof.
  intros Hfail. unfold getComments.
  destruct (String.eqb sid ""); [reflexivity|].
  unfold runQueries.
  pose proof (Hfail filtered) as H1. pose proof (Hfail simple) as H2.
  pose proof (Hfail unfiltered) as H3.
  destruct (getDocs filtered); [discriminate H1|].
  destruct (getDocs simple); [discriminate H2|].
  destruct (getDocs unfiltered); [discriminate H3|].
  reflexivity.
Qed.

Lemma C4_all_tiers_fail_gives_empty_witness :
  (forall q, is_ok (storeWith None None None q) = false)
  /\ getComments (storeWith None None None) (fun _ => 0) "S1" = Ok [].
Proof.
  assert (H : forall q, is_ok (storeWith None None None q) = false)
    by (intros []; reflexivity).
  split; [exact H|].
  exact (C4_all_tiers_fail_gives_empty _ (fun _ => 0) "S1" H).
Defined.

(** The earlier service file has a single query and no fallback tier: its
    [getComments] rethrows when the store rejects that query. *)
Lemma V1_getComments_rethrows
    (getDocs : QueryKind -> result (list DocSnap)) (clock : nat -> Z)
    (sid : string) :
  is_ok (getDocs filtered) = false ->
  CommentsServiceV1.getComments getDocs clock sid
  = Throw "Failed to fetch comments".
Proof.
  intros H. unfold CommentsServiceV1.getComments.
  destruct (getDocs filtered); [discriminate H|reflexivity].
Qed.

End CommentQueries.

(** ** The edit history of a scoring comment *)
Module EditHistory.
Import CommentsService Vocabulary.

Section WithRuntime.
Variable render : jsval -> string.
Variable roundPercent : jsval -> jsval.

Abbreviation update := (updateScoringComment render roundPercent).
Abbreviation run := (updateScoringComments render roundPercent).

Lemma resolve_plain (time : Z) (l : list jsval) :
  map (resolve time) (map PVal l) = l.
Proof. induction l as [|v l IH]; simpl; [done|by rewrite IH]. Qed.

(** What a call sets out to write: the stored history followed by one
    entry that records the content and the scores the document has, and
    the editor. *)
Lemma attempted_history (time : Z) (currentData : jsobj)
    (scores dbScores : jsval) (content : string) (editHistory : list jsval)
    (editedBy : string) :
  let entry := resolve time (historyEntry currentData editedBy) in
  prop (resolveFields time
          (scoringUpdate roundPercent currentData scores dbScores content
             editHistory editedBy)) "editHistory"
  = JArr (editHistory ++ [entry])
  /\ get entry "previousContent" = prop currentData "content"
  /\ get entry "previousScores" = prop currentData "scores"
  /\ get entry "editedBy" = JStr editedBy
  /\ get entry "editedAt" = JTimestamp time.
Proof.
  split; [|repeat split; reflexivity].
  unfold resolveFields, scoringUpdate, literal, prop. cbn [map fold_left fst snd].
  rewrite lookup_insert_ne, lookup_insert_eq by discriminate.
  cbn [resolve default]. by rewrite map_app, resolve_plain.
Qed.

(** C6: what the code does. Every call of [updateScoringComment] throws
    [Failed to update scoring comment], whatever the store holds and
    whether or not it would accept the write: the entry built for
    [editHistory] carries [serverTimestamp()] inside an array, and
    [updateDoc] refuses such data before it is sent. So no number of
    calls ever succeeds, and no entry is ever appended. *)
Theorem C6_rescoring_never_succeeds (r : Reply) (db : CommentDb)
    (sid cid : string) (scores : jsval) (comments editedBy : string) :
  update r db sid cid scores comments editedBy
  = Throw "Failed to update scoring comment"
  /\ forall e edits,
       run db sid cid (e :: edits) = Throw "Failed to update scoring comment".
Proof.
  split; [apply ScoreMapping.rescoring_is_refused|].
  intros e edits. simpl.
  by rewrite ScoreMapping.rescoring_is_refused.
Qed.

(** [updateComment] and [deleteComment] write other fields only: the
    history is left as it is. *)
Lemma other_writes_keep_history (r : Reply) (db db' : CommentDb)
    (sid cid : string) :
  (forall content metadata,
     updateComment r db sid cid content metadata = Ok db' ->
     fieldOf db' sid cid "editHistory" = fieldOf db sid cid "editHistory")
  /\ (deleteComment r db sid cid = Ok db' ->
      fieldOf db' sid cid "editHistory" = fieldOf db sid cid "editHistory").
Proof.
  split; [intros content metadata|];
    unfold updateComment, deleteComment, Store.updateDoc;
    (destruct (write_ok r); simpl; [|discriminate]);
    (destruct (db !! (sid, cid)) as [old|] eqn:Hdoc; simpl; [|discriminate]);
    intros [= <-]; unfold fieldOf, prop;
    rewrite lookup_insert_eq, Hdoc;
    (rewrite lookup_union_r; [reflexivity|]); reflexivity.
Qed.
End WithRuntime.

(** The first edit of the worked example: the scoring comment exists, the
    store accepts every read and write, and the call throws; so do the two
    edits in a row. *)
Lemma C6_rescoring_never_succeeds_witness :
  is_Some (exampleScoringDb !! ("S1", "c1"))
  /\ updateScoringComment render_primitive roundPercent_int
       (accepting "" 2000) exampleScoringDb "S1" "c1"
       (JObj (scoreInput 9 7 9 6 5 (Some 36))) "better" "admin1"
     = Throw "Failed to update scoring comment"
  /\ updateScoringComments render_primitive roundPercent_int
       exampleScoringDb "S1" "c1" exampleEdits
     = Throw "Failed to update scoring comment".
Proof.
  split; [by eexists|].
  split.
  - apply (C6_rescoring_never_succeeds render_primitive roundPercent_int).
  - apply (C6_rescoring_never_succeeds render_primitive roundPercent_int
             (accepting "" 2000) exampleScoringDb "S1" "c1" JUndefined "" "").
Defined.

End EditHistory.

(** ** Film writes and the guest subcollection *)
Module FilmWrites.
Import FeatureFilmService FilmVocabulary.

Lemma guests_of_insert (fs : gmap string jsobj)
    (gs : gmap string (list jsval)) (cs : list Call) (filmId : string)
    (l : list jsval) :
  guests_of {| films := fs; guests := <[filmId := l]> gs; calls := cs |}
    filmId = l.
Proof. unfold guests_of. simpl. by rewrite lookup_insert_eq. Qed.

(** *** The two guest blocks never throw and never touch the films *)

Lemma createGuests_run (e : Env) (filmId : string) (crew : list jsval)
    (w : World) :
  exists w',
    createGuests e filmId crew w = (Ok tt, w')
    /\ films w' = films w
    /\ (crew = [] -> w' = w).
Proof.
  destruct (createGuests e filmId crew w) as [r w'] eqn:Hrun. exists w'.
  unfold createGuests in Hrun. destruct crew as [|m crew].
  - injection Hrun as <- <-. by repeat split.
  - unfold catch, createMultipleGuests, bind, record, ret in Hrun.
    destruct (create_guests e); simpl in Hrun; injection Hrun as <- <-;
      repeat split; done.
Qed.

Lemma resyncGuests_run (e : Env) (filmId : string) (crew : list jsval)
    (w : World) :
  exists w',
    resyncGuests e filmId crew w = (Ok tt, w')
    /\ films w' = films w
    /\ (delete_guests e = Completes -> create_guests e = Completes ->
        guests_of w' filmId = crew).
Proof.
  destruct (resyncGuests e filmId crew w) as [r w'] eqn:Hrun. exists w'.
  unfold resyncGuests, catch, deleteAllGuests, createMultipleGuests, bind,
    record, ret in Hrun.
  destruct (delete_guests e) eqn:Hd; simpl in Hrun.
  - destruct crew as [|m crew]; simpl in Hrun.
    + injection Hrun as <- <-. split; [reflexivity|]. split; [reflexivity|].
      intros _ _. unfold guests_of. simpl. by rewrite lookup_delete_eq.
    + destruct (create_guests e) eqn:Hc; simpl in Hrun;
        injection Hrun as <- <-;
        (split; [reflexivity|]); (split; [reflexivity|]); intros _ Hc';
        [|discriminate Hc'].
      rewrite guests_of_insert. unfold guests_of. simpl.
      by rewrite lookup_delete_eq.
  - injection Hrun as <- <-. split; [reflexivity|]. split; [reflexivity|].
    intros Hd'. discriminate Hd'.
Qed.

(** *** The calls, step by step *)

Lemma updateFeatureFilm_run (e : Env) (filmId : string) (filmData : jsobj)
    (userId : jsval) (w : World) :
  updateFeatureFilm e filmId filmData userId w
  = match updateDoc (primary e) filmId
            (updateFields e filmId filmData userId) w with
    | (Throw msg, w1) => (Ok (failure msg), w1)
    | (Ok _, w1) =>
        match extractCrewMembersFromFilmData filmData with
        | Throw msg => (Ok (failure msg), w1)
        | Ok crew =>
            match resyncGuests e filmId crew w1 with
            | (Throw msg, w2) => (Ok (failure msg), w2)
            | (Ok _, w2) =>
                match getDoc (readback e) filmId w2 with
                | (Throw msg, w3) => (Ok (failure msg), w3)
                | (Ok doc, w3) =>
                    (Ok (readBackResult filmId
                           "Film not found in films collection after update"
                           doc), w3)
                end
            end
        end
    end.
Proof.
  unfold updateFeatureFilm, updateFields, catch, bind, lift, ret.
  destruct (updateDoc _ _ _ w) as [[[]|msg] w1]; [|reflexivity].
  destruct (extractCrewMembersFromFilmData filmData) as [crew|msg];
    [|reflexivity].
  destruct (resyncGuests e filmId crew w1) as [[[]|msg] w2]; [|reflexivity].
  destruct (getDoc (readback e) filmId w2) as [[[d|]|msg] w3]; reflexivity.
Qed.

Lemma createFeatureFilm_run (e : Env) (filmData : jsobj) (userId : string)
    (w : World) :
  createFeatureFilm e filmData userId w
  = match addDoc (primary e) (createdFields e filmData userId) w with
    | (Throw msg, w1) => (Ok (failure msg), w1)
    | (Ok filmId, w1) =>
        match writeUrls e filmId filmData userId w1 with
        | (Throw msg, w2) => (Ok (failure msg), w2)
        | (Ok _, w2) =>
            match extractCrewMembersFromFilmData filmData with
            | Throw msg => (Ok (failure msg), w2)
            | Ok crew =>
                match createGuests e filmId crew w2 with
                | (Throw msg, w3) => (Ok (failure msg), w3)
                | (Ok _, w3) =>
                    match getDoc (readback e) filmId w3 with
                    | (Throw msg, w4) => (Ok (failure msg), w4)
                    | (Ok doc, w4) =>
                        (Ok (readBackResult filmId
                               "Film created but could not retrieve data"
                               doc), w4)
                    end
                end
            end
        end
    end.
Proof.
  unfold createFeatureFilm, createdFields, writeUrls, catch, bind, lift, ret.
  destruct (addDoc _ _ w) as [[filmId|msg] w1]; [|reflexivity].
  destruct (hasFiles filmData); cbv beta iota zeta.
  - destruct (size _ =? 0)%nat; cbv beta iota zeta.
    + destruct (extractCrewMembersFromFilmData filmData) as [crew|msg];
        [|reflexivity].
      destruct (createGuests e filmId crew w1) as [[[]|msg] w3];
        [|reflexivity].
      destruct (getDoc (readback e) filmId w3) as [[[d|]|msg] w4];
        reflexivity.
    + destruct (updateDoc _ _ _ w1) as [[[]|msg] w2]; [|reflexivity].
      destruct (extractCrewMembersFromFilmData filmData) as [crew|msg];
        [|reflexivity].
      destruct (createGuests e filmId crew w2) as [[[]|msg] w3];
        [|reflexivity].
      destruct (getDoc (readback e) filmId w3) as [[[d|]|msg] w4];
        reflexivity.
  - destruct (extractCrewMembersFromFilmData filmData) as [crew|msg];
      [|reflexivity].
    destruct (createGuests e filmId crew w1) as [[[]|msg] w3];
      [|reflexivity].
    destruct (getDoc (readback e) filmId w3) as [[[d|]|msg] w4];
      reflexivity.
Qed.

Lemma getDoc_run (r : Reply) (filmId : string) (w : World) :
  getDoc r filmId w
  = (Store.getDoc r (films w) filmId,
     {| films := films w; guests := guests w;
        calls := calls w ++ [CallGetDoc filmId] |}).
Proof. reflexivity. Qed.

Lemma updateDoc_run (r : Reply) (filmId : string) (fields : jsobj)
    (w : World) :
  updateDoc r filmId fields w
  = match Store.updateDoc r (films w) filmId fields with
    | Ok fs => (Ok tt, {| films := fs; guests := guests w;
                          calls := calls w ++ [CallUpdateDoc filmId] |})
    | Throw msg => (Throw msg,
                    {| films := films w; guests := guests w;
                       calls := calls w ++ [CallUpdateDoc filmId] |})
    end.
Proof.
  unfold updateDoc, bind, record. simpl.
  destruct (Store.updateDoc r (films w) filmId fields); reflexivity.
Qed.

Lemma addDoc_run (r : Reply) (doc : jsobj) (w : World) :
  addDoc r doc w
  = if write_ok r
    then (Ok (auto_id r),
          {| films := <[auto_id r := doc]> (films w); guests := guests w;
             calls := calls w ++ [CallAddDoc (auto_id r)] |})
    else (Throw "store: write rejected",
          {| films := films w; guests := guests w;
             calls := calls w ++ [CallAddDoc (auto_id r)] |}).
Proof.
  unfold addDoc, bind, record, Store.addDoc. simpl.
  destruct (write_ok r); reflexivity.
Qed.

(** *** The guest subcollection after an update *)

(** C5 (amended). After an [updateFeatureFilm] call that reports success
    and during which neither [deleteAllGuests] nor [createMultipleGuests]
    threw, the guest subcollection of the film holds exactly the crew list
    derived from the call's input, nothing of what was there before; in
    particular an input that derives an empty crew list leaves the
    subcollection empty. *)
Theorem C5_guests_follow_update (e : Env) (filmId : string)
    (filmData : jsobj) (userId : jsval) (w w' : World)
    (res : FeatureFilmServiceResult) :
  updateFeatureFilm e filmId filmData userId w = (Ok res, w') ->
  success res = true ->
  delete_guests e = Completes -> create_guests e = Completes ->
  exists crew,
    extractCrewMembersFromFilmData filmData = Ok crew
    /\ guests_of w' filmId = crew
    /\ (crew = [] -> guests_of w' filmId = []).
Proof.
  intros Hrun Hok Hd Hc. rewrite updateFeatureFilm_run in Hrun.
  destruct (updateDoc _ _ _ w) as [[[]|msg] w1];
    [|injection Hrun as <- <-; discriminate Hok].
  destruct (extractCrewMembersFromFilmData filmData) as [crew|msg];
    [|injection Hrun as <- <-; discriminate Hok].
  destruct (resyncGuests_run e filmId crew w1) as (w2 & Hsync & _ & Hguests).
  rewrite Hsync, getDoc_run in Hrun.
  destruct (Store.getDoc _ _ _) as [doc|msg];
    injection Hrun as <- <-; [|discriminate Hok].
  exists crew. split; [reflexivity|].
  assert (Hg : guests_of
                 {| films := films w2; guests := guests w2;
                    calls := calls w2 ++ [CallGetDoc filmId] |} filmId
               = crew) by (apply Hguests; assumption).
  split; [exact Hg|]. intros Hnil. by rewrite Hg.
Qed.

(** Film [f1] has three guests; an update naming a director replaces them
    by that director, an update naming nobody empties the subcollection. *)
Lemma C5_guests_follow_update_witness :
  let e := friendlyEnv "f1" Completes Completes in
  (exists res w',
     updateFeatureFilm e "f1" directorUpdate JUndefined filmWorld
       = (Ok res, w')
     /\ success res = true
     /\ guests_of w' "f1" = [basicCrewMember "Dee" "Director"])
  /\ (exists res w',
        updateFeatureFilm e "f1" bareUpdate JUndefined filmWorld
          = (Ok res, w')
        /\ success res = true
        /\ guests_of w' "f1" = []).
Proof.
  intros e. split.
  - destruct (updateFeatureFilm e "f1" directorUpdate JUndefined filmWorld)
      as [[res|msg] w'] eqn:Hrun; [|vm_compute in Hrun; discriminate Hrun].
    assert (Hok : success res = true).
    { apply (f_equal fst) in Hrun. vm_compute in Hrun.
      by injection Hrun as <-. }
    destruct (C5_guests_follow_update e "f1" directorUpdate JUndefined
                filmWorld w' res Hrun Hok eq_refl eq_refl)
      as (crew & Hcrew & Hguests & _).
    exists res, w'. split; [reflexivity|]. split; [exact Hok|].
    rewrite Hguests. vm_compute in Hcrew. injection Hcrew as <-.
    vm_compute. reflexivity.
  - destruct (updateFeatureFilm e "f1" bareUpdate JUndefined filmWorld)
      as [[res|msg] w'] eqn:Hrun; [|vm_compute in Hrun; discriminate Hrun].
    assert (Hok : success res = true).
    { apply (f_equal fst) in Hrun. vm_compute in Hrun.
      by injection Hrun as <-. }
    destruct (C5_guests_follow_update e "f1" bareUpdate JUndefined
                filmWorld w' res Hrun Hok eq_refl eq_refl)
      as (crew & Hcrew & _ & Hnil).
    exists res, w'. split; [reflexivity|]. split; [exact Hok|].
    apply Hnil. vm_compute in Hcrew. by injection Hcrew as <-.
Defined.

(** C5, as stated, fails. Film [f1] has three guests and the update names
    nobody, so the derived crew list is empty; [deleteAllGuests] throws
    before removing anything. The call still reports success, and the three
    old guests are still in the subcollection. *)
Lemma C5_counterexample :
  let e := friendlyEnv "f1" (ThrowsAfter 0) Completes in
  let run := updateFeatureFilm e "f1" bareUpdate JUndefined filmWorld in
  (exists res, fst run = Ok res /\ success res = true)
  /\ extractCrewMembersFromFilmData bareUpdate = Ok []
  /\ guests_of (snd run) "f1" = threeGuests
  /\ guests_of (snd run) "f1" <> [].
Proof.
  intros e run.
  assert (Hg : guests_of (snd run) "f1" = threeGuests) by reflexivity.
  split; [eexists; split; reflexivity|].
  split; [reflexivity|]. split; [exact Hg|].
  rewrite Hg. discriminate.
Qed.

(** *** Guest failures against primary failures *)

Lemma guest_calls_snoc (w : World) (fs : gmap string jsobj) (c : Call) :
  is_guest_call c = false ->
  guest_calls {| films := fs; guests := guests w; calls := calls w ++ [c] |}
  = guest_calls w.
Proof.
  intros Hc. unfold guest_calls. simpl. rewrite filter_app, filter_cons.
  rewrite decide_False by (rewrite Hc; auto).
  rewrite filter_nil. apply app_nil_r.
Qed.

Lemma update_result_independent (e : Env) (d c : GuestOutcome)
    (filmId : string) (filmData : jsobj) (userId : jsval) (w : World) :
  resultOf (updateFeatureFilm (with_guest_outcomes e d c) filmId filmData
              userId) w
  = resultOf (updateFeatureFilm e filmId filmData userId) w.
Proof.
  unfold resultOf. rewrite !updateFeatureFilm_run.
  change (updateFields (with_guest_outcomes e d c) filmId filmData userId)
    with (updateFields e filmId filmData userId).
  change (primary (with_guest_outcomes e d c)) with (primary e).
  change (readback (with_guest_outcomes e d c)) with (readback e).
  destruct (updateDoc _ _ _ w) as [[[]|msg] w1]; [|reflexivity].
  destruct (extractCrewMembersFromFilmData filmData) as [crew|msg];
    [|reflexivity].
  destruct (resyncGuests_run (with_guest_outcomes e d c) filmId crew w1)
    as (w2 & -> & Hf2 & _).
  destruct (resyncGuests_run e filmId crew w1) as (w2' & -> & Hf2' & _).
  rewrite !getDoc_run, Hf2, Hf2'.
  destruct (Store.getDoc _ _ _); reflexivity.
Qed.

Lemma create_result_independent (e : Env) (d c : GuestOutcome)
    (filmData : jsobj) (userId : string) (w : World) :
  resultOf (createFeatureFilm (with_guest_outcomes e d c) filmData userId) w
  = resultOf (createFeatureFilm e filmData userId) w.
Proof.
  unfold resultOf. rewrite !createFeatureFilm_run.
  change (createdFields (with_guest_outcomes e d c) filmData userId)
    with (createdFields e filmData userId).
  change (primary (with_guest_outcomes e d c)) with (primary e).
  change (readback (with_guest_outcomes e d c)) with (readback e).
  destruct (addDoc _ _ w) as [[filmId|msg] w1]; [|reflexivity].
  change (writeUrls (with_guest_outcomes e d c) filmId filmData userId)
    with (writeUrls e filmId filmData userId).
  destruct (writeUrls e filmId filmData userId w1) as [[[]|msg] w2];
    [|reflexivity].
  destruct (extractCrewMembersFromFilmData filmData) as [crew|msg];
    [|reflexivity].
  destruct (createGuests_run (with_guest_outcomes e d c) filmId crew w2)
    as (w3 & -> & Hf3 & _).
  destruct (createGuests_run e filmId crew w2) as (w3' & -> & Hf3' & _).
  rewrite !getDoc_run, Hf3, Hf3'.
  destruct (Store.getDoc _ _ _); reflexivity.
Qed.

Lemma update_succeeds (e : Env) (filmId : string) (filmData : jsobj)
    (userId : jsval) (w : World) :
  write_ok (primary e) = true -> is_Some (films w !! filmId) ->
  is_ok (extractCrewMembersFromFilmData filmData) = true ->
  read_ok (readback e) = true ->
  exists res,
    resultOf (updateFeatureFilm e filmId filmData userId) w = Ok res
    /\ success res = true.
Proof.
  intros Hw [old Hold] Hx Hr. unfold resultOf.
  rewrite updateFeatureFilm_run, updateDoc_run.
  unfold Store.updateDoc. rewrite Hw, Hold.
  destruct (extractCrewMembersFromFilmData filmData) as [crew|msg];
    [|discriminate Hx].
  destruct (resyncGuests_run e filmId crew
              {| films := <[filmId := updateFields e filmId filmData userId
                                        ∪ old]> (films w);
                 guests := guests w;
                 calls := calls w ++ [CallUpdateDoc filmId] |})
    as (w2 & -> & Hf2 & _).
  rewrite getDoc_run, Hf2. unfold Store.getDoc. rewrite Hr. simpl.
  rewrite lookup_insert_eq. simpl. eexists. split; reflexivity.
Qed.

Lemma create_succeeds (e : Env) (filmData : jsobj) (userId : string)
    (w : World) :
  write_ok (primary e) = true ->
  hasFiles filmData = false \/ write_ok (urls e) = true ->
  is_ok (extractCrewMembersFromFilmData filmData) = true ->
  read_ok (readback e) = true ->
  exists res,
    resultOf (createFeatureFilm e filmData userId) w = Ok res
    /\ success res = true.
Proof.
  intros Hw Hu Hx Hr. unfold resultOf.
  rewrite createFeatureFilm_run, addDoc_run, Hw.
  set (filmId := auto_id (primary e)).
  set (w1 := {| films := _; guests := guests w; calls := _ |}).
  assert (Hurls : exists w2 doc,
             writeUrls e filmId filmData userId w1 = (Ok tt, w2)
             /\ films w2 !! filmId = Some doc).
  { unfold writeUrls. destruct (hasFiles filmData) eqn:Hfiles.
    - destruct Hu as [Hu|Hu]; [discriminate Hu|].
      destruct (size _ =? 0)%nat.
      + eexists _, _. split; [reflexivity|]. apply lookup_insert_eq.
      + rewrite updateDoc_run. unfold Store.updateDoc. rewrite Hu.
        subst w1. simpl. rewrite lookup_insert_eq.
        eexists _, _. split; [reflexivity|]. simpl. apply lookup_insert_eq.
    - eexists _, _. split; [reflexivity|]. apply lookup_insert_eq. }
  destruct Hurls as (w2 & doc & -> & Hdoc).
  destruct (extractCrewMembersFromFilmData filmData) as [crew|msg];
    [|discriminate Hx].
  destruct (createGuests_run e filmId crew w2) as (w3 & -> & Hf3 & _).
  rewrite getDoc_run, Hf3. unfold Store.getDoc. rewrite Hr, Hdoc. simpl.
  eexists. split; reflexivity.
Qed.

Lemma update_primary_failure (e : Env) (filmId : string) (filmData : jsobj)
    (userId : jsval) (w : World) :
  write_ok (primary e) = false \/ films w !! filmId = None ->
  exists msg,
    resultOf (updateFeatureFilm e filmId filmData userId) w
      = Ok (failure msg)
    /\ guest_calls (worldAfter (updateFeatureFilm e filmId filmData userId) w)
       = guest_calls w
    /\ guests (worldAfter (updateFeatureFilm e filmId filmData userId) w)
       = guests w.
Proof.
  intros Hfail. unfold resultOf, worldAfter.
  rewrite updateFeatureFilm_run, updateDoc_run. unfold Store.updateDoc.
  destruct (write_ok (primary e)) eqn:Hw.
  - destruct Hfail as [Hfail|Hfail]; [discriminate Hfail|].
    rewrite Hfail. eexists. split; [reflexivity|]. simpl.
    split; [by apply guest_calls_snoc|reflexivity].
  - eexists. split; [reflexivity|]. simpl.
    split; [by apply guest_calls_snoc|reflexivity].
Qed.

Lemma create_primary_failure (e : Env) (filmData : jsobj) (userId : string)
    (w : World) :
  write_ok (primary e) = false ->
  exists msg,
    resultOf (createFeatureFilm e filmData userId) w = Ok (failure msg)
    /\ guest_calls (worldAfter (createFeatureFilm e filmData userId) w)
       = guest_calls w
    /\ guests (worldAfter (createFeatureFilm e filmData userId) w)
       = guests w.
Proof.
  intros Hw. unfold resultOf, worldAfter.
  rewrite createFeatureFilm_run, addDoc_run, Hw.
  eexists. split; [reflexivity|]. simpl.
  split; [by apply guest_calls_snoc|reflexivity].
Qed.

(** C9. In [createFeatureFilm] and [updateFeatureFilm] the result of the
    call does not depend on how the guest-service calls end: once the
    primary write is accepted (and the data read back), the call returns
    [success: true] whether [deleteAllGuests] or [createMultipleGuests]
    threw or not. When the primary write itself fails the call returns
    [success: false] with an error, makes no guest-service call and leaves
    the subcollections as they were. *)
Theorem C9_guest_failures_are_swallowed (e : Env) (d c : GuestOutcome)
    (filmData : jsobj) (w : World) :
  let e' := with_guest_outcomes e d c in
  (forall userId,
     resultOf (createFeatureFilm e' filmData userId) w
       = resultOf (createFeatureFilm e filmData userId) w
     /\ (write_ok (primary e) = true ->
         hasFiles filmData = false \/ write_ok (urls e) = true ->
         is_ok (extractCrewMembersFromFilmData filmData) = true ->
         read_ok (readback e) = true ->
         exists res,
           resultOf (createFeatureFilm e' filmData userId) w = Ok res
           /\ success res = true)
     /\ (write_ok (primary e) = false ->
         exists msg,
           resultOf (createFeatureFilm e' filmData userId) w
             = Ok (failure msg)
           /\ guest_calls (worldAfter (createFeatureFilm e' filmData userId) w)
              = guest_calls w
           /\ guests (worldAfter (createFeatureFilm e' filmData userId) w)
              = guests w))
  /\ (forall filmId userId,
        resultOf (updateFeatureFilm e' filmId filmData userId) w
          = resultOf (updateFeatureFilm e filmId filmData userId) w
        /\ (write_ok (primary e) = true -> is_Some (films w !! filmId) ->
            is_ok (extractCrewMembersFromFilmData filmData) = true ->
            read_ok (readback e) = true ->
            exists res,
              resultOf (updateFeatureFilm e' filmId filmData userId) w
                = Ok res
              /\ success res = true)
        /\ (write_ok (primary e) = false \/ films w !! filmId = None ->
            exists msg,
              resultOf (updateFeatureFilm e' filmId filmData userId) w
                = Ok (failure msg)
              /\ guest_calls
                   (worldAfter (updateFeatureFilm e' filmId filmData userId) w)
                 = guest_calls w
              /\ guests
                   (worldAfter (updateFeatureFilm e' filmId filmData userId) w)
                 = guests w)).
Proof.
  intros e'. split.
  - intros userId. split; [apply create_result_independent|]. split.
    + intros Hw Hu Hx Hr. by apply (create_succeeds e').
    + intros Hw. by apply (create_primary_failure e').
  - intros filmId userId. split; [apply update_result_independent|]. split.
    + intros Hw Hdoc Hx Hr. by apply (update_succeeds e').
    + intros Hfail. by apply (update_primary_failure e').
Qed.

(** A guest-service failure against a primary-write failure, on film
    [f1]. *)
Lemma C9_guest_failures_are_swallowed_witness :
  let broken :=
    with_guest_outcomes (friendlyEnv "f2" Completes Completes)
      (ThrowsAfter 0) (ThrowsAfter 0) in
  let rejected :=
    with_guest_outcomes (primaryRejectedEnv "f2") Completes Completes in
  (exists res,
     resultOf (createFeatureFilm broken directorUpdate "admin1") filmWorld
       = Ok res /\ success res = true)
  /\ (exists res,
        resultOf (updateFeatureFilm broken "f1" directorUpdate JUndefined)
          filmWorld = Ok res /\ success res = true)
  /\ (exists msg,
        resultOf (updateFeatureFilm rejected "f1" directorUpdate JUndefined)
          filmWorld = Ok (failure msg)
        /\ guest_calls
             (worldAfter
                (updateFeatureFilm rejected "f1" directorUpdate JUndefined)
                filmWorld) = [])
  /\ (exists msg,
        resultOf (createFeatureFilm rejected directorUpdate "admin1")
          filmWorld = Ok (failure msg)
        /\ guest_calls
             (worldAfter (createFeatureFilm rejected directorUpdate "admin1")
                filmWorld) = []).
Proof.
  intros broken rejected. subst broken rejected.
  destruct (C9_guest_failures_are_swallowed
              (friendlyEnv "f2" Completes Completes) (ThrowsAfter 0)
              (ThrowsAfter 0) directorUpdate filmWorld) as [Hc Hu].
  destruct (C9_guest_failures_are_swallowed (primaryRejectedEnv "f2")
              Completes Completes directorUpdate filmWorld) as [Hc' Hu'].
  split; [|split; [|split]].
  - destruct (Hc "admin1") as (_ & Hok & _).
    apply Hok; [reflexivity|left; reflexivity|reflexivity|reflexivity].
  - destruct (Hu "f1" JUndefined) as (_ & Hok & _).
    apply Hok; [reflexivity|by eexists|reflexivity|reflexivity].
  - destruct (Hu' "f1" JUndefined) as (_ & _ & Hfail).
    destruct Hfail as (msg & Hres & Hcalls & _); [left; reflexivity|].
    exists msg. split; [exact Hres|]. rewrite Hcalls. reflexivity.
  - destruct (Hc' "admin1") as (_ & _ & Hfail).
    destruct Hfail as (msg & Hres & Hcalls & _); [reflexivity|].
    exists msg. split; [exact Hres|]. rewrite Hcalls. reflexivity.
Defined.

End FilmWrites.

(** ** Legacy film conversion *)
Module LegacyConversion.
Import FeatureFilmService FilmVocabulary.

Lemma legacyCast_total (legacyData : jsval) :
  opt_string (get legacyData "mainActors") ->
  exists cast, legacyCast legacyData = Ok cast.
Proof.
  unfold legacyCast. intros [->|[->|[s ->]]]; try (eexists; reflexivity).
  destruct (truthy (JStr s)); eexists; reflexivity.
Qed.

Lemma legacyStills_total (now : Z) (legacyData : jsval) :
  opt_string_array (get legacyData "galleryUrls") ->
  exists stills, legacyStills now legacyData = Ok stills.
Proof.
  unfold legacyStills. intros [->|[->|[l ->]]]; try (eexists; reflexivity).
  destruct (nonempty (JArr (JStr <$> l))); eexists; reflexivity.
Qed.

Lemma legacySlug_total (legacyData : jsval) :
  opt_string (get legacyData "titleEn") ->
  opt_string (get legacyData "title") ->
  exists slug, legacySlug legacyData = Ok slug.
Proof.
  unfold legacySlug. intros HtitleEn Htitle.
  destruct (truthy (get legacyData "slug")); [eexists; reflexivity|].
  destruct HtitleEn as [->|[->|[s ->]]], Htitle as [->|[->|[t ->]]];
    unfold or_js; simpl;
    repeat (match goal with
            | |- context [String.eqb ?x ""] => destruct (String.eqb x "")
            end; simpl);
    eexists; reflexivity.
Qed.

(** The conversion of a record of the legacy shape returns, and these are
    four of the fields of what it returns. *)
Lemma convert_fields (now year : Z) (L : jsobj) :
  LegacyFilmRecord L ->
  exists E,
    convertLegacyToEnhanced now year (JObj L) = Ok E
    /\ prop E "crew" = legacyCrew (JObj L)
    /\ prop E "genres"
       = (if isArray (prop L "genres") then prop L "genres"
          else if truthy (prop L "genre") then JArr [prop L "genre"]
          else JArr [])
    /\ prop E "language"
       = (if isArray (prop L "languages") then prop L "languages"
          else if truthy (prop L "language") then JArr [prop L "language"]
          else JArr [JStr "Unknown"])
    /\ prop E "country"
       = match prop L "countries" with
         | JArr countries => first_item countries
         | _ => or_js (prop L "country") (JStr "Unknown")
         end.
Proof.
  intros HL.
  destruct (legacyStills_total now (JObj L) (legacy_galleryUrls L HL))
    as [stills Hstills].
  destruct (legacyCast_total (JObj L) (legacy_mainActors L HL))
    as [cast Hcast].
  destruct (legacySlug_total (JObj L) (legacy_titleEn L HL)
              (legacy_title L HL)) as [slug Hslug].
  unfold convertLegacyToEnhanced.
  rewrite Hstills, Hcast, Hslug. unfold rbind, is_nullish.
  eexists. split; [reflexivity|].
  repeat split; reflexivity.
Qed.

Lemma or_js_opt_string (v : jsval) (dflt : string) :
  opt_string v ->
  or_js v (JStr dflt) = JStr (default dflt (nonempty_string v)).
Proof.
  intros [->|[->|[s ->]]]; try reflexivity.
  unfold or_js, truthy, nonempty_string.
  destruct (String.eqb s ""); reflexivity.
Qed.

Lemma truthy_opt_string (v : jsval) :
  opt_string v -> truthy v = bool_decide (is_Some (nonempty_string v)).
Proof.
  intros [->|[->|[s ->]]]; try reflexivity.
  unfold truthy, nonempty_string.
  destruct (String.eqb s ""); reflexivity.
Qed.


Ltac legacy_shape :=
  constructor;
  first [ left; reflexivity
        | right; left; reflexivity
        | right; right; eexists; reflexivity
        | right; right; exists []; reflexivity ].

Lemma legacyExample_shape : LegacyFilmRecord legacyExample.
Proof. legacy_shape. Qed.

Lemma legacyEmptyArrays_shape : LegacyFilmRecord legacyEmptyArrays.
Proof. legacy_shape. Qed.


(** The same record, as the example of the specification gives it: the
    cast holds the two actors. *)
Lemma legacyExample_cast :
  exists E,
    convertLegacyToEnhanced 0 2025 (JObj legacyExample) = Ok E
    /\ (fun member => get member "name")
         <$> match prop E "cast" with JArr l => l | _ => [] end
       = [JStr "X"; JStr "Y"].
Proof. eexists. split; reflexivity. Qed.

(** The conversion does throw on a document that is not of the legacy
    shape; [getEnhancedFeatureFilms] catches that and skips the film. *)
Lemma conversion_throws_on_other_shapes :
  is_ok (convertLegacyToEnhanced 0 2025 (JObj illTypedFilm)) = false
  /\ convertSnapshot 0 2025
       [{| doc_id := "f3"; doc_data := illTypedFilm |}] = [].
Proof. split; reflexivity. Qed.

(** *** Coalescing of the duplicated fields *)

Lemma string_array_singleton (s : string) : string_array (JArr [JStr s]).
Proof. exists [s]. reflexivity. Qed.

Lemma opt_string_array_isArray (v : jsval) :
  opt_string_array v -> isArray v = true -> string_array v.
Proof. intros [->|[->|H]]; [discriminate|discriminate|done]. Qed.

Lemma coalesce_strings (plural singular : jsval) (dflt : list jsval) :
  opt_string_array plural -> opt_string singular ->
  (if isArray plural then plural
   else if truthy singular then JArr [singular] else JArr dflt)
  = match plural with
    | JArr l => JArr l
    | _ => match nonempty_string singular with
           | Some s => JArr [JStr s]
           | None => JArr dflt
           end
    end.
Proof.
  intros Hp Hs.
  destruct Hp as [->|[->|[l ->]]]; try reflexivity;
    (rewrite (truthy_opt_string _ Hs);
     destruct Hs as [->|[->|[s ->]]]; try reflexivity;
     unfold nonempty_string; destruct (String.eqb s ""); reflexivity).
Qed.

Lemma coalesced_string_array (plural singular : jsval) (dflt : list jsval) :
  opt_string_array plural -> string_array (JArr dflt) ->
  string_array
    match plural with
    | JArr l => JArr l
    | _ => match nonempty_string singular with
           | Some s => JArr [JStr s]
           | None => JArr dflt
           end
    end.
Proof.
  intros Hp Hd.
  destruct Hp as [->|[->|[l ->]]]; [| |by exists l];
    (destruct (nonempty_string singular);
     [apply string_array_singleton|exact Hd]).
Qed.

(** C8 (amended). For every legacy film record, [convertLegacyToEnhanced]
    takes the new-style array whenever the record has one, even an empty
    one ([genres] over [genre], the first of [countries] over [country],
    [languages] over [language]); without the array it takes the old-style
    field when that is a non-empty string, and otherwise the default ([[]]
    for genres, "Unknown" for the country, [["Unknown"]] for the language).
    So [genres] and [language] are always string arrays, [language] is
    non-empty unless [languages] is an empty array, and [country] is a
    string unless [countries] is an empty array. *)
Theorem C8_field_coalescing (now year : Z) (L : jsobj) :
  LegacyFilmRecord L ->
  exists E,
    convertLegacyToEnhanced now year (JObj L) = Ok E
    /\ string_array (prop E "genres")
    /\ prop E "genres"
       = match prop L "genres" with
         | JArr genres => JArr genres
         | _ => match nonempty_string (prop L "genre") with
                | Some s => JArr [JStr s]
                | None => JArr []
                end
         end
    /\ string_array (prop E "language")
    /\ prop E "language"
       = match prop L "languages" with
         | JArr languages => JArr languages
         | _ => match nonempty_string (prop L "language") with
                | Some s => JArr [JStr s]
                | None => JArr [JStr "Unknown"]
                end
         end
    /\ (prop L "languages" <> JArr [] -> prop E "language" <> JArr [])
    /\ (forall first others,
          prop L "countries" = JArr (first :: others) ->
          prop E "country" = first)
    /\ (isArray (prop L "countries") = false ->
        prop E "country"
        = JStr (default "Unknown" (nonempty_string (prop L "country"))))
    /\ (prop L "countries" <> JArr [] -> exists s, prop E "country" = JStr s).
Proof.
  intros HL.
  destruct (convert_fields now year L HL)
    as (E & HE & _ & Hgenres & Hlanguage & Hcountry).
  rewrite (coalesce_strings _ _ [] (legacy_genres L HL) (legacy_genre L HL))
    in Hgenres.
  rewrite (coalesce_strings _ _ [JStr "Unknown"] (legacy_languages L HL)
             (legacy_language L HL)) in Hlanguage.
  exists E. split; [exact HE|].
  split; [|split; [exact Hgenres|]].
  { rewrite Hgenres.
    apply coalesced_string_array; [apply (legacy_genres L HL)|by exists []]. }
  split; [|split; [exact Hlanguage|]].
  { rewrite Hlanguage.
    apply coalesced_string_array;
      [apply (legacy_languages L HL)|by exists ["Unknown"]]. }
  split.
  { rewrite Hlanguage. clear Hgenres Hlanguage Hcountry. intros Hne.
    destruct (prop L "languages");
      try (destruct (nonempty_string (prop L "language")); discriminate).
    exact Hne. }
  split.
  { intros first others Hc. rewrite Hcountry, Hc. reflexivity. }
  split.
  { intros Hna. rewrite Hcountry.
    destruct (prop L "countries");
      try (apply or_js_opt_string, (legacy_country L HL)).
    discriminate Hna. }
  intros Hne. rewrite Hcountry.
  destruct (legacy_countries L HL) as [Hc|[Hc|[l Hc]]]; rewrite Hc in *.
  - eexists. apply or_js_opt_string, (legacy_country L HL).
  - eexists. apply or_js_opt_string, (legacy_country L HL).
  - destruct l as [|c l]; [contradiction|]. by exists c.
Qed.

Lemma C8_field_coalescing_witness :
  LegacyFilmRecord legacyExample
  /\ exists E,
       convertLegacyToEnhanced 0 2025 (JObj legacyExample) = Ok E
       /\ prop E "genres" = JArr []
       /\ prop E "language" = JArr [JStr "Unknown"]
       /\ prop E "country" = JStr "Unknown".
Proof.
  split; [exact legacyExample_shape|].
  destruct (C8_field_coalescing 0 2025 legacyExample legacyExample_shape)
    as (E & HE & _ & Hgenres & _ & Hlanguage & _ & _ & Hcountry & _).
  exists E. split; [exact HE|]. split; [exact Hgenres|].
  split; [exact Hlanguage|]. by apply Hcountry.
Defined.

(** C8, as stated, fails. A legacy record whose [languages] array is
    present but empty is converted to an enhanced record whose [language]
    is the empty array, although the record also carries the old-style
    [language]. *)
Lemma C8_counterexample :
  LegacyFilmRecord legacyEmptyArrays
  /\ prop legacyEmptyArrays "language" = JStr "Thai"
  /\ exists E,
       convertLegacyToEnhanced 0 2025 (JObj legacyEmptyArrays) = Ok E
       /\ prop E "language" = JArr [].
Proof.
  split; [exact legacyEmptyArrays_shape|]. split; [reflexivity|].
  eexists. split; reflexivity.
Qed.

(** With an empty [countries] array the enhanced record has no country at
    all, whatever the old-style [country] says. *)
Lemma empty_countries_leave_country_undefined :
  prop legacyEmptyArrays "country" = JStr "Thailand"
  /\ exists E,
       convertLegacyToEnhanced 0 2025 (JObj legacyEmptyArrays) = Ok E
       /\ prop E "country" = JUndefined.
Proof. split; [reflexivity|]. eexists. split; reflexivity. Qed.

End LegacyConversion.

(** ** Further properties of the comments service *)
Module CommentsFacts.
Import CommentsService CommentsServiceRest Vocabulary CommentsVocabulary.

(** *** Writes through [updateDoc] *)

Lemma updateDoc_inv (r : Reply) (db db' : CommentDb) (key : string * string)
    (fields : jsobj) :
  Store.updateDoc r db key fields = Ok db' ->
  exists old, db !! key = Some old /\ db' = <[key := fields ∪ old]> db.
Proof.
  unfold Store.updateDoc. destruct (write_ok r); [|discriminate].
  destruct (db !! key) as [old|]; [|discriminate].
  intros [= <-]. by exists old.
Qed.

Lemma updateDoc_missing (r : Reply) (db : CommentDb) (key : string * string)
    (fields : jsobj) :
  db !! key = None -> is_ok (Store.updateDoc r db key fields) = false.
Proof.
  intros Hnone. unfold Store.updateDoc. rewrite Hnone.
  by destruct (write_ok r).
Qed.

(** *** Accepted writes *)

Lemma updateDoc_succeeds (r : Reply) (db : CommentDb)
    (key : string * string) (fields : jsobj) :
  write_ok r = true -> is_Some (db !! key) ->
  exists db', Store.updateDoc r db key fields = Ok db'.
Proof.
  intros Hw [old Hold]. unfold Store.updateDoc. rewrite Hw, Hold.
  by eexists.
Qed.

Lemma deleteComment_succeeds (r : Reply) (db : CommentDb) (sid cid : string) :
  write_ok r = true -> is_Some (db !! (sid, cid)) ->
  exists db', deleteComment r db sid cid = Ok db'.
Proof.
  intros Hw Hdoc. unfold deleteComment.
  destruct (updateDoc_succeeds r db (sid, cid)
              {[ "isDeleted" := JBool true;
                 "updatedAt" := JTimestamp (server_time r) ]} Hw Hdoc)
    as [db' ->].
  by exists db'.
Qed.

Lemma updateComment_succeeds (r : Reply) (db : CommentDb) (sid cid : string)
    (content : string) (metadata : jsval) :
  write_ok r = true -> is_Some (db !! (sid, cid)) ->
  exists db', updateComment r db sid cid content metadata = Ok db'.
Proof.
  intros Hw Hdoc. unfold updateComment.
  destruct (updateDoc_succeeds r db (sid, cid)
              {[ "content" := JStr content;
                 "metadata" := or_js metadata (JObj ∅);
                 "updatedAt" := JTimestamp (server_time r);
                 "isEdited" := JBool true ]} Hw Hdoc)
    as [db' ->].
  by exists db'.
Qed.

Lemma addScoringComment_succeeds (r : Reply) (db : CommentDb)
    (sid aid an ae : string) (x : jsobj) (content metadata : jsval) :
  write_ok r = true ->
  exists db',
    addScoringComment r db sid aid an ae (JObj x) content metadata
    = Ok (auto_id r, db').
Proof.
  intros Hw. unfold addScoringComment.
  rewrite ScoreMapping.mapAppScoresToDatabase_obj. unfold rbind at 1.
  unfold Store.addDoc. rewrite Hw. by eexists.
Qed.

Lemma exampleScoringDb_added :
  addScoringComment (accepting "c1" 1000) ∅ "S1" "admin1" "Judge"
    "judge@example.org" (JObj (scoreInput 8 7 9 6 5 (Some 35)))
    (JStr "solid") JUndefined = Ok ("c1", exampleScoringDb).
Proof.
  destruct (addScoringComment_succeeds (accepting "c1" 1000) ∅ "S1" "admin1"
              "Judge" "judge@example.org" (scoreInput 8 7 9 6 5 (Some 35))
              (JStr "solid") JUndefined eq_refl) as [db' Hadd].
  unfold exampleScoringDb. by rewrite Hadd.
Qed.

Lemma exampleScoringDb_c1 : is_Some (exampleScoringDb !! ("S1", "c1")).
Proof.
  pose proof exampleScoringDb_added as Hadd.
  unfold addScoringComment in Hadd.
  rewrite ScoreMapping.mapAppScoresToDatabase_obj in Hadd.
  unfold rbind at 1 in Hadd.
  destruct (Store.addDoc _ _ _ _) as [db1|] eqn:Hstore;
    simpl in Hadd; [|discriminate Hadd].
  injection Hadd as <-. unfold Store.addDoc in Hstore. simpl in Hstore.
  injection Hstore as <-. rewrite lookup_insert_eq. by eexists.
Qed.

Lemma deleted_still_stored (r : Reply) (db db' : CommentDb)
    (sid cid : string) :
  deleteComment r db sid cid = Ok db' -> is_Some (db' !! (sid, cid)).
Proof.
  unfold deleteComment. intros Hdel.
  destruct (Store.updateDoc r db (sid, cid) _) as [db1|] eqn:Hupd;
    simpl in Hdel; [|discriminate].
  injection Hdel as <-. unfold Store.updateDoc in Hupd.
  destruct (write_ok r); [|discriminate].
  destruct (db !! (sid, cid)); [|discriminate].
  injection Hupd as <-. rewrite lookup_insert_eq. by eexists.
Qed.

Lemma fieldOf_updated (db : CommentDb) (sid cid field : string)
    (fields old : jsobj) :
  db !! (sid, cid) = Some old ->
  fieldOf (<[(sid, cid) := fields ∪ old]> db) sid cid field
  = match fields !! field with
    | Some v => v
    | None => fieldOf db sid cid field
    end.
Proof.
  intros Hold. unfold fieldOf, prop. rewrite lookup_insert_eq, Hold.
  destruct (fields !! field) as [v|] eqn:Hf.
  - by rewrite (lookup_union_Some_l _ _ _ _ Hf).
  - by rewrite (lookup_union_r _ _ _ Hf).
Qed.

Lemma deleteComment_inv (r : Reply) (db db' : CommentDb) (sid cid : string) :
  deleteComment r db sid cid = Ok db' ->
  exists old,
    db !! (sid, cid) = Some old
    /\ db' = <[(sid, cid) :=
                 ({[ "isDeleted" := JBool true;
                     "updatedAt" := JTimestamp (server_time r) ]} : jsobj)
                 ∪ old]> db.
Proof.
  unfold deleteComment. intros Hdel.
  destruct (Store.updateDoc r db (sid, cid) _) as [db1|] eqn:Hupd;
    simpl in Hdel; [|discriminate].
  injection Hdel as <-. by apply updateDoc_inv in Hupd.
Qed.

Lemma deleteComment_field (r : Reply) (db db' : CommentDb)
    (sid cid field : string) :
  deleteComment r db sid cid = Ok db' ->
  fieldOf db' sid cid field
  = if String.eqb field "isDeleted" then JBool true
    else if String.eqb field "updatedAt" then JTimestamp (server_time r)
    else fieldOf db sid cid field.
Proof.
  intros (old & Hold & ->)%deleteComment_inv.
  rewrite (fieldOf_updated _ _ _ _ _ _ Hold).
  destruct (String.eqb_spec field "isDeleted") as [->|Hd]; [reflexivity|].
  destruct (String.eqb_spec field "updatedAt") as [->|Hu]; [reflexivity|].
  rewrite lookup_insert_ne by congruence.
  by rewrite lookup_singleton_ne by congruence.
Qed.

(** Soft delete is idempotent. A second [deleteComment] on the same
    comment succeeds, leaves it deleted and changes no field but
    [updatedAt]; neither call touches the content, the scores, the edit
    history or any other field, nor any other comment. *)
Theorem deleteComment_idempotent (r1 r2 : Reply) (db db1 db2 : CommentDb)
    (sid cid : string) :
  deleteComment r1 db sid cid = Ok db1 ->
  deleteComment r2 db1 sid cid = Ok db2 ->
  fieldOf db1 sid cid "isDeleted" = JBool true
  /\ fieldOf db2 sid cid "isDeleted" = JBool true
  /\ (forall field, field <> "updatedAt" ->
        fieldOf db2 sid cid field = fieldOf db1 sid cid field)
  /\ (forall field, field <> "updatedAt" -> field <> "isDeleted" ->
        fieldOf db2 sid cid field = fieldOf db sid cid field)
  /\ (forall key, key <> (sid, cid) -> db2 !! key = db !! key).
Proof.
  intros H1 H2.
  split; [by rewrite (deleteComment_field _ _ _ _ _ _ H1)|].
  split; [by rewrite (deleteComment_field _ _ _ _ _ _ H2)|].
  split; [|split].
  - intros field Hu. rewrite (deleteComment_field _ _ _ _ _ field H2).
    destruct (String.eqb_spec field "isDeleted") as [->|Hd].
    + by rewrite (deleteComment_field _ _ _ _ _ _ H1).
    + destruct (String.eqb_spec field "updatedAt"); [contradiction|done].
  - intros field Hu Hd.
    rewrite (deleteComment_field _ _ _ _ _ field H2),
      (deleteComment_field _ _ _ _ _ field H1).
    destruct (String.eqb_spec field "isDeleted"); [contradiction|].
    destruct (String.eqb_spec field "updatedAt"); [contradiction|done].
  - intros key Hkey.
    apply deleteComment_inv in H1 as (old1 & _ & ->).
    apply deleteComment_inv in H2 as (old2 & _ & ->).
    by rewrite !lookup_insert_ne.
Qed.

Lemma deleteComment_idempotent_witness :
  exists db1 db2,
    deleteComment (accepting "" 2000) exampleScoringDb "S1" "c1" = Ok db1
    /\ deleteComment (accepting "" 3000) db1 "S1" "c1" = Ok db2
    /\ fieldOf db2 "S1" "c1" "isDeleted" = JBool true
    /\ fieldOf db2 "S1" "c1" "content" = JStr "solid".
Proof.
  destruct (deleteComment_succeeds (accepting "" 2000) exampleScoringDb
              "S1" "c1" eq_refl exampleScoringDb_c1) as [db1 H1].
  destruct (deleteComment_succeeds (accepting "" 3000) db1 "S1" "c1"
              eq_refl (deleted_still_stored _ _ _ _ _ H1)) as [db2 H2].
  exists db1, db2.
  destruct (deleteComment_idempotent _ _ _ _ _ _ _ H1 H2)
    as (_ & Hd & _ & Hkeep & _).
  split; [exact H1|]. split; [exact H2|]. split; [exact Hd|].
  rewrite Hkeep by discriminate. reflexivity.
Defined.

(** On a comment that does not exist each of the three updates throws its
    own generic message; [updateScoringComment] in particular does not let
    its "Comment not found" reach the caller. *)
Theorem updates_of_missing_comment_throw (r : Reply) (db : CommentDb)
    (sid cid : string) :
  db !! (sid, cid) = None ->
  (forall render roundPercent scores comments editedBy,
     updateScoringComment render roundPercent r db sid cid scores comments
       editedBy = Throw "Failed to update scoring comment")
  /\ (forall content metadata,
        updateComment r db sid cid content metadata
        = Throw "Failed to update comment")
  /\ deleteComment r db sid cid = Throw "Failed to delete comment".
Proof.
  intros Hnone. split; [|split].
  - intros render roundPercent scores comments editedBy.
    unfold updateScoringComment, Store.getDoc. rewrite Hnone.
    by destruct (read_ok r).
  - intros content metadata. unfold updateComment.
    pose proof (updateDoc_missing r db (sid, cid)
                  {[ "content" := JStr content;
                     "metadata" := or_js metadata (JObj ∅);
                     "updatedAt" := JTimestamp (server_time r);
                     "isEdited" := JBool true ]} Hnone) as Hup.
    by destruct (Store.updateDoc _ _ _ _).
  - unfold deleteComment.
    pose proof (updateDoc_missing r db (sid, cid)
                  {[ "isDeleted" := JBool true;
                     "updatedAt" := JTimestamp (server_time r) ]} Hnone)
      as Hup.
    by destruct (Store.updateDoc _ _ _ _).
Qed.

Lemma updates_of_missing_comment_throw_witness :
  (∅ : CommentDb) !! ("S1", "nope") = None
  /\ updateScoringComment render_primitive roundPercent_int
       (accepting "" 2000) ∅ "S1" "nope"
       (JObj (scoreInput 1 2 3 4 5 (Some 15))) "" "admin1"
     = Throw "Failed to update scoring comment"
  /\ deleteComment (accepting "" 2000) ∅ "S1" "nope"
     = Throw "Failed to delete comment".
Proof.
  assert (Hnone : (∅ : CommentDb) !! ("S1", "nope") = None) by reflexivity.
  destruct (updates_of_missing_comment_throw (accepting "" 2000) ∅ "S1"
              "nope" Hnone) as (Hupd & _ & Hdel).
  split; [exact Hnone|]. split; [apply Hupd|exact Hdel].
Defined.

(** *** What every tier of [getComments] guarantees *)

Lemma processDocs_elem (s : QueryKind) (sid : string) (clock : nat -> Z)
    (i : nat) (docs : list DocSnap) (c : ShortFilmComment) :
  c ∈ processDocs s sid clock i docs ->
  exists d now, d ∈ docs /\ processDoc s sid now d = Some c.
Proof.
  revert i. induction docs as [|d docs IH]; intros i Hc; simpl in Hc.
  - by apply elem_of_nil in Hc.
  - destruct (processDoc s sid (clock i) d) as [c'|] eqn:Hd.
    + apply elem_of_cons in Hc as [->|Hc].
      * exists d, (clock i). split; [left|exact Hd].
      * destruct (IH _ Hc) as (d' & now & Hd' & Hp).
        exists d', now. split; [by right|exact Hp].
    + destruct (IH _ Hc) as (d' & now & Hd' & Hp).
      exists d', now. split; [by right|exact Hp].
Qed.

Lemma processDocs_length (s : QueryKind) (sid : string) (clock : nat -> Z)
    (i : nat) (docs : list DocSnap) :
  (length (processDocs s sid clock i docs) <= length docs)%nat.
Proof.
  revert i. induction docs as [|d docs IH]; intros i; simpl; [lia|].
  specialize (IH (S i)).
  destruct (processDoc s sid (clock i) d); simpl; lia.
Qed.

Lemma processDoc_required (s : QueryKind) (sid : string) (now : Z)
    (d : DocSnap) (c : ShortFilmComment) :
  processDoc s sid now d = Some c ->
  truthy (adminId c) = true /\ truthy (adminName c) = true
  /\ truthy (type c) = true
  /\ (s = unfiltered -> is_true (prop (doc_data d) "isDeleted") = false).
Proof.
  unfold processDoc.
  destruct (is_unfiltered s && is_true (prop (doc_data d) "isDeleted"))
    eqn:Hdel; [discriminate|].
  destruct (truthy (prop (doc_data d) "adminId")) eqn:Ha; [|discriminate].
  destruct (truthy (prop (doc_data d) "adminName")) eqn:Hn; [|discriminate].
  destruct (truthy (prop (doc_data d) "type")) eqn:Ht; [|discriminate].
  simpl.
  destruct (toDate_opt (prop (doc_data d) "createdAt")) as [created|];
    simpl; [|discriminate].
  destruct (toDate_opt (prop (doc_data d) "updatedAt")) as [updated|];
    simpl; [|discriminate].
  intros [= <-]. simpl. repeat split; try assumption.
  intros ->. exact Hdel.
Qed.

Lemma onSnapshotComments_elem (q : QueryKind) (sid : string)
    (clock : nat -> Z) (docs : list DocSnap) (c : ShortFilmComment) :
  c ∈ onSnapshotComments q sid clock docs ->
  exists d now, d ∈ docs /\ processDoc q sid now d = Some c.
Proof.
  unfold onSnapshotComments. intros Hc.
  apply (processDocs_elem q sid clock 0).
  destruct q; [exact Hc| |]; by rewrite CommentQueries.sortComments_perm in Hc.
Qed.

Lemma onSnapshotComments_length (q : QueryKind) (sid : string)
    (clock : nat -> Z) (docs : list DocSnap) :
  (length (onSnapshotComments q sid clock docs) <= length docs)%nat.
Proof.
  unfold onSnapshotComments.
  pose proof (processDocs_length q sid clock 0 docs) as Hlen.
  destruct q; [exact Hlen| |];
    by rewrite (Permutation_length (CommentQueries.sortComments_perm _)).
Qed.

(** A successful call either hands out nothing or the processed answer of
    the first query the store accepted. *)
Lemma getComments_inv (getDocs : QueryKind -> result (list DocSnap))
    (clock : nat -> Z) (sid : string) (l : list ShortFilmComment) :
  getComments getDocs clock sid = Ok l ->
  l = []
  \/ exists q r,
       getDocs q = Ok r /\ l = onSnapshotComments q sid clock r
       /\ (q = filtered \/ is_ok (getDocs filtered) = false).
Proof.
  unfold getComments. destruct (String.eqb sid ""); [intros [= <-]; by left|].
  unfold runQueries.
  destruct (getDocs filtered) as [r|] eqn:H1; simpl.
  { destruct (length r =? 0)%nat; intros [= <-]; [by left|].
    right. exists filtered, r. auto. }
  destruct (getDocs simple) as [r|] eqn:H2; simpl.
  { destruct (length r =? 0)%nat; intros [= <-]; [by left|].
    right. exists simple, r. auto. }
  destruct (getDocs unfiltered) as [r|] eqn:H3; simpl.
  { destruct (length r =? 0)%nat; intros [= <-]; [by left|].
    right. exists unfiltered, r. auto. }
  intros [= <-]. by left.
Qed.

Lemma answers_elem (coll : list DocSnap) (q : QueryKind) (r : list DocSnap)
    (d : DocSnap) :
  answers coll q r -> d ∈ r ->
  d ∈ coll /\ (q <> unfiltered -> not_deleted d = true).
Proof.
  destruct q; simpl.
  - intros [Hperm _] Hd. rewrite Hperm in Hd.
    apply list_elem_of_filter in Hd as [Hnd Hd].
    split; [exact Hd|]. intros _.
    apply Is_true_true in Hnd. by apply andb_true_iff in Hnd as [? _].
  - intros Hperm Hd. rewrite Hperm in Hd.
    apply list_elem_of_filter in Hd as [Hnd Hd].
    split; [exact Hd|]. intros _. by apply Is_true_true in Hnd.
  - intros Hperm Hd. rewrite Hperm in Hd. split; [exact Hd|]. congruence.
Qed.

Lemma answers_length (coll : list DocSnap) (q : QueryKind)
    (r : list DocSnap) :
  answers coll q r -> (length r <= length coll)%nat.
Proof.
  destruct q; simpl.
  - intros [Hperm _]. rewrite (Permutation_length Hperm). apply length_filter.
  - intros Hperm. rewrite (Permutation_length Hperm). apply length_filter.
  - intros Hperm. by rewrite (Permutation_length Hperm).
Qed.

(** Whatever the store accepts and whichever tier answers,
    [getComments] hands out no more comments than the collection has
    documents, and each of them comes from a document of the collection
    whose [isDeleted] is not the boolean [true]. *)
Lemma getComments_hands_out_live_documents (coll : list DocSnap)
    (getDocs : QueryKind -> result (list DocSnap)) (clock : nat -> Z)
    (sid : string) (l : list ShortFilmComment) :
  store_over coll getDocs ->
  getComments getDocs clock sid = Ok l ->
  (length l <= length coll)%nat
  /\ forall c, c ∈ l ->
       truthy (adminId c) = true /\ truthy (adminName c) = true
       /\ truthy (type c) = true /\ is_true (isDeleted c) = false
       /\ exists d, d ∈ coll /\ doc_id d = id c
                    /\ is_true (prop (doc_data d) "isDeleted") = false.
Proof.
  intros Hstore [->|(q & r & Hq & -> & _)]%getComments_inv.
  { split; [simpl; lia|]. intros c Hc. by apply elem_of_nil in Hc. }
  pose proof (Hstore q r Hq) as Hans. split.
  { etrans; [apply onSnapshotComments_length|by eapply answers_length]. }
  intros c (d & now & Hd & Hp)%onSnapshotComments_elem.
  destruct (answers_elem _ _ _ _ Hans Hd) as [Hcoll Hnd].
  destruct (processDoc_required _ _ _ _ _ Hp) as (Ha & Hn & Ht & Hunf).
  destruct (CommentQueries.processDoc_fields _ _ _ _ _ Hp) as (Hid & Hdel & _).
  assert (Hlive : is_true (prop (doc_data d) "isDeleted") = false).
  { assert (Hcase : q = unfiltered \/ q <> unfiltered)
      by (destruct q; auto; right; discriminate).
    destruct Hcase as [->|Hq']; [by apply Hunf|].
    apply Hnd, CommentQueries.not_deleted_lookup in Hq'.
    unfold prop. by rewrite Hq'. }
  repeat (split; [assumption|]). split.
  - rewrite Hdel. unfold or_js.
    destruct (truthy (prop (doc_data d) "isDeleted")); [exact Hlive|done].
  - exists d. by rewrite Hid.
Qed.

Lemma is_true_false (v : jsval) : is_true v = false <-> v <> JBool true.
Proof.
  destruct v as [| |[]| | | | | | | | |]; simpl; split; congruence.
Qed.

Lemma processDoc_comment_from (q : QueryKind) (sid : string) (now : Z)
    (d : DocSnap) (c : ShortFilmComment) :
  processDoc q sid now d = Some c ->
  (q <> unfiltered -> not_deleted d = true) ->
  comment_from c d.
Proof.
  intros Hp Hnd.
  destruct (processDoc_required _ _ _ _ _ Hp) as (Ha & Hn & Ht & Hunf).
  destruct (CommentQueries.processDoc_fields _ _ _ _ _ Hp) as (Hid & Hdel & _).
  assert (Hlive : prop (doc_data d) "isDeleted" <> JBool true).
  { assert (Hcase : q = unfiltered \/ q <> unfiltered)
      by (destruct q; auto; right; discriminate).
    destruct Hcase as [->|Hq]; [by apply is_true_false, Hunf|].
    apply Hnd, CommentQueries.not_deleted_lookup in Hq.
    unfold prop. rewrite Hq. discriminate. }
  unfold processDoc in Hp.
  destruct (is_unfiltered q && _); [discriminate|].
  destruct (_ || _); [discriminate|].
  destruct (toDate_opt (prop (doc_data d) "createdAt")); simpl in Hp;
    [|discriminate].
  destruct (toDate_opt (prop (doc_data d) "updatedAt")); simpl in Hp;
    [|discriminate].
  injection Hp as <-. simpl in *.
  repeat (split; [done|]).
  unfold or_js. by destruct (truthy (prop (doc_data d) "isDeleted")).
Qed.

Lemma processDocs_pairs (q : QueryKind) (sid : string) (clock : nat -> Z)
    (i : nat) (docs : list DocSnap) :
  exists ds,
    ds `sublist_of` docs
    /\ Forall2 (fun c d => d ∈ docs
                           /\ exists now, processDoc q sid now d = Some c)
         (processDocs q sid clock i docs) ds.
Proof.
  revert i. induction docs as [|d docs IH]; intros i; simpl.
  { exists []. split; constructor. }
  destruct (IH (S i)) as (ds & Hsub & Hall).
  assert (Hall' : Forall2 (fun c d' => d' ∈ d :: docs
                             /\ exists now, processDoc q sid now d' = Some c)
                    (processDocs q sid clock (S i) docs) ds).
  { eapply Forall2_impl; [exact Hall|].
    intros c d' [Hin Hp]. split; [by right|exact Hp]. }
  destruct (processDoc q sid (clock i) d) as [c|] eqn:Hd.
  - exists (d :: ds). split; [by constructor|].
    constructor; [|exact Hall']. split; [left|by exists (clock i)].
  - exists ds. split; [by constructor|exact Hall'].
Qed.

Lemma answers_submseteq (coll : list DocSnap) (q : QueryKind)
    (r : list DocSnap) :
  answers coll q r -> r ⊆+ coll.
Proof.
  destruct q; simpl.
  - intros [Hperm _]. rewrite Hperm. apply sublist_submseteq, sublist_filter.
  - intros Hperm. rewrite Hperm. apply sublist_submseteq, sublist_filter.
  - intros Hperm. by rewrite Hperm.
Qed.

(** Whichever tier answers, and whatever the documents of the collection
    look like, the comments [getComments] returns can be paired one to one
    with distinct documents of the collection, each comment with the
    document it was built from: no document gives two comments. A comment
    carries its document's id and its [adminId], [adminName] and [type],
    all truthy, and neither the document's [isDeleted] nor the comment's
    is the boolean [true]. *)
Theorem getComments_pairs_comments_with_documents (coll : list DocSnap)
    (getDocs : QueryKind -> result (list DocSnap)) (clock : nat -> Z)
    (sid : string) (l : list ShortFilmComment) :
  store_over coll getDocs ->
  getComments getDocs clock sid = Ok l ->
  exists docs, docs ⊆+ coll /\ Forall2 comment_from l docs.
Proof.
  intros Hstore [->|(q & r & Hq & -> & _)]%getComments_inv.
  { exists []. split; [apply submseteq_nil_l|constructor]. }
  pose proof (Hstore q r Hq) as Hans.
  destruct (processDocs_pairs q sid clock 0 r) as (ds & Hsub & Hall).
  assert (Hperm : processDocs q sid clock 0 r
                  ≡ₚ onSnapshotComments q sid clock r).
  { unfold onSnapshotComments.
    destruct q; [done| |]; by rewrite CommentQueries.sortComments_perm. }
  destruct (Permutation_Forall2 Hperm Hall) as (ds' & Hds & Hall').
  exists ds'. split.
  - rewrite <-Hds. trans r; [by apply sublist_submseteq|].
    by eapply answers_submseteq.
  - eapply Forall2_impl; [exact Hall'|].
    intros c d [Hd [now Hp]]. apply (processDoc_comment_from q sid now).
    + exact Hp.
    + by apply (answers_elem coll q r d Hans Hd).
Qed.

(** The unfiltered tier over a collection with an unmarked comment. *)
Lemma getComments_pairs_comments_with_documents_witness :
  let weakest := storeWith None None (Some unmarkedColl) in
  store_over unmarkedColl weakest
  /\ exists l docs,
       getComments weakest (fun _ => 0) "S1" = Ok l
       /\ docs ⊆+ unmarkedColl /\ Forall2 comment_from l docs.
Proof.
  intros weakest.
  assert (Hstore : store_over unmarkedColl weakest).
  { intros q r Hq. destruct q; try discriminate Hq.
    injection Hq as <-. unfold answers. reflexivity. }
  split; [exact Hstore|].
  pose proof (CommentQueries.getComments_never_throws weakest (fun _ => 0)
                "S1") as Hok.
  destruct (getComments weakest (fun _ => 0) "S1") as [l|] eqn:Hl;
    [|discriminate Hok].
  destruct (getComments_pairs_comments_with_documents _ _ _ _ _ Hstore Hl)
    as (docs & Hsub & Hall).
  by exists l, docs.
Defined.

(** When the composite query is rejected, the list comes out of the
    client-side sort: it is latest first whatever the store answered, in
    whatever order, and whatever the documents hold. *)
Theorem fallback_tiers_are_sorted
    (getDocs : QueryKind -> result (list DocSnap)) (clock : nat -> Z)
    (sid : string) (l : list ShortFilmComment) :
  is_ok (getDocs filtered) = false ->
  getComments getDocs clock sid = Ok l ->
  StronglySorted later_first l.
Proof.
  intros Hrej [->|(q & r & Hq & -> & Hf)]%getComments_inv; [constructor|].
  destruct q.
  - rewrite Hq in Hrej. discriminate Hrej.
  - apply CommentQueries.sortComments_sorted.
  - apply CommentQueries.sortComments_sorted.
Qed.

Lemma fallback_tiers_are_sorted_witness :
  let simpleOnly :=
    storeWith None (Some [generalComment "c1" "first" 1000 (Some false);
                          generalComment "c3" "third" 3000 (Some false)])
      None in
  is_ok (simpleOnly filtered) = false
  /\ exists l, getComments simpleOnly (fun _ => 0) "S1" = Ok l
               /\ StronglySorted later_first l
               /\ id <$> l = ["c3"; "c1"].
Proof.
  intros simpleOnly.
  assert (Hrej : is_ok (simpleOnly filtered) = false) by reflexivity.
  split; [exact Hrej|].
  destruct (getComments simpleOnly (fun _ => 0) "S1") as [l|] eqn:Hl;
    [|vm_compute in Hl; discriminate Hl].
  exists l. split; [reflexivity|]. split.
  - exact (fallback_tiers_are_sorted _ _ _ _ Hrej Hl).
  - vm_compute in Hl. injection Hl as <-. reflexivity.
Defined.

(** *** The collection of a submission *)

Lemma collectionOf_elem (db : CommentDb) (sid : string) (d : DocSnap) :
  d ∈ collectionOf db sid <-> db !! (sid, doc_id d) = Some (doc_data d).
Proof.
  unfold collectionOf. rewrite list_elem_of_omap. split.
  - intros ([[s c] o] & Hin & Hd). apply elem_of_map_to_list in Hin.
    simpl in Hd. destruct (decide (s = sid)) as [->|]; [|discriminate].
    injection Hd as <-. exact Hin.
  - intros Hd. exists (sid, doc_id d, doc_data d). split.
    + by apply elem_of_map_to_list.
    + simpl. rewrite decide_True by reflexivity. by destruct d.
Qed.

(** After a successful [deleteComment], no tier of [getComments] over the
    updated collection hands out the deleted comment, although its
    document stays in the store. *)
Theorem deleted_comment_is_never_listed (r : Reply) (db db' : CommentDb)
    (sid cid : string) (getDocs : QueryKind -> result (list DocSnap))
    (clock : nat -> Z) (l : list ShortFilmComment) :
  deleteComment r db sid cid = Ok db' ->
  store_over (collectionOf db' sid) getDocs ->
  getComments getDocs clock sid = Ok l ->
  is_Some (db' !! (sid, cid)) /\ forall c, c ∈ l -> id c <> cid.
Proof.
  intros Hdel Hstore Hl.
  pose proof (deleteComment_field _ _ _ _ _ "isDeleted" Hdel) as Hfield.
  simpl in Hfield.
  apply deleteComment_inv in Hdel as (old & Hold & ->).
  split; [rewrite lookup_insert_eq; by eexists|].
  intros c Hc Hid.
  destruct (getComments_hands_out_live_documents _ _ _ _ _ Hstore Hl)
    as [_ Hall].
  destruct (Hall c Hc) as (_ & _ & _ & _ & d & Hd & Hdid & Hlive).
  apply collectionOf_elem in Hd. rewrite Hdid, Hid in Hd.
  unfold fieldOf in Hfield. rewrite Hd in Hfield.
  rewrite Hfield in Hlive. discriminate Hlive.
Qed.

Lemma deleted_comment_is_never_listed_witness :
  exists db',
    deleteComment (accepting "" 2000) exampleScoringDb "S1" "c1" = Ok db'
    /\ store_over (collectionOf db' "S1")
         (storeWith None None (Some (collectionOf db' "S1")))
    /\ exists l,
         getComments (storeWith None None (Some (collectionOf db' "S1")))
           (fun _ => 0) "S1" = Ok l
         /\ forall c, c ∈ l -> id c <> "c1".
Proof.
  destruct (deleteComment_succeeds (accepting "" 2000) exampleScoringDb
              "S1" "c1" eq_refl exampleScoringDb_c1) as [db' Hdel].
  exists db'. split; [exact Hdel|].
  assert (Hstore : store_over (collectionOf db' "S1")
                     (storeWith None None (Some (collectionOf db' "S1")))).
  { intros q r Hq. destruct q; try discriminate Hq.
    injection Hq as <-. unfold answers. reflexivity. }
  split; [exact Hstore|].
  pose proof (CommentQueries.getComments_never_throws
                (storeWith None None (Some (collectionOf db' "S1")))
                (fun _ => 0) "S1") as Hok.
  destruct (getComments (storeWith None None (Some (collectionOf db' "S1")))
              (fun _ => 0) "S1") as [l|] eqn:Hl; [|discriminate Hok].
  exists l. split; [reflexivity|].
  exact (proj2 (deleted_comment_is_never_listed _ _ _ _ _ _ _ _
                  Hdel Hstore Hl)).
Defined.

(** *** Stamped documents *)

Lemma db_stamped_insert (db : CommentDb) (key : string * string)
    (d : jsobj) :
  db_stamped db ->
  (exists b, d !! "isDeleted" = Some (JBool b)) ->
  (exists t, d !! "createdAt" = Some (JTimestamp t)) ->
  db_stamped (<[key := d]> db).
Proof.
  intros Hdb Hb Ht key' d' Hlook.
  destruct (decide (key' = key)) as [->|Hne].
  - rewrite lookup_insert_eq in Hlook. injection Hlook as <-. by split.
  - rewrite lookup_insert_ne in Hlook by congruence. by apply (Hdb key').
Qed.

Lemma db_stamped_update (r : Reply) (db db' : CommentDb)
    (key : string * string) (fields : jsobj) :
  db_stamped db ->
  Store.updateDoc r db key fields = Ok db' ->
  (fields !! "isDeleted" = None
   \/ exists b, fields !! "isDeleted" = Some (JBool b)) ->
  fields !! "createdAt" = None ->
  db_stamped db'.
Proof.
  intros Hdb (old & Hold & ->)%updateDoc_inv Hdel Hcreated.
  destruct (Hdb key old Hold) as [[b Hb] [t Ht]].
  apply db_stamped_insert; [exact Hdb| |].
  - destruct Hdel as [Hnone|[b' Hb']].
    + exists b. by rewrite (lookup_union_r _ _ _ Hnone).
    + exists b'. by apply lookup_union_Some_l.
  - exists t. by rewrite (lookup_union_r _ _ _ Hcreated).
Qed.

Lemma addDoc_inv (r : Reply) (db db' : CommentDb) (key : string * string)
    (d : jsobj) :
  Store.addDoc r db key d = Ok db' -> db' = <[key := d]> db.
Proof.
  unfold Store.addDoc. destruct (write_ok r); [|discriminate].
  by intros [= <-].
Qed.

Lemma addGeneralComment_inv (r : Reply) (db db' : CommentDb)
    (sid aid an ae cid : string) (content metadata : jsval) :
  addGeneralComment r db sid aid an ae content metadata = Ok (cid, db') ->
  cid = auto_id r
  /\ db' = <[(sid, cid) :=
              ({[ "submissionId" := JStr sid;
                  "adminId" := JStr aid;
                  "adminName" := JStr an;
                  "adminEmail" := JStr ae;
                  "content" := content;
                  "type" := JStr "general";
                  "metadata" := or_js metadata (JObj ∅);
                  "createdAt" := JTimestamp (server_time r);
                  "isEdited" := JBool false;
                  "isDeleted" := JBool false ]} : jsobj)]> db.
Proof.
  unfold addGeneralComment.
  destruct (Store.addDoc r db _ _) as [db1|] eqn:Hadd; simpl; [|discriminate].
  intros [= <- <-]. split; [reflexivity|]. by apply addDoc_inv in Hadd.
Qed.

Lemma try_catch_ok {A} (body : result A) (handler : string -> result A)
    (a : A) :
  (forall msg, is_ok (handler msg) = false) ->
  try_catch body handler = Ok a -> body = Ok a.
Proof.
  intros Hh. destruct body as [a'|msg]; simpl; [done|].
  intros Heq. specialize (Hh msg). rewrite Heq in Hh. discriminate Hh.
Qed.

Lemma wrote_keeps_stamped (render : jsval -> string)
    (roundPercent : jsval -> jsval) (db db' : CommentDb) :
  db_stamped db -> wrote render roundPercent db db' -> db_stamped db'.
Proof.
  intros Hdb [r sid aid an ae content metadata cid H
             |r sid aid an ae scores content metadata cid H
             |r sid aid an ae oldStatus newStatus reason cid H
             |r sid aid an ae flagged reason cid H
             |r sid cid content metadata H
             |r sid cid H
             |r sid cid scores comments editedBy H].
  - apply addGeneralComment_inv in H as [_ ->].
    apply db_stamped_insert; [exact Hdb|by eexists..].
  - unfold addScoringComment in H.
    destruct (mapAppScoresToDatabase scores) as [dbScores|];
      simpl in H; [|discriminate].
    destruct (Store.addDoc r db _ _) as [db1|] eqn:Hadd;
      simpl in H; [|discriminate].
    injection H as <- <-. apply addDoc_inv in Hadd as ->.
    apply db_stamped_insert; [exact Hdb|by eexists..].
  - apply try_catch_ok in H; [|done].
    apply addGeneralComment_inv in H as [_ ->].
    apply db_stamped_insert; [exact Hdb|by eexists..].
  - apply try_catch_ok in H; [|done].
    apply addGeneralComment_inv in H as [_ ->].
    apply db_stamped_insert; [exact Hdb|by eexists..].
  - apply try_catch_ok in H; [|done].
    eapply db_stamped_update; [exact Hdb|exact H|by left|done].
  - apply try_catch_ok in H; [|done].
    eapply db_stamped_update; [exact Hdb|exact H| |done].
    right. by exists true.
  - rewrite ScoreMapping.rescoring_is_refused in H. discriminate H.
Qed.

(** Every document of a store that only the service has written, through
    any sequence of its seven writing functions, carries a boolean
    [isDeleted] and a [createdAt] timestamp: the collection of every
    submission is [stamped]. (Nothing keeps two comments from being
    stamped with the same time.) *)
Theorem service_built_stores_are_stamped (render : jsval -> string)
    (roundPercent : jsval -> jsval) (db : CommentDb) :
  built render roundPercent db ->
  db_stamped db /\ forall sid, stamped (collectionOf db sid).
Proof.
  intros Hbuilt.
  assert (Hdb : db_stamped db).
  { induction Hbuilt as [|db db' _ IH Hw].
    - intros key d Hlook. by rewrite lookup_empty in Hlook.
    - by eapply wrote_keeps_stamped. }
  split; [exact Hdb|].
  intros sid d Hd%collectionOf_elem. by apply (Hdb (sid, doc_id d)).
Qed.

Lemma exampleScoringDb_built :
  built render_primitive roundPercent_int exampleScoringDb.
Proof.
  apply (built_step _ _ ∅); [constructor|].
  eapply wrote_scoring. exact exampleScoringDb_added.
Qed.

Lemma service_built_stores_are_stamped_witness :
  built render_primitive roundPercent_int exampleScoringDb
  /\ db_stamped exampleScoringDb
  /\ forall sid, stamped (collectionOf exampleScoringDb sid).
Proof.
  split; [exact exampleScoringDb_built|].
  exact (service_built_stores_are_stamped _ _ _ exampleScoringDb_built).
Defined.

(** *** Writing a comment and reading it back *)

Lemma well_formed_is_input (x : jsobj) :
  well_formed_scores x ->
  exists a b c d e t, x = scoreInput a b c d e (Some t).
Proof.
  intros Hwf.
  destruct (ScoreMapping.well_formed_lookup x "technical" Hwf)
    as (a & _ & Ha); [unfold score_keys; set_solver|].
  destruct (ScoreMapping.well_formed_lookup x "story" Hwf)
    as (b & _ & Hb); [unfold score_keys; set_solver|].
  destruct (ScoreMapping.well_formed_lookup x "creativity" Hwf)
    as (c & _ & Hc); [unfold score_keys; set_solver|].
  destruct (ScoreMapping.well_formed_lookup x "chiangmai" Hwf)
    as (d & _ & Hd); [unfold score_keys; set_solver|].
  destruct (ScoreMapping.well_formed_lookup x "overall" Hwf)
    as (e & _ & He); [unfold score_keys; set_solver|].
  destruct (ScoreMapping.well_formed_lookup x "totalScore" Hwf)
    as (t & _ & Ht); [unfold score_keys; set_solver|].
  exists a, b, c, d, e, t. apply map_eq. intros k.
  destruct (decide (k ∈ score_keys)) as [Hk|Hk].
  - unfold score_keys in Hk.
    repeat (apply elem_of_cons in Hk as [->|Hk]; [assumption|]).
    inversion Hk.
  - rewrite (ScoreMapping.well_formed_other x k Hwf Hk).
    unfold score_keys in Hk.
    repeat (apply not_elem_of_cons in Hk as [? Hk]).
    unfold scoreInput.
    repeat (rewrite lookup_insert_ne by congruence).
    symmetry. apply lookup_singleton_ne. congruence.
Qed.

Lemma addScoringComment_id (r : Reply) (db db' : CommentDb)
    (sid aid an ae cid : string) (scores content metadata : jsval) :
  addScoringComment r db sid aid an ae scores content metadata
    = Ok (cid, db') ->
  cid = auto_id r.
Proof.
  unfold addScoringComment.
  destruct (mapAppScoresToDatabase scores); simpl; [|discriminate].
  destruct (Store.addDoc r db _ _); simpl; [|discriminate].
  by intros [= <- _].
Qed.

Lemma or_js_twice (v w : jsval) : or_js (or_js v w) w = or_js v w.
Proof.
  unfold or_js. destruct (truthy v) eqn:Hv; [by rewrite Hv|].
  by destruct (truthy w).
Qed.

Ltac scoring_fields sid aid an ae content metadata r a b c d e t :=
  change (prop _ "isDeleted") with (JBool false);
  change (prop _ "adminId") with (JStr aid);
  change (prop _ "adminName") with (JStr an);
  change (prop _ "type") with (JStr "scoring");
  change (prop _ "createdAt") with (JTimestamp (server_time r));
  change (prop _ "updatedAt") with JUndefined;
  change (prop _ "submissionId") with (JStr sid);
  change (prop _ "adminEmail") with (JStr ae);
  change (prop _ "content") with (or_js content (JStr ""));
  change (prop _ "metadata") with (or_js metadata (JObj ∅));
  change (prop _ "isEdited") with (JBool false);
  change (prop _ "scores") with (JObj (persistedRecord a b c d e t)).




(** *** The live subscription *)

Lemma onEvent_weakens (sid : string) (sub : Subscription) (ev : StoreEvent) :
  (weakness sub <= weakness (fst (onEvent sid sub ev)))%nat
  /\ (is_failure ev = true ->
      sub = None \/ (weakness sub < weakness (fst (onEvent sid sub ev)))%nat)
  /\ (length (snd (onEvent sid sub ev)) <= 1)%nat.
Proof.
  destruct sub as [[]|], ev as [docs clock|setupThrows]; simpl;
    repeat match goal with
           | |- context [negb (setupThrows ?q)] => destruct (setupThrows q)
           end; simpl; repeat split; try lia;
    try (intros _; first [by left | right; simpl; lia]);
    try (intros; discriminate).
Qed.

Lemma onEvents_cons (sid : string) (sub : Subscription) (ev : StoreEvent)
    (evs : list StoreEvent) :
  onEvents sid sub (ev :: evs)
  = (fst (onEvents sid (fst (onEvent sid sub ev)) evs),
     snd (onEvent sid sub ev)
     ++ snd (onEvents sid (fst (onEvent sid sub ev)) evs)).
Proof.
  simpl. destruct (onEvent sid sub ev) as [sub' out]. simpl.
  by destruct (onEvents sid sub' evs).
Qed.

Lemma onEvents_dead (sid : string) (evs : list StoreEvent) :
  onEvents sid None evs = (None, []).
Proof.
  induction evs as [|ev evs IH]; [done|].
  rewrite onEvents_cons. simpl. by rewrite IH.
Qed.

(** A subscription only ever moves to a weaker query: whatever the store
    pushes or fails with afterwards, the listener never returns to a
    stronger strategy, each event reaches the callback at most once, and
    once no listener is left nothing is delivered any more. *)
Theorem subscription_only_weakens (sid : string) (sub : Subscription)
    (evs : list StoreEvent) :
  (weakness sub <= weakness (fst (onEvents sid sub evs)))%nat
  /\ (length (snd (onEvents sid sub evs)) <= length evs)%nat
  /\ onEvents sid None evs = (None, []).
Proof.
  split; [|split; [|apply onEvents_dead]].
  - revert sub. induction evs as [|ev evs IH]; intros sub; [simpl; lia|].
    rewrite onEvents_cons. simpl fst.
    destruct (onEvent_weakens sid sub ev) as (Hw & _ & _).
    etrans; [exact Hw|apply IH].
  - revert sub. induction evs as [|ev evs IH]; intros sub; [simpl; lia|].
    rewrite onEvents_cons. simpl snd. rewrite length_app. simpl length.
    destruct (onEvent_weakens sid sub ev) as (_ & _ & Hl).
    specialize (IH (fst (onEvent sid sub ev))). lia.
Qed.

Lemma failures_weaken (sid : string) (sub : Subscription)
    (evs : list StoreEvent) :
  fst (onEvents sid sub evs) = None
  \/ (weakness sub + length (filter (fun ev => is_failure ev = true) evs)
      <= weakness (fst (onEvents sid sub evs)))%nat.
Proof.
  revert sub. induction evs as [|ev evs IH]; intros sub.
  { right. simpl. lia. }
  rewrite onEvents_cons. simpl fst.
  destruct (IH (fst (onEvent sid sub ev))) as [Hdead|Hcount]; [by left|].
  destruct (onEvent_weakens sid sub ev) as (Hw & Hfail & _).
  rewrite filter_cons.
  destruct (decide (is_failure ev = true)) as [Hev|Hev].
  - destruct (Hfail Hev) as [->|Hlt].
    + left. simpl. by rewrite onEvents_dead.
    + right. simpl length. lia.
  - right. lia.
Qed.

(** Three listener failures end a subscription for good, from whatever
    strategy it started and whatever the store pushed in between: the
    service goes through its fallbacks once and never sets up a listener
    again. *)
Theorem three_failures_end_the_subscription (sid : string)
    (sub : Subscription) (evs : list StoreEvent) :
  (3 <= length (filter (fun ev => is_failure ev = true) evs))%nat ->
  fst (onEvents sid sub evs) = None.
Proof.
  intros Hthree. destruct (failures_weaken sid sub evs) as [Hdead|Hcount];
    [exact Hdead|].
  destruct (fst (onEvents sid sub evs)) as [[]|]; simpl in Hcount;
    [lia..|reflexivity].
Qed.

Lemma three_failures_end_the_subscription_witness :
  let fails := Failed (fun _ => false) in
  let evs := [fails; Pushed exampleColl (fun _ => 0); fails; fails] in
  (3 <= length (filter (fun ev => is_failure ev = true) evs))%nat
  /\ fst (onEvents "S1" (Some filtered) evs) = None.
Proof.
  intros fails evs.
  assert (Hthree :
    (3 <= length (filter (fun ev => is_failure ev = true) evs))%nat)
    by (vm_compute; lia).
  split; [exact Hthree|].
  exact (three_failures_end_the_subscription "S1" (Some filtered) evs Hthree).
Defined.

(** *** The kinds of comments *)

Lemma db_typed_update (r : Reply) (db db' : CommentDb)
    (key : string * string) (fields : jsobj) :
  db_typed db -> Store.updateDoc r db key fields = Ok db' ->
  fields !! "type" = None -> db_typed db'.
Proof.
  intros Hdb (old & Hold & ->)%updateDoc_inv Hnone key' d' Hlook.
  destruct (decide (key' = key)) as [->|Hne].
  - rewrite lookup_insert_eq in Hlook. injection Hlook as <-.
    rewrite (lookup_union_r _ _ _ Hnone). by apply (Hdb key).
  - rewrite lookup_insert_ne in Hlook by congruence. by apply (Hdb key').
Qed.

Lemma db_typed_insert (db : CommentDb) (key : string * string) (d : jsobj) :
  db_typed db ->
  d !! "type" = Some (JStr "general") \/ d !! "type" = Some (JStr "scoring") ->
  db_typed (<[key := d]> db).
Proof.
  intros Hdb Hd key' d' Hlook.
  destruct (decide (key' = key)) as [->|Hne].
  - rewrite lookup_insert_eq in Hlook. by injection Hlook as <-.
  - rewrite lookup_insert_ne in Hlook by congruence. by apply (Hdb key').
Qed.

Lemma wrote_keeps_typed (render : jsval -> string)
    (roundPercent : jsval -> jsval) (db db' : CommentDb) :
  db_typed db -> wrote render roundPercent db db' -> db_typed db'.
Proof.
  intros Hdb [r sid aid an ae content metadata cid H
             |r sid aid an ae scores content metadata cid H
             |r sid aid an ae oldStatus newStatus reason cid H
             |r sid aid an ae flagged reason cid H
             |r sid cid content metadata H
             |r sid cid H
             |r sid cid scores comments editedBy H].
  - apply addGeneralComment_inv in H as [_ ->].
    apply db_typed_insert; [exact Hdb|by left].
  - unfold addScoringComment in H.
    destruct (mapAppScoresToDatabase scores) as [dbScores|];
      simpl in H; [|discriminate].
    destruct (Store.addDoc r db _ _) as [db1|] eqn:Hadd;
      simpl in H; [|discriminate].
    injection H as <- <-. apply addDoc_inv in Hadd as ->.
    apply db_typed_insert; [exact Hdb|by right].
  - apply try_catch_ok in H; [|done].
    apply addGeneralComment_inv in H as [_ ->].
    apply db_typed_insert; [exact Hdb|by left].
  - apply try_catch_ok in H; [|done].
    apply addGeneralComment_inv in H as [_ ->].
    apply db_typed_insert; [exact Hdb|by left].
  - apply try_catch_ok in H; [|done].
    eapply db_typed_update; [exact Hdb|exact H|done].
  - apply try_catch_ok in H; [|done].
    eapply db_typed_update; [exact Hdb|exact H|done].
  - rewrite ScoreMapping.rescoring_is_refused in H. discriminate H.
Qed.

(** The comment type declares four kinds, but the service only ever
    stores two: in a store that only the service has written every
    comment is of type [general] or [scoring], and no tier of
    [getComments] hands out a comment of type [status_change] or
    [flag]. *)
Theorem service_stores_two_kinds_only (render : jsval -> string)
    (roundPercent : jsval -> jsval) (db : CommentDb) :
  built render roundPercent db ->
  db_typed db
  /\ forall sid getDocs clock l c,
       store_over (collectionOf db sid) getDocs ->
       getComments getDocs clock sid = Ok l -> c ∈ l ->
       type c = JStr "general" \/ type c = JStr "scoring".
Proof.
  intros Hbuilt.
  assert (Hdb : db_typed db).
  { induction Hbuilt as [|db db' _ IH Hw].
    - intros key d Hlook. by rewrite lookup_empty in Hlook.
    - by eapply wrote_keeps_typed. }
  split; [exact Hdb|].
  intros sid getDocs clock l c Hstore Hl Hc.
  apply getComments_inv in Hl as [->|(q & r & Hq & -> & _)];
    [by apply elem_of_nil in Hc|].
  apply onSnapshotComments_elem in Hc as (d & now & Hd & Hp).
  destruct (answers_elem _ _ _ _ (Hstore q r Hq) Hd) as [Hcoll _].
  apply collectionOf_elem in Hcoll.
  assert (Htype : type c = prop (doc_data d) "type").
  { unfold processDoc in Hp.
    destruct (is_unfiltered q && _); [discriminate|].
    destruct (_ || _); [discriminate|].
    destruct (toDate_opt (prop (doc_data d) "createdAt")); simpl in Hp;
      [|discriminate].
    destruct (toDate_opt (prop (doc_data d) "updatedAt")); simpl in Hp;
      [|discriminate].
    by injection Hp as <-. }
  rewrite Htype. unfold prop.
  destruct (Hdb _ _ Hcoll) as [-> | ->]; [by left|by right].
Qed.

Lemma service_stores_two_kinds_only_witness :
  built render_primitive roundPercent_int exampleScoringDb
  /\ db_typed exampleScoringDb.
Proof.
  split; [exact exampleScoringDb_built|].
  exact (proj1 (service_stores_two_kinds_only _ _ _ exampleScoringDb_built)).
Defined.

Lemma fieldOf_inserted (db : CommentDb) (sid cid field : string)
    (d : jsobj) :
  fieldOf (<[(sid, cid) := d]> db) sid cid field = prop d field.
Proof. unfold fieldOf. by rewrite lookup_insert_eq. Qed.

Lemma addStatusChangeComment_succeeds (r : Reply) (db : CommentDb)
    (sid aid an ae oldStatus newStatus : string) (reason : option string) :
  write_ok r = true ->
  exists db',
    addStatusChangeComment r db sid aid an ae oldStatus newStatus reason
    = Ok (auto_id r, db').
Proof.
  intros Hw. unfold addStatusChangeComment, addGeneralComment, Store.addDoc.
  rewrite Hw. by eexists.
Qed.

(** A status change and a flag are both stored as comments of type
    [general]; what they are is only recorded in [metadata.type]. The
    text of a status change is the reason when one is given and not
    empty, otherwise a sentence naming the two statuses; the text of a
    flag carries the reason only when the application is being flagged,
    and is [Application unflagged] whatever the reason otherwise. *)
Theorem status_and_flag_comments_are_general (r : Reply) (db db' : CommentDb)
    (sid aid an ae cid : string) :
  (forall oldStatus newStatus reason,
     addStatusChangeComment r db sid aid an ae oldStatus newStatus reason
       = Ok (cid, db') ->
     fieldOf db' sid cid "type" = JStr "general"
     /\ get (fieldOf db' sid cid "metadata") "type" = JStr "status_change"
     /\ get (fieldOf db' sid cid "metadata") "newStatus" = JStr newStatus
     /\ fieldOf db' sid cid "content"
        = JStr (match reason with
                | Some s =>
                    if String.eqb s "" then
                      "Status changed from " +:+ oldStatus +:+ " to "
                      +:+ newStatus
                    else s
                | None =>
                    "Status changed from " +:+ oldStatus +:+ " to "
                    +:+ newStatus
                end))
  /\ (forall flagged reason,
        addFlagComment r db sid aid an ae flagged reason = Ok (cid, db') ->
        fieldOf db' sid cid "type" = JStr "general"
        /\ get (fieldOf db' sid cid "metadata") "type" = JStr "flag"
        /\ get (fieldOf db' sid cid "metadata") "flagged" = JBool flagged
        /\ (flagged = false ->
            fieldOf db' sid cid "content" = JStr "Application unflagged")).
Proof.
  split.
  - intros oldStatus newStatus reason H.
    apply try_catch_ok in H; [|done].
    apply addGeneralComment_inv in H as [_ ->].
    rewrite !fieldOf_inserted.
    split; [reflexivity|]. split; [reflexivity|]. split; [reflexivity|].
    change (prop _ "content")
      with (or_js (opt_str reason)
              (JStr ("Status changed from " +:+ oldStatus +:+ " to "
                     +:+ newStatus))).
    destruct reason as [s|]; [|reflexivity].
    unfold or_js, opt_str, truthy.
    by destruct (String.eqb s "").
  - intros flagged reason H.
    apply try_catch_ok in H; [|done].
    apply addGeneralComment_inv in H as [_ ->].
    rewrite !fieldOf_inserted.
    split; [reflexivity|]. split; [reflexivity|]. split; [reflexivity|].
    by intros ->.
Qed.

Lemma status_and_flag_comments_are_general_witness :
  exists db',
    addStatusChangeComment (accepting "s1" 1000) ∅ "S1" "admin1" "Judge"
      "judge@example.org" "submitted" "accepted" (Some "")
      = Ok ("s1", db')
    /\ fieldOf db' "S1" "s1" "type" = JStr "general"
    /\ fieldOf db' "S1" "s1" "content"
       = JStr "Status changed from submitted to accepted".
Proof.
  destruct (addStatusChangeComment_succeeds (accepting "s1" 1000) ∅ "S1"
              "admin1" "Judge" "judge@example.org" "submitted" "accepted"
              (Some "") eq_refl) as [db' Hadd].
  exists db'. split; [exact Hadd|].
  destruct (status_and_flag_comments_are_general
              (accepting "s1" 1000) ∅ db' "S1" "admin1" "Judge"
              "judge@example.org" "s1") as [Hstatus _].
  destruct (Hstatus _ _ _ Hadd) as (Htype & _ & _ & Hcontent).
  split; [exact Htype|exact Hcontent].
Defined.

(** *** Edits *)

Lemma updateComment_inv (r : Reply) (db db' : CommentDb) (sid cid : string)
    (content : string) (metadata : jsval) :
  updateComment r db sid cid content metadata = Ok db' ->
  exists old,
    db !! (sid, cid) = Some old
    /\ db' = <[(sid, cid) :=
                 ({[ "content" := JStr content;
                     "metadata" := or_js metadata (JObj ∅);
                     "updatedAt" := JTimestamp (server_time r);
                     "isEdited" := JBool true ]} : jsobj) ∪ old]> db.
Proof.
  intros H. apply try_catch_ok in H; [|done]. by apply updateDoc_inv in H.
Qed.

Ltac not_an_edit_field H :=
  unfold edit_fields in H;
  repeat (apply not_elem_of_cons in H as [? H]);
  repeat (rewrite lookup_insert_ne by congruence);
  try (rewrite lookup_singleton_ne by congruence); reflexivity.

(** An edit, whether [updateComment] or [updateScoringComment], marks the
    comment as edited and leaves alone every field other than [content],
    [scores], [updatedAt], [isEdited], [editHistory] and [metadata], as
    well as every other comment: author, type, [createdAt] and
    [isDeleted] stay what they were, so editing a deleted comment succeeds
    and does not bring it back. *)
Theorem edits_keep_identity_fields (render : jsval -> string)
    (roundPercent : jsval -> jsval) (r : Reply) (db db' : CommentDb)
    (sid cid content : string) (metadata scores : jsval)
    (comments editedBy : string) :
  updateComment r db sid cid content metadata = Ok db'
  \/ updateScoringComment render roundPercent r db sid cid scores comments
       editedBy = Ok db' ->
  fieldOf db' sid cid "isEdited" = JBool true
  /\ (forall field, field ∉ edit_fields ->
        fieldOf db' sid cid field = fieldOf db sid cid field)
  /\ (forall key, key <> (sid, cid) -> db' !! key = db !! key).
Proof.
  intros [(old & Hold & ->)%updateComment_inv|Hrescore].
  - split; [by rewrite (fieldOf_updated _ _ _ _ _ _ Hold)|]. split.
    + intros field Hf. rewrite (fieldOf_updated _ _ _ _ _ _ Hold).
      assert (Hnone : ({[ "content" := JStr content;
                          "metadata" := or_js metadata (JObj ∅);
                          "updatedAt" := JTimestamp (server_time r);
                          "isEdited" := JBool true ]} : jsobj) !! field
                      = None) by not_an_edit_field Hf.
      by rewrite Hnone.
    + intros key Hkey. by rewrite lookup_insert_ne.
  - rewrite ScoreMapping.rescoring_is_refused in Hrescore.
    discriminate Hrescore.
Qed.

Lemma edits_keep_identity_fields_witness :
  exists db1 db2,
    deleteComment (accepting "" 2000) exampleScoringDb "S1" "c1" = Ok db1
    /\ updateComment (accepting "" 3000) db1 "S1" "c1" "changed" JUndefined
       = Ok db2
    /\ fieldOf db2 "S1" "c1" "isEdited" = JBool true
    /\ fieldOf db2 "S1" "c1" "isDeleted" = JBool true.
Proof.
  destruct (deleteComment_succeeds (accepting "" 2000) exampleScoringDb
              "S1" "c1" eq_refl exampleScoringDb_c1) as [db1 H1].
  destruct (updateComment_succeeds (accepting "" 3000) db1 "S1" "c1"
              "changed" JUndefined eq_refl
              (deleted_still_stored _ _ _ _ _ H1)) as [db2 H2].
  exists db1, db2. split; [exact H1|]. split; [exact H2|].
  destruct (edits_keep_identity_fields render_primitive roundPercent_int
              (accepting "" 3000) db1 db2 "S1" "c1" "changed" JUndefined
              JUndefined "" "" (or_introl H2)) as (Hedited & Hkeep & _).
  split; [exact Hedited|].
  rewrite Hkeep
    by (unfold edit_fields;
        repeat (apply not_elem_of_cons; split; [discriminate|]);
        apply not_elem_of_nil).
  by rewrite (deleteComment_field _ _ _ _ _ _ H1).
Defined.



(** *** The two versions of the service on a malformed document *)

Lemma toComments_malformed (clock : nat -> Z) (i : nat) (docs : list DocSnap)
    (d : DocSnap) :
  d ∈ docs ->
  is_ok (toDate_opt (prop (doc_data d) "createdAt")) = false ->
  is_ok (CommentsServiceV1.toComments clock i docs) = false.
Proof.
  intros Hd Hbad. revert i.
  induction docs as [|d' docs IH]; intros i; [by apply elem_of_nil in Hd|].
  simpl. apply elem_of_cons in Hd as [<-|Hd].
  - unfold CommentsServiceV1.toComment.
    by destruct (toDate_opt (prop (doc_data d) "createdAt")).
  - destruct (CommentsServiceV1.toComment (clock i) d'); [|done]. simpl.
    specialize (IH Hd (S i)).
    by destruct (CommentsServiceV1.toComments clock (S i) docs).
Qed.

Lemma processDocs_complete (s : QueryKind) (sid : string) (clock : nat -> Z)
    (i : nat) (docs : list DocSnap) (d : DocSnap) (c : ShortFilmComment) :
  d ∈ docs -> (forall now, processDoc s sid now d = Some c) ->
  c ∈ processDocs s sid clock i docs.
Proof.
  intros Hd Hc. revert i.
  induction docs as [|d' docs IH]; intros i; [by apply elem_of_nil in Hd|].
  simpl. apply elem_of_cons in Hd as [<-|Hd].
  - rewrite Hc. left.
  - specialize (IH Hd (S i)).
    destruct (processDoc s sid (clock i) d'); [by right|exact IH].
Qed.

Lemma processDoc_dated (s : QueryKind) (sid : string) (now : Z)
    (d : DocSnap) (c : ShortFilmComment) :
  processDoc s sid now d = Some c ->
  is_ok (toDate_opt (prop (doc_data d) "createdAt")) = true.
Proof.
  unfold processDoc.
  destruct (is_unfiltered s && _); [discriminate|].
  destruct (_ || _); [discriminate|].
  by destruct (toDate_opt (prop (doc_data d) "createdAt")).
Qed.

(** One document whose [createdAt] is not a timestamp makes the earlier
    [getComments] fail as a whole, where the later one only leaves that
    document out: it still returns every comment that the other documents
    of the answer yield. *)
Theorem one_malformed_document
    (getDocs : QueryKind -> result (list DocSnap)) (clock : nat -> Z)
    (sid : string) (docs : list DocSnap) (d : DocSnap) :
  sid <> EmptyString ->
  getDocs filtered = Ok docs -> d ∈ docs ->
  is_ok (toDate_opt (prop (doc_data d) "createdAt")) = false ->
  CommentsServiceV1.getComments getDocs clock sid
  = Throw "Failed to fetch comments"
  /\ exists l,
       getComments getDocs clock sid = Ok l
       /\ (forall d' c, d' ∈ docs ->
             (forall now, processDoc filtered sid now d' = Some c) -> c ∈ l)
       /\ (forall c, c ∈ l ->
             exists d', d' ∈ docs /\ doc_id d' = id c
               /\ is_ok (toDate_opt (prop (doc_data d') "createdAt")) = true).
Proof.
  intros Hsid Hdocs Hd Hbad. split.
  - unfold CommentsServiceV1.getComments. rewrite Hdocs. simpl.
    destruct docs as [|d0 docs0]; [by apply elem_of_nil in Hd|].
    simpl length. simpl Nat.eqb. cbv iota. simpl rbind.
    pose proof (toComments_malformed clock 0 _ _ Hd Hbad) as Hthrow.
    simpl in Hthrow.
    match goal with
    | |- try_catch ?body _ = _ => by destruct body
    end.
  - exists (onSnapshotComments filtered sid clock docs). split; [|split].
    + apply CommentQueries.getComments_answer; [exact Hsid|].
      unfold runQueries. by rewrite Hdocs.
    + intros d' c Hd' Hc. by apply (processDocs_complete _ _ _ _ _ d').
    + intros c (d' & now & Hd' & Hp)%onSnapshotComments_elem.
      exists d'. split; [exact Hd'|]. split.
      * by destruct (CommentQueries.processDoc_fields _ _ _ _ _ Hp) as (-> & _).
      * by eapply processDoc_dated.
Qed.

Lemma one_malformed_document_witness :
  let bad := {| doc_id := "bad";
                doc_data := {[ "adminId" := JStr "admin1";
                               "adminName" := JStr "Judge";
                               "type" := JStr "general";
                               "isDeleted" := JBool false;
                               "createdAt" := JStr "yesterday" ]} |} in
  let store := storeWith (Some [generalComment "c3" "third" 3000 (Some false);
                                bad]) None None in
  CommentsServiceV1.getComments store (fun _ => 0) "S1"
  = Throw "Failed to fetch comments"
  /\ ids (getComments store (fun _ => 0) "S1") = ["c3"].
Proof.
  intros bad store.
  assert (Hsid : "S1" <> EmptyString) by discriminate.
  assert (Hdocs : store filtered
                  = Ok [generalComment "c3" "third" 3000 (Some false); bad])
    by reflexivity.
  assert (Hd : bad ∈ [generalComment "c3" "third" 3000 (Some false); bad])
    by (right; left).
  assert (Hbad : is_ok (toDate_opt (prop (doc_data bad) "createdAt")) = false)
    by reflexivity.
  destruct (one_malformed_document store (fun _ => 0) "S1" _ bad
              Hsid Hdocs Hd Hbad) as [Hthrow _].
  split; [exact Hthrow|reflexivity].
Defined.

End CommentsFacts.
